(** * DUPC packet builder (comm_mkdupc.py): header codec, packet builder
      and payload resolver.

    The ctypes structures of the script are embedded as records of raw
    integer fields.  A store into a [c_ubyte] / [c_ushort] field keeps the
    low 8 / 16 bits of the stored integer; the bit-packed properties of
    [DJICmdV1Header] are the script's masked read-modify-write accessors.
    Byte buffers are lists of integers, least significant byte first. *)

From Stdlib Require Import String Ascii.
From Stdlib Require HexString.
From Stdlib Require Import ZArith List Bool Lia.
From Stdlib Require Import Floats.SpecFloat.
Import ListNotations.
Local Open Scope Z_scope.

(** ** Scalar ctypes stores and little-endian layout *)

Module CTypes.

(** What a store into a field of the given C type keeps of a Python int. *)
Definition c_ubyte (v : Z) : Z := v mod 2 ^ 8.
Definition c_ushort (v : Z) : Z := v mod 2 ^ 16.

(** Memory image of a 16-bit little-endian field. *)
Definition le16_bytes (w : Z) : list Z := [w mod 256; (w / 256) mod 256].

(** Reading little-endian fields out of a buffer at a byte offset. *)
Definition u8_at (b : list Z) (off : nat) : Z := nth off b 0.
Definition u16_at (b : list Z) (off : nat) : Z :=
  Z.lor (u8_at b off) (Z.shiftl (u8_at b (off + 1)) 8).
Definition u32_at (b : list Z) (off : nat) : Z :=
  Z.lor (u16_at b off) (Z.shiftl (u16_at b (off + 2)) 16).

(** [c_int]: the 32-bit pattern read as two's complement. *)
Definition i32_at (b : list Z) (off : nat) : Z :=
  let u := u32_at b off in
  if 2 ^ 31 <=? u then u - 2 ^ 32 else u.

(** [c_float]: the 32-bit pattern read as an IEEE-754 binary32 value. *)
Definition binary32_of_bits (u : Z) : spec_float :=
  let s := Z.testbit u 31 in
  let e := Z.land (Z.shiftr u 23) 255 in
  let m := Z.land u (Z.ones 23) in
  if e =? 0 then
    match m with
    | Zpos p => S754_finite s p (-149)
    | _ => S754_zero s
    end
  else if e =? 255 then
    (if m =? 0 then S754_infinity s else S754_nan)
  else
    match m + 2 ^ 23 with
    | Zpos p => S754_finite s p (e - 150)
    | _ => S754_nan
    end.

Definition f32_at (b : list Z) (off : nat) : spec_float :=
  binary32_of_bits (u32_at b off).

(** A [c_char * n] field: the [n] raw bytes at the offset. *)
Definition chars_at (b : list Z) (off n : nat) : list Z :=
  firstn n (skipn off b).

(** Reading a [c_char] array attribute stops at the first NUL. *)
Fixpoint c_char_array_value (raw : list Z) : list Z :=
  match raw with
  | [] => []
  | c :: rest => if c =? 0 then [] else c :: c_char_array_value rest
  end.

(** [bytes.ljust(width, b'\0')]. *)
Definition ljust (b : list Z) (width : nat) : list Z :=
  b ++ repeat 0 (width - length b).

End CTypes.
Import CTypes.

(** ** Exceptions *)

Inductive exn : Type :=
| ValueError.

Inductive result (A : Type) : Type :=
| Return (a : A)
| Raise (e : exn).
Arguments Return {A} a.
Arguments Raise {A} e.

Definition bind {A B : Type} (r : result A) (k : A -> result B) : result B :=
  match r with
  | Return a => k a
  | Raise e => Raise e
  end.

(** ** Enumerations (the integer values used by the resolver) *)

Definition CMD_SET_TYPE_GENERAL : Z := 0.
Definition CMD_SET_TYPE_CAMERA : Z := 2.
Definition CMD_SET_TYPE_FLYCONTROLLER : Z := 3.
Definition PACKET_TYPE_REQUEST : Z := 0.
Definition PACKET_TYPE_RESPONSE : Z := 1.

(** ** DJICmdV1Header *)

Record DJICmdV1Header : Type := mkHeader {
  sof : Z;
  ver_length_tag : Z;
  header_crc8 : Z;
  sender_info : Z;
  receiver_info : Z;
  seq_num : Z;
  cmd_type_data : Z;
  cmd_set : Z;
  cmd_id : Z
}.

Definition sizeof_DJICmdV1Header : nat := 11.
Definition sizeof_DJICmdV1Footer : nat := 2.

Module Hdr.

(** Raw field stores. *)
Definition set_sof (h : DJICmdV1Header) (v : Z) : DJICmdV1Header :=
  mkHeader (c_ubyte v) (ver_length_tag h) (header_crc8 h) (sender_info h)
           (receiver_info h) (seq_num h) (cmd_type_data h) (cmd_set h) (cmd_id h).
Definition set_ver_length_tag (h : DJICmdV1Header) (v : Z) : DJICmdV1Header :=
  mkHeader (sof h) (c_ushort v) (header_crc8 h) (sender_info h)
           (receiver_info h) (seq_num h) (cmd_type_data h) (cmd_set h) (cmd_id h).
Definition set_header_crc8 (h : DJICmdV1Header) (v : Z) : DJICmdV1Header :=
  mkHeader (sof h) (ver_length_tag h) (c_ubyte v) (sender_info h)
           (receiver_info h) (seq_num h) (cmd_type_data h) (cmd_set h) (cmd_id h).
Definition set_sender_info (h : DJICmdV1Header) (v : Z) : DJICmdV1Header :=
  mkHeader (sof h) (ver_length_tag h) (header_crc8 h) (c_ubyte v)
           (receiver_info h) (seq_num h) (cmd_type_data h) (cmd_set h) (cmd_id h).
Definition set_receiver_info (h : DJICmdV1Header) (v : Z) : DJICmdV1Header :=
  mkHeader (sof h) (ver_length_tag h) (header_crc8 h) (sender_info h)
           (c_ubyte v) (seq_num h) (cmd_type_data h) (cmd_set h) (cmd_id h).
Definition set_seq_num (h : DJICmdV1Header) (v : Z) : DJICmdV1Header :=
  mkHeader (sof h) (ver_length_tag h) (header_crc8 h) (sender_info h)
           (receiver_info h) (c_ushort v) (cmd_type_data h) (cmd_set h) (cmd_id h).
Definition set_cmd_type_data (h : DJICmdV1Header) (v : Z) : DJICmdV1Header :=
  mkHeader (sof h) (ver_length_tag h) (header_crc8 h) (sender_info h)
           (receiver_info h) (seq_num h) (c_ubyte v) (cmd_set h) (cmd_id h).
Definition set_cmd_set (h : DJICmdV1Header) (v : Z) : DJICmdV1Header :=
  mkHeader (sof h) (ver_length_tag h) (header_crc8 h) (sender_info h)
           (receiver_info h) (seq_num h) (cmd_type_data h) (c_ubyte v) (cmd_id h).
Definition set_cmd_id (h : DJICmdV1Header) (v : Z) : DJICmdV1Header :=
  mkHeader (sof h) (ver_length_tag h) (header_crc8 h) (sender_info h)
           (receiver_info h) (seq_num h) (cmd_type_data h) (cmd_set h) (c_ubyte v).

(** The bit-packed properties. *)
Definition whole_length (h : DJICmdV1Header) : Z :=
  Z.land (ver_length_tag h) 1023.
Definition set_whole_length (h : DJICmdV1Header) (value : Z) : DJICmdV1Header :=
  set_ver_length_tag h (Z.lor (Z.land (ver_length_tag h) 64512) (Z.land value 1023)).

Definition version (h : DJICmdV1Header) : Z :=
  Z.shiftr (Z.land (ver_length_tag h) 64512) 10.
Definition set_version (h : DJICmdV1Header) (value : Z) : DJICmdV1Header :=
  set_ver_length_tag h
      (Z.lor (Z.land (ver_length_tag h) 1023) (Z.shiftl (Z.land value 63) 10)).

Definition sender_type (h : DJICmdV1Header) : Z :=
  Z.land (sender_info h) 31.
Definition set_sender_type (h : DJICmdV1Header) (value : Z) : DJICmdV1Header :=
  set_sender_info h (Z.lor (Z.land (sender_info h) 224) (Z.land value 31)).

Definition sender_index (h : DJICmdV1Header) : Z :=
  Z.shiftr (Z.land (sender_info h) 224) 5.
Definition set_sender_index (h : DJICmdV1Header) (value : Z) : DJICmdV1Header :=
  set_sender_info h
      (Z.lor (Z.land (sender_info h) 31) (Z.shiftl (Z.land value 7) 5)).

Definition receiver_type (h : DJICmdV1Header) : Z :=
  Z.land (receiver_info h) 31.
Definition set_receiver_type (h : DJICmdV1Header) (value : Z) : DJICmdV1Header :=
  set_receiver_info h (Z.lor (Z.land (receiver_info h) 224) (Z.land value 31)).

Definition receiver_index (h : DJICmdV1Header) : Z :=
  Z.shiftr (Z.land (receiver_info h) 224) 5.
Definition set_receiver_index (h : DJICmdV1Header) (value : Z) : DJICmdV1Header :=
  set_receiver_info h
      (Z.lor (Z.land (receiver_info h) 31) (Z.shiftl (Z.land value 7) 5)).

Definition packet_type (h : DJICmdV1Header) : Z :=
  Z.shiftr (cmd_type_data h) 7.
Definition set_packet_type (h : DJICmdV1Header) (value : Z) : DJICmdV1Header :=
  set_cmd_type_data h
      (Z.lor (Z.land (cmd_type_data h) 127) (Z.shiftl (Z.land value 1) 7)).

Definition ack_type (h : DJICmdV1Header) : Z :=
  Z.land (Z.shiftr (cmd_type_data h) 5) 3.
Definition set_ack_type (h : DJICmdV1Header) (value : Z) : DJICmdV1Header :=
  set_cmd_type_data h
      (Z.lor (Z.land (cmd_type_data h) 159) (Z.shiftl (Z.land value 3) 5)).

Definition encrypt_type (h : DJICmdV1Header) : Z :=
  Z.land (cmd_type_data h) 7.
Definition set_encrypt_type (h : DJICmdV1Header) (value : Z) : DJICmdV1Header :=
  set_cmd_type_data h
      (Z.lor (Z.land (cmd_type_data h) 248) (Z.land value 7)).

(** A fresh ctypes structure is zero-filled. *)
Definition zeroed : DJICmdV1Header := mkHeader 0 0 0 0 0 0 0 0 0.

(** [DJICmdV1Header.__init__]. *)
Definition init : DJICmdV1Header :=
  let self := zeroed in
  let self := set_sof self 0x55 in
  let self := set_version self 1 in
  set_whole_length self (Z.of_nat sizeof_DJICmdV1Header + 2).

(** The packed little-endian memory image of the structure. *)
Definition to_bytes (h : DJICmdV1Header) : list Z :=
  [sof h] ++ le16_bytes (ver_length_tag h) ++ [header_crc8 h; sender_info h;
     receiver_info h] ++ le16_bytes (seq_num h) ++ [cmd_type_data h; cmd_set h;
     cmd_id h].

(** [DJICmdV1Header.from_buffer_copy]: needs at least [sizeof] bytes, reads
      the first [sizeof] of them and does not run [__init__]. *)
Definition from_buffer_copy (b : list Z) : result DJICmdV1Header :=
  if (length b <? sizeof_DJICmdV1Header)%nat then Raise ValueError
  else Return (mkHeader (u8_at b 0) (u16_at b 1) (u8_at b 3) (u8_at b 4)
                          (u8_at b 5) (u16_at b 6) (u8_at b 8) (u8_at b 9)
                          (u8_at b 10)).

End Hdr.

(** ** DJICmdV1Footer *)

Record DJICmdV1Footer : Type := mkFooter { crc16 : Z }.

Module Ftr.

(** A fresh footer is zero-filled; storing [crc16] keeps 16 bits. *)
Definition zeroed : DJICmdV1Footer := mkFooter 0.
Definition set_crc16 (f : DJICmdV1Footer) (v : Z) : DJICmdV1Footer :=
  mkFooter (c_ushort v).
Definition to_bytes (f : DJICmdV1Footer) : list Z := le16_bytes (crc16 f).

End Ftr.

(** ** Payload structures (all packed, little-endian)

    [overlay] reads the fields of a structure laid over a buffer;
    [from_buffer_copy] refuses a buffer shorter than the structure. *)

Module DJIPayload_General_VersionInquiryRe.
Record t : Type := mk {
  unknown0 : Z;
  unknown1 : Z;
  hw_version : list Z;
  ldr_version : Z;
  app_version : Z;
  unknown1A : Z;
  unknown1E : Z
}.
Definition sizeof : nat := 31.
Definition overlay (b : list Z) : t :=
  mk (u8_at b 0) (u8_at b 1) (chars_at b 2 16) (u32_at b 18)
     (u32_at b 22) (u32_at b 26) (u8_at b 30).
Definition from_buffer_copy (b : list Z) : result t :=
  if (length b <? sizeof)%nat then Raise ValueError
  else Return (overlay b).
End DJIPayload_General_VersionInquiryRe.

Module DJIPayload_General_ChipRebootRe.
Record t : Type := mk { status : Z }.
Definition sizeof : nat := 1.
Definition overlay (b : list Z) : t :=
  mk (u8_at b 0).
Definition from_buffer_copy (b : list Z) : result t :=
  if (length b <? sizeof)%nat then Raise ValueError
  else Return (overlay b).
End DJIPayload_General_ChipRebootRe.

Module DJIPayload_FlyController_GetParamDefinition2015Rq.
Record t : Type := mk { param_index : Z }.
Definition sizeof : nat := 2.
Definition overlay (b : list Z) : t :=
  mk (u16_at b 0).
Definition from_buffer_copy (b : list Z) : result t :=
  if (length b <? sizeof)%nat then Raise ValueError
  else Return (overlay b).
End DJIPayload_FlyController_GetParamDefinition2015Rq.

Definition DJIPayload_FlyController_ParamMaxLen : nat := 160.

Module DJIPayload_FlyController_GetParamDefinitionEOL2015Re.
Record t : Type := mk { status : Z }.
Definition sizeof : nat := 1.
Definition overlay (b : list Z) : t :=
  mk (u8_at b 0).
Definition from_buffer_copy (b : list Z) : result t :=
  if (length b <? sizeof)%nat then Raise ValueError
  else Return (overlay b).
End DJIPayload_FlyController_GetParamDefinitionEOL2015Re.

Module DJIPayload_FlyController_GetParamDefinitionU2015Re.
Record t : Type := mk {
  status : Z;
  type_id : Z;
  size : Z;
  attribute : Z;
  limit_min : Z;
  limit_max : Z;
  limit_def : Z;
  name : list Z
}.
Definition sizeof : nat := 19 + DJIPayload_FlyController_ParamMaxLen.
Definition overlay (b : list Z) : t :=
  mk (u8_at b 0) (u16_at b 1) (u16_at b 3) (u16_at b 5)
     (u32_at b 7) (u32_at b 11) (u32_at b 15)
     (chars_at b 19 DJIPayload_FlyController_ParamMaxLen).
Definition from_buffer_copy (b : list Z) : result t :=
  if (length b <? sizeof)%nat then Raise ValueError
  else Return (overlay b).
End DJIPayload_FlyController_GetParamDefinitionU2015Re.

Module DJIPayload_FlyController_GetParamDefinitionI2015Re.
Record t : Type := mk {
  status : Z;
  type_id : Z;
  size : Z;
  attribute : Z;
  limit_min : Z;
  limit_max : Z;
  limit_def : Z;
  name : list Z
}.
Definition sizeof : nat := 19 + DJIPayload_FlyController_ParamMaxLen.
Definition overlay (b : list Z) : t :=
  mk (u8_at b 0) (u16_at b 1) (u16_at b 3) (u16_at b 5)
     (i32_at b 7) (i32_at b 11) (i32_at b 15)
     (chars_at b 19 DJIPayload_FlyController_ParamMaxLen).
Definition from_buffer_copy (b : list Z) : result t :=
  if (length b <? sizeof)%nat then Raise ValueError
  else Return (overlay b).
End DJIPayload_FlyController_GetParamDefinitionI2015Re.

Module DJIPayload_FlyController_GetParamDefinitionF2015Re.
Record t : Type := mk {
  status : Z;
  type_id : Z;
  size : Z;
  attribute : Z;
  limit_min : spec_float;
  limit_max : spec_float;
  limit_def : spec_float;
  name : list Z
}.
Definition sizeof : nat := 19 + DJIPayload_FlyController_ParamMaxLen.
Definition overlay (b : list Z) : t :=
  mk (u8_at b 0) (u16_at b 1) (u16_at b 3) (u16_at b 5)
     (f32_at b 7) (f32_at b 11) (f32_at b 15)
     (chars_at b 19 DJIPayload_FlyController_ParamMaxLen).
Definition from_buffer_copy (b : list Z) : result t :=
  if (length b <? sizeof)%nat then Raise ValueError
  else Return (overlay b).
End DJIPayload_FlyController_GetParamDefinitionF2015Re.

Module VersionInquiryRe := DJIPayload_General_VersionInquiryRe.
Module ChipRebootRe := DJIPayload_General_ChipRebootRe.
Module ParamDefRq := DJIPayload_FlyController_GetParamDefinition2015Rq.
Module ParamDefEOL := DJIPayload_FlyController_GetParamDefinitionEOL2015Re.
Module ParamDefU := DJIPayload_FlyController_GetParamDefinitionU2015Re.
Module ParamDefI := DJIPayload_FlyController_GetParamDefinitionI2015Re.
Module ParamDefF := DJIPayload_FlyController_GetParamDefinitionF2015Re.

(** The structures [get_known_payload] can hand back. *)
Inductive known_payload : Type :=
| General_VersionInquiryRe (r : VersionInquiryRe.t)
| General_ChipRebootRe (r : ChipRebootRe.t)
| FlyController_GetParamDefinition2015Rq (r : ParamDefRq.t)
| FlyController_GetParamDefinitionEOL2015Re (r : ParamDefEOL.t)
| FlyController_GetParamDefinitionU2015Re (r : ParamDefU.t)
| FlyController_GetParamDefinitionI2015Re (r : ParamDefI.t)
| FlyController_GetParamDefinitionF2015Re (r : ParamDefF.t).

(** [sizeof] of the structure behind a result. *)
Definition sizeof_known_payload (r : known_payload) : nat :=
  match r with
  | General_VersionInquiryRe _ => VersionInquiryRe.sizeof
  | General_ChipRebootRe _ => ChipRebootRe.sizeof
  | FlyController_GetParamDefinition2015Rq _ => ParamDefRq.sizeof
  | FlyController_GetParamDefinitionEOL2015Re _ => ParamDefEOL.sizeof
  | FlyController_GetParamDefinitionU2015Re _ => ParamDefU.sizeof
  | FlyController_GetParamDefinitionI2015Re _ => ParamDefI.sizeof
  | FlyController_GetParamDefinitionF2015Re _ => ParamDefF.sizeof
  end.

(** ** get_known_payload

    [Return None] is Python's [None]; [Raise] is an exception escaping the
    function.  Each [let] names the code that follows an [if] block, reached
    when the block does not return. *)
Definition get_known_payload (pkthead : DJICmdV1Header) (payload : list Z)
  : result (option known_payload) :=
  let no_match := Return None in
  let flyc_response :=
  if (cmd_set pkthead =? CMD_SET_TYPE_FLYCONTROLLER)
       && (Hdr.packet_type pkthead =? 1) then
      if cmd_id pkthead =? 0xf0 then
        if (ParamDefU.sizeof - DJIPayload_FlyController_ParamMaxLen + 1
            <=? length payload)%nat then
          bind (ParamDefU.from_buffer_copy (ljust payload ParamDefU.sizeof))
            (fun out_payload =>
               if (4 <=? ParamDefU.type_id out_payload)
                  && (ParamDefU.type_id out_payload <=? 7) then
                 bind (ParamDefI.from_buffer_copy (ljust payload ParamDefI.sizeof))
                   (fun r => Return (Some (FlyController_GetParamDefinitionI2015Re r)))
               else if (ParamDefU.type_id out_payload =? 8)
                       || (ParamDefU.type_id out_payload =? 9) then
                 bind (ParamDefF.from_buffer_copy (ljust payload ParamDefF.sizeof))
                   (fun r => Return (Some (FlyController_GetParamDefinitionF2015Re r)))
               else
                 Return (Some (FlyController_GetParamDefinitionU2015Re out_payload)))
        else if (ParamDefEOL.sizeof <=? length payload)%nat then
          bind (ParamDefEOL.from_buffer_copy payload)
            (fun r => Return (Some (FlyController_GetParamDefinitionEOL2015Re r)))
        else no_match
      else no_match
  else no_match in
  let flyc_request :=
  if (cmd_set pkthead =? CMD_SET_TYPE_FLYCONTROLLER)
       && (Hdr.packet_type pkthead =? 0) then
      if (cmd_id pkthead =? 0xf0) && (ParamDefRq.sizeof <=? length payload)%nat then
        bind (ParamDefRq.from_buffer_copy payload)
          (fun r => Return (Some (FlyController_GetParamDefinition2015Rq r)))
      else flyc_response
  else flyc_response in
  if (cmd_set pkthead =? CMD_SET_TYPE_GENERAL)
     && (Hdr.packet_type pkthead =? 1) then
  if (cmd_id pkthead =? 0x01) && (VersionInquiryRe.sizeof <=? length payload)%nat then
      bind (VersionInquiryRe.from_buffer_copy payload)
        (fun r => Return (Some (General_VersionInquiryRe r)))
  else if (cmd_id pkthead =? 0x0b) && (ChipRebootRe.sizeof <=? length payload)%nat then
      bind (ChipRebootRe.from_buffer_copy payload)
        (fun r => Return (Some (General_ChipRebootRe r)))
  else flyc_request
  else flyc_request.

(** The routing keys the resolver tests for, each with the least payload
    length at which it returns a structure. *)
Definition catalog_min_length (set dir id : Z) : option nat :=
  if (set =? CMD_SET_TYPE_GENERAL) && (dir =? 1) && (id =? 0x01)
  then Some VersionInquiryRe.sizeof
  else if (set =? CMD_SET_TYPE_GENERAL) && (dir =? 1) && (id =? 0x0b)
  then Some ChipRebootRe.sizeof
  else if (set =? CMD_SET_TYPE_FLYCONTROLLER) && (dir =? 0) && (id =? 0xf0)
  then Some ParamDefRq.sizeof
  else if (set =? CMD_SET_TYPE_FLYCONTROLLER) && (dir =? 1) && (id =? 0xf0)
  then Some ParamDefEOL.sizeof
  else None.

Definition routing_min_length (h : DJICmdV1Header) : option nat :=
  catalog_min_length (cmd_set h) (Hdr.packet_type h) (cmd_id h).

(** ** encode_command_packet *)

(** [memmove(addressof(dst) + off, byref(src), sizeof(src))] into a ctypes
    array.  The copy is defined when it stays inside the array; a copy that
    runs past its end overwrites foreign memory, which has no result here. *)
Definition memmove (dst : list Z) (off : nat) (src : list Z) : option (list Z) :=
  if (off + length src <=? length dst)%nat
  then Some (firstn off dst ++ src ++ skipn (off + length src) dst)
  else None.

Definition obind {A B : Type} (o : option A) (k : A -> option B) : option B :=
  match o with
  | Some a => k a
  | None => None
  end.

Section Builder.

(** Modelled from the spec: the bodies of the two checksum routines, which
    the script imports from comm_dat2pcap, are missing.  The routines are
    parameters with the signatures of their call sites,
    [calc_pkt55_hdr_checksum(seed, packet, plength)] and
    [calc_pkt55_checksum(packet, plength)]. *)
Variable calc_pkt55_hdr_checksum : Z -> list Z -> Z -> Z.
Variable calc_pkt55_checksum : list Z -> Z -> Z.

(** The header as it stands when the buffer is assembled (source lines
    368 to 380). *)
Definition build_header
  (sender_type sender_index receiver_type receiver_index seq_num pack_type
     ack_type encrypt_type cmd_set cmd_id : Z) (payload : list Z)
  : DJICmdV1Header :=
  let pkthead := Hdr.init in
  let pkthead :=
  Hdr.set_whole_length pkthead
      (Z.of_nat sizeof_DJICmdV1Header + Z.of_nat (length payload) + 2) in
  let pkthead :=
  Hdr.set_header_crc8 pkthead
      (calc_pkt55_hdr_checksum 0x77 (firstn 3 (Hdr.to_bytes pkthead)) 3) in
  let pkthead := Hdr.set_sender_type pkthead sender_type in
  let pkthead := Hdr.set_sender_index pkthead sender_index in
  let pkthead := Hdr.set_receiver_type pkthead receiver_type in
  let pkthead := Hdr.set_receiver_index pkthead receiver_index in
  let pkthead := Hdr.set_seq_num pkthead seq_num in
  let pkthead := Hdr.set_packet_type pkthead pack_type in
  let pkthead := Hdr.set_ack_type pkthead ack_type in
  let pkthead := Hdr.set_encrypt_type pkthead encrypt_type in
  let pkthead := Hdr.set_cmd_set pkthead cmd_set in
  Hdr.set_cmd_id pkthead cmd_id.

Definition encode_command_packet
  (sender_type sender_index receiver_type receiver_index seq_num pack_type
     ack_type encrypt_type cmd_set cmd_id : Z) (payload : list Z)
  : option (list Z) :=
  let pkthead :=
  build_header sender_type sender_index receiver_type receiver_index seq_num
                 pack_type ack_type encrypt_type cmd_set cmd_id payload in
  let enc_data := repeat 0 (Z.to_nat (Hdr.whole_length pkthead)) in
  obind (memmove enc_data 0 (Hdr.to_bytes pkthead)) (fun enc_data =>
  let pktpayload := payload in
  obind (memmove enc_data sizeof_DJICmdV1Header pktpayload) (fun enc_data =>
  let pktfoot :=
  Ftr.set_crc16 Ftr.zeroed
      (calc_pkt55_checksum enc_data (Z.of_nat (length enc_data) - 2)) in
  memmove enc_data (sizeof_DJICmdV1Header + length pktpayload)
          (Ftr.to_bytes pktfoot))).

End Builder.

(** ** The header codec assembled from the structure's accessors *)

Record HeaderFields : Type := mkFields {
  hf_version : Z;
  hf_whole_length : Z;
  hf_sender_type : Z;
  hf_sender_index : Z;
  hf_receiver_type : Z;
  hf_receiver_index : Z;
  hf_seq_num : Z;
  hf_packet_type : Z;
  hf_ack_type : Z;
  hf_encrypt_type : Z;
  hf_cmd_set : Z;
  hf_cmd_id : Z
}.

(** Store every field through its setter, starting from a constructed
    header. *)
Definition set_fields (f : HeaderFields) (h : DJICmdV1Header) : DJICmdV1Header :=
  let h := Hdr.set_version h (hf_version f) in
  let h := Hdr.set_whole_length h (hf_whole_length f) in
  let h := Hdr.set_sender_type h (hf_sender_type f) in
  let h := Hdr.set_sender_index h (hf_sender_index f) in
  let h := Hdr.set_receiver_type h (hf_receiver_type f) in
  let h := Hdr.set_receiver_index h (hf_receiver_index f) in
  let h := Hdr.set_seq_num h (hf_seq_num f) in
  let h := Hdr.set_packet_type h (hf_packet_type f) in
  let h := Hdr.set_ack_type h (hf_ack_type f) in
  let h := Hdr.set_encrypt_type h (hf_encrypt_type f) in
  let h := Hdr.set_cmd_set h (hf_cmd_set f) in
  Hdr.set_cmd_id h (hf_cmd_id f).

Definition get_fields (h : DJICmdV1Header) : HeaderFields :=
  mkFields (Hdr.version h) (Hdr.whole_length h) (Hdr.sender_type h)
           (Hdr.sender_index h) (Hdr.receiver_type h) (Hdr.receiver_index h)
           (seq_num h) (Hdr.packet_type h) (Hdr.ack_type h)
           (Hdr.encrypt_type h) (cmd_set h) (cmd_id h).

Definition encode_header (f : HeaderFields) : list Z :=
  Hdr.to_bytes (set_fields f Hdr.init).

Definition decode_header (b : list Z) : result HeaderFields :=
  bind (Hdr.from_buffer_copy b) (fun h => Return (get_fields h)).

(** Every field reduced modulo two to its declared width. *)
Definition truncate_fields (f : HeaderFields) : HeaderFields :=
  mkFields (hf_version f mod 2 ^ 6) (hf_whole_length f mod 2 ^ 10)
           (hf_sender_type f mod 2 ^ 5) (hf_sender_index f mod 2 ^ 3)
           (hf_receiver_type f mod 2 ^ 5) (hf_receiver_index f mod 2 ^ 3)
           (hf_seq_num f mod 2 ^ 16) (hf_packet_type f mod 2 ^ 1)
           (hf_ack_type f mod 2 ^ 2) (hf_encrypt_type f mod 2 ^ 3)
           (hf_cmd_set f mod 2 ^ 8) (hf_cmd_id f mod 2 ^ 8).

Definition fields_in_range (f : HeaderFields) : Prop :=
  0 <= hf_version f < 2 ^ 6 /\ 0 <= hf_whole_length f < 2 ^ 10 /\
  0 <= hf_sender_type f < 2 ^ 5 /\ 0 <= hf_sender_index f < 2 ^ 3 /\
  0 <= hf_receiver_type f < 2 ^ 5 /\ 0 <= hf_receiver_index f < 2 ^ 3 /\
  0 <= hf_seq_num f < 2 ^ 16 /\ 0 <= hf_packet_type f < 2 /\
  0 <= hf_ack_type f < 2 ^ 2 /\ 0 <= hf_encrypt_type f < 2 ^ 3 /\
  0 <= hf_cmd_set f < 2 ^ 8 /\ 0 <= hf_cmd_id f < 2 ^ 8.

(** ** Contract of the checksum routines *)

(** Modelled from the spec: the missing [calc_pkt55_hdr_checksum] is, by
    section 6, [checksum8(seed, bytes, length) -> byte]. *)
Definition checksum8_contract (calc8 : Z -> list Z -> Z -> Z) : Prop :=
  forall seed packet plength, 0 <= calc8 seed packet plength < 2 ^ 8.

(** Modelled from the spec: the missing [calc_pkt55_checksum] is, by
    section 6, [checksum16(bytes, length) -> uint16], a pure function of the
    [length] bytes it is given. *)
Definition checksum16_contract (calc16 : list Z -> Z -> Z) : Prop :=
  (forall packet plength, 0 <= calc16 packet plength < 2 ^ 16) /\
  (forall packet plength,
     calc16 packet plength = calc16 (firstn (Z.to_nat plength) packet) plength).

(** ** Stand-in checksum routines

    Two concrete routines with the call signatures of the imported ones,
    used to run the builder on concrete inputs.  They read [plength] bytes
    and fold them into a byte and into a 16-bit word; they are not the
    firmware's tables. *)
Definition toy_hdr_checksum (seed : Z) (packet : list Z) (plength : Z) : Z :=
  fold_left (fun chksum b => (Z.lxor chksum b * 7 + 1) mod 2 ^ 8)
            (firstn (Z.to_nat plength) packet) (seed mod 2 ^ 8).

Definition toy_checksum (packet : list Z) (plength : Z) : Z :=
  fold_left (fun v b => (Z.lxor (v / 2 ^ 8) (Z.lxor v b * 257)) mod 2 ^ 16)
            (firstn (Z.to_nat plength) packet) 0x3692.

(** Headers used in the worked cases. *)
Definition header_for (set dir id : Z) : DJICmdV1Header :=
  Hdr.set_cmd_id (Hdr.set_cmd_set (Hdr.set_packet_type Hdr.init dir) set) id.

(** ** Byte strings and headers as ctypes holds them *)

Definition is_byte (b : Z) : Prop := 0 <= b < 2 ^ 8.

(** Every field of the structure fits the C type it is declared with. *)
Definition wf_header (h : DJICmdV1Header) : Prop :=
  is_byte (sof h) /\ 0 <= ver_length_tag h < 2 ^ 16 /\
  is_byte (header_crc8 h) /\ is_byte (sender_info h) /\
  is_byte (receiver_info h) /\ 0 <= seq_num h < 2 ^ 16 /\
  is_byte (cmd_type_data h) /\ is_byte (cmd_set h) /\ is_byte (cmd_id h).

(** Every field of a returned structure fits the C type it is declared
    with: unsigned fields of 8, 16 and 32 bits, signed 32-bit limits, and
    character arrays of the declared number of bytes. *)
Definition fits_unsigned (bits : Z) (v : Z) : Prop := 0 <= v < 2 ^ bits.
Definition fits_c_int (v : Z) : Prop := - 2 ^ 31 <= v < 2 ^ 31.
Definition fits_c_char_array (n : nat) (raw : list Z) : Prop :=
  length raw = n /\ Forall is_byte raw.

Definition payload_fits (v : known_payload) : Prop :=
  match v with
  | General_VersionInquiryRe r =>
      fits_unsigned 8 (VersionInquiryRe.unknown0 r) /\
      fits_unsigned 8 (VersionInquiryRe.unknown1 r) /\
      fits_c_char_array 16 (VersionInquiryRe.hw_version r) /\
      fits_unsigned 32 (VersionInquiryRe.ldr_version r) /\
      fits_unsigned 32 (VersionInquiryRe.app_version r) /\
      fits_unsigned 32 (VersionInquiryRe.unknown1A r) /\
      fits_unsigned 8 (VersionInquiryRe.unknown1E r)
  | General_ChipRebootRe r => fits_unsigned 8 (ChipRebootRe.status r)
  | FlyController_GetParamDefinition2015Rq r =>
      fits_unsigned 16 (ParamDefRq.param_index r)
  | FlyController_GetParamDefinitionEOL2015Re r =>
      fits_unsigned 8 (ParamDefEOL.status r)
  | FlyController_GetParamDefinitionU2015Re r =>
      fits_unsigned 8 (ParamDefU.status r) /\
      fits_unsigned 16 (ParamDefU.type_id r) /\
      fits_unsigned 16 (ParamDefU.size r) /\
      fits_unsigned 16 (ParamDefU.attribute r) /\
      fits_unsigned 32 (ParamDefU.limit_min r) /\
      fits_unsigned 32 (ParamDefU.limit_max r) /\
      fits_unsigned 32 (ParamDefU.limit_def r) /\
      fits_c_char_array 160 (ParamDefU.name r)
  | FlyController_GetParamDefinitionI2015Re r =>
      fits_unsigned 8 (ParamDefI.status r) /\
      fits_unsigned 16 (ParamDefI.type_id r) /\
      fits_unsigned 16 (ParamDefI.size r) /\
      fits_unsigned 16 (ParamDefI.attribute r) /\
      fits_c_int (ParamDefI.limit_min r) /\
      fits_c_int (ParamDefI.limit_max r) /\
      fits_c_int (ParamDefI.limit_def r) /\
      fits_c_char_array 160 (ParamDefI.name r)
  | FlyController_GetParamDefinitionF2015Re r =>
      fits_unsigned 8 (ParamDefF.status r) /\
      fits_unsigned 16 (ParamDefF.type_id r) /\
      fits_unsigned 16 (ParamDefF.size r) /\
      fits_unsigned 16 (ParamDefF.attribute r) /\
      fits_c_char_array 160 (ParamDefF.name r)
  end.

(** What the resolver's tests say about a structure it returned. *)
Definition justified (h : DJICmdV1Header) (p : list Z) (v : known_payload)
  : Prop :=
  match v with
  | General_VersionInquiryRe r =>
      cmd_set h = 0 /\ Hdr.packet_type h = 1 /\ cmd_id h = 0x01 /\
      (31 <= length p)%nat /\ r = VersionInquiryRe.overlay p
  | General_ChipRebootRe r =>
      cmd_set h = 0 /\ Hdr.packet_type h = 1 /\ cmd_id h = 0x0b /\
      (1 <= length p)%nat /\ r = ChipRebootRe.overlay p
  | FlyController_GetParamDefinition2015Rq r =>
      cmd_set h = 3 /\ Hdr.packet_type h = 0 /\ cmd_id h = 0xf0 /\
      (2 <= length p)%nat /\ r = ParamDefRq.overlay p
  | FlyController_GetParamDefinitionEOL2015Re r =>
      cmd_set h = 3 /\ Hdr.packet_type h = 1 /\ cmd_id h = 0xf0 /\
      (1 <= length p <= 19)%nat /\ r = ParamDefEOL.overlay p
  | FlyController_GetParamDefinitionU2015Re r =>
      cmd_set h = 3 /\ Hdr.packet_type h = 1 /\ cmd_id h = 0xf0 /\
      (20 <= length p)%nat /\ r = ParamDefU.overlay (ljust p 179) /\
      ~ 4 <= ParamDefU.type_id r <= 9
  | FlyController_GetParamDefinitionI2015Re r =>
      cmd_set h = 3 /\ Hdr.packet_type h = 1 /\ cmd_id h = 0xf0 /\
      (20 <= length p)%nat /\ r = ParamDefI.overlay (ljust p 179) /\
      4 <= ParamDefI.type_id r <= 7
  | FlyController_GetParamDefinitionF2015Re r =>
      cmd_set h = 3 /\ Hdr.packet_type h = 1 /\ cmd_id h = 0xf0 /\
      (20 <= length p)%nat /\ r = ParamDefF.overlay (ljust p 179) /\
      8 <= ParamDefF.type_id r <= 9
  end.

(** ** Enumerations

    An enumeration class is its members in definition order, each with a
    name and a value. *)

Class DecoratedEnum (E : Type) : Type := {
  enum_members : list E;
  enum_name : E -> string;
  enum_value : E -> Z
}.

(** [DecoratedEnum.from_name]: the first member, in iteration order, whose
    name is the given one; ValueError when there is none. *)
Definition from_name {E : Type} `{DecoratedEnum E} (name : string)
  : result E :=
  match find (fun itm => String.eqb (enum_name itm) name) enum_members with
  | Some itm => Return itm
  | None => Raise ValueError
  end.

(** Calling an enumeration class on a value, as in [ACK_TYPE(2)]: the member
    with that value; ValueError when there is none. *)
Definition by_value {E : Type} `{DecoratedEnum E} (v : Z) : result E :=
  match find (fun itm => enum_value itm =? v) enum_members with
  | Some itm => Return itm
  | None => Raise ValueError
  end.

Module ACK_TYPE.
Inductive t : Type :=
| NO_ACK_NEEDED
| ACK_BEFORE_EXEC
| ACK_AFTER_EXEC.
End ACK_TYPE.

#[export] Instance ACK_TYPE_enum : DecoratedEnum ACK_TYPE.t := {|
  enum_members :=
    [ACK_TYPE.NO_ACK_NEEDED; ACK_TYPE.ACK_BEFORE_EXEC;
     ACK_TYPE.ACK_AFTER_EXEC];
  enum_name := fun itm =>
      match itm with
      | ACK_TYPE.NO_ACK_NEEDED => "NO_ACK_NEEDED"
      | ACK_TYPE.ACK_BEFORE_EXEC => "ACK_BEFORE_EXEC"
      | ACK_TYPE.ACK_AFTER_EXEC => "ACK_AFTER_EXEC"
      end%string;
  enum_value := fun itm =>
      match itm with
      | ACK_TYPE.NO_ACK_NEEDED => 0
      | ACK_TYPE.ACK_BEFORE_EXEC => 1
      | ACK_TYPE.ACK_AFTER_EXEC => 2
      end
|}.

Module COMM_DEV_TYPE.
Inductive t : Type :=
| ANY
| CAMERA
| MOBILE_APP
| FLYCONTROLLER
| GIMBAL
| CENTER_BOARD
| REMOTE_RADIO
| WIFI
| LB_DM3XX_SKY
| LB_MCU_SKY
| PC
| BATTERY
| ESC
| DM368_GROUND
| OFDM_GROUND
| LB_68013_SKY
| SER_68013_GROUND
| MVO
| SVO
| LB_FPGA_SKY
| FPGA_GROUND
| FPGA_SIM
| STATION
| XU
| WTF
| IMU
| GPS
| WIFI_GROUND
| SIG_CVT
| PMU
| UNKNOWN30
| WM330_OR_WM220.
End COMM_DEV_TYPE.

#[export] Instance COMM_DEV_TYPE_enum : DecoratedEnum COMM_DEV_TYPE.t := {|
  enum_members :=
    [COMM_DEV_TYPE.ANY; COMM_DEV_TYPE.CAMERA; COMM_DEV_TYPE.MOBILE_APP;
     COMM_DEV_TYPE.FLYCONTROLLER; COMM_DEV_TYPE.GIMBAL;
     COMM_DEV_TYPE.CENTER_BOARD; COMM_DEV_TYPE.REMOTE_RADIO;
     COMM_DEV_TYPE.WIFI; COMM_DEV_TYPE.LB_DM3XX_SKY;
     COMM_DEV_TYPE.LB_MCU_SKY; COMM_DEV_TYPE.PC; COMM_DEV_TYPE.BATTERY;
     COMM_DEV_TYPE.ESC; COMM_DEV_TYPE.DM368_GROUND;
     COMM_DEV_TYPE.OFDM_GROUND; COMM_DEV_TYPE.LB_68013_SKY;
     COMM_DEV_TYPE.SER_68013_GROUND; COMM_DEV_TYPE.MVO; COMM_DEV_TYPE.SVO;
     COMM_DEV_TYPE.LB_FPGA_SKY; COMM_DEV_TYPE.FPGA_GROUND;
     COMM_DEV_TYPE.FPGA_SIM; COMM_DEV_TYPE.STATION; COMM_DEV_TYPE.XU;
     COMM_DEV_TYPE.WTF; COMM_DEV_TYPE.IMU; COMM_DEV_TYPE.GPS;
     COMM_DEV_TYPE.WIFI_GROUND; COMM_DEV_TYPE.SIG_CVT; COMM_DEV_TYPE.PMU;
     COMM_DEV_TYPE.UNKNOWN30; COMM_DEV_TYPE.WM330_OR_WM220];
  enum_name := fun itm =>
      match itm with
      | COMM_DEV_TYPE.ANY => "ANY"
      | COMM_DEV_TYPE.CAMERA => "CAMERA"
      | COMM_DEV_TYPE.MOBILE_APP => "MOBILE_APP"
      | COMM_DEV_TYPE.FLYCONTROLLER => "FLYCONTROLLER"
      | COMM_DEV_TYPE.GIMBAL => "GIMBAL"
      | COMM_DEV_TYPE.CENTER_BOARD => "CENTER_BOARD"
      | COMM_DEV_TYPE.REMOTE_RADIO => "REMOTE_RADIO"
      | COMM_DEV_TYPE.WIFI => "WIFI"
      | COMM_DEV_TYPE.LB_DM3XX_SKY => "LB_DM3XX_SKY"
      | COMM_DEV_TYPE.LB_MCU_SKY => "LB_MCU_SKY"
      | COMM_DEV_TYPE.PC => "PC"
      | COMM_DEV_TYPE.BATTERY => "BATTERY"
      | COMM_DEV_TYPE.ESC => "ESC"
      | COMM_DEV_TYPE.DM368_GROUND => "DM368_GROUND"
      | COMM_DEV_TYPE.OFDM_GROUND => "OFDM_GROUND"
      | COMM_DEV_TYPE.LB_68013_SKY => "LB_68013_SKY"
      | COMM_DEV_TYPE.SER_68013_GROUND => "SER_68013_GROUND"
      | COMM_DEV_TYPE.MVO => "MVO"
      | COMM_DEV_TYPE.SVO => "SVO"
      | COMM_DEV_TYPE.LB_FPGA_SKY => "LB_FPGA_SKY"
      | COMM_DEV_TYPE.FPGA_GROUND => "FPGA_GROUND"
      | COMM_DEV_TYPE.FPGA_SIM => "FPGA_SIM"
      | COMM_DEV_TYPE.STATION => "STATION"
      | COMM_DEV_TYPE.XU => "XU"
      | COMM_DEV_TYPE.WTF => "WTF"
      | COMM_DEV_TYPE.IMU => "IMU"
      | COMM_DEV_TYPE.GPS => "GPS"
      | COMM_DEV_TYPE.WIFI_GROUND => "WIFI_GROUND"
      | COMM_DEV_TYPE.SIG_CVT => "SIG_CVT"
      | COMM_DEV_TYPE.PMU => "PMU"
      | COMM_DEV_TYPE.UNKNOWN30 => "UNKNOWN30"
      | COMM_DEV_TYPE.WM330_OR_WM220 => "WM330_OR_WM220"
      end%string;
  enum_value := fun itm =>
      match itm with
      | COMM_DEV_TYPE.ANY => 0
      | COMM_DEV_TYPE.CAMERA => 1
      | COMM_DEV_TYPE.MOBILE_APP => 2
      | COMM_DEV_TYPE.FLYCONTROLLER => 3
      | COMM_DEV_TYPE.GIMBAL => 4
      | COMM_DEV_TYPE.CENTER_BOARD => 5
      | COMM_DEV_TYPE.REMOTE_RADIO => 6
      | COMM_DEV_TYPE.WIFI => 7
      | COMM_DEV_TYPE.LB_DM3XX_SKY => 8
      | COMM_DEV_TYPE.LB_MCU_SKY => 9
      | COMM_DEV_TYPE.PC => 10
      | COMM_DEV_TYPE.BATTERY => 11
      | COMM_DEV_TYPE.ESC => 12
      | COMM_DEV_TYPE.DM368_GROUND => 13
      | COMM_DEV_TYPE.OFDM_GROUND => 14
      | COMM_DEV_TYPE.LB_68013_SKY => 15
      | COMM_DEV_TYPE.SER_68013_GROUND => 16
      | COMM_DEV_TYPE.MVO => 17
      | COMM_DEV_TYPE.SVO => 18
      | COMM_DEV_TYPE.LB_FPGA_SKY => 19
      | COMM_DEV_TYPE.FPGA_GROUND => 20
      | COMM_DEV_TYPE.FPGA_SIM => 21
      | COMM_DEV_TYPE.STATION => 22
      | COMM_DEV_TYPE.XU => 23
      | COMM_DEV_TYPE.WTF => 24
      | COMM_DEV_TYPE.IMU => 25
      | COMM_DEV_TYPE.GPS => 26
      | COMM_DEV_TYPE.WIFI_GROUND => 27
      | COMM_DEV_TYPE.SIG_CVT => 28
      | COMM_DEV_TYPE.PMU => 29
      | COMM_DEV_TYPE.UNKNOWN30 => 30
      | COMM_DEV_TYPE.WM330_OR_WM220 => 31
      end
|}.

Module ENCRYPT_TYPE.
Inductive t : Type :=
| NO_ENC
| AES_128
| SELF_DEF
| XOR
| DES_56
| DES_112
| AES_192
| AES_256.
End ENCRYPT_TYPE.

#[export] Instance ENCRYPT_TYPE_enum : DecoratedEnum ENCRYPT_TYPE.t := {|
  enum_members :=
    [ENCRYPT_TYPE.NO_ENC; ENCRYPT_TYPE.AES_128; ENCRYPT_TYPE.SELF_DEF;
     ENCRYPT_TYPE.XOR; ENCRYPT_TYPE.DES_56; ENCRYPT_TYPE.DES_112;
     ENCRYPT_TYPE.AES_192; ENCRYPT_TYPE.AES_256];
  enum_name := fun itm =>
      match itm with
      | ENCRYPT_TYPE.NO_ENC => "NO_ENC"
      | ENCRYPT_TYPE.AES_128 => "AES_128"
      | ENCRYPT_TYPE.SELF_DEF => "SELF_DEF"
      | ENCRYPT_TYPE.XOR => "XOR"
      | ENCRYPT_TYPE.DES_56 => "DES_56"
      | ENCRYPT_TYPE.DES_112 => "DES_112"
      | ENCRYPT_TYPE.AES_192 => "AES_192"
      | ENCRYPT_TYPE.AES_256 => "AES_256"
      end%string;
  enum_value := fun itm =>
      match itm with
      | ENCRYPT_TYPE.NO_ENC => 0
      | ENCRYPT_TYPE.AES_128 => 1
      | ENCRYPT_TYPE.SELF_DEF => 2
      | ENCRYPT_TYPE.XOR => 3
      | ENCRYPT_TYPE.DES_56 => 4
      | ENCRYPT_TYPE.DES_112 => 5
      | ENCRYPT_TYPE.AES_192 => 6
      | ENCRYPT_TYPE.AES_256 => 7
      end
|}.

Module PACKET_TYPE.
Inductive t : Type :=
| REQUEST
| RESPONSE.
End PACKET_TYPE.

#[export] Instance PACKET_TYPE_enum : DecoratedEnum PACKET_TYPE.t := {|
  enum_members :=
    [PACKET_TYPE.REQUEST; PACKET_TYPE.RESPONSE];
  enum_name := fun itm =>
      match itm with
      | PACKET_TYPE.REQUEST => "REQUEST"
      | PACKET_TYPE.RESPONSE => "RESPONSE"
      end%string;
  enum_value := fun itm =>
      match itm with
      | PACKET_TYPE.REQUEST => 0
      | PACKET_TYPE.RESPONSE => 1
      end
|}.

Module CMD_SET_TYPE.
Inductive t : Type :=
| GENERAL
| SPECIAL
| CAMERA
| FLYCONTROLLER
| ZENMUSE
| CENTER_BOARD
| RADIO
| WIFI
| DM368
| OFDM
| VO
| SIM
| ESC
| BATTERY
| DATA_RECORDER
| RTK
| AUTOTEST
| UNKNOWN17
| UNKNOWN18
| UNKNOWN19
| UNKNOWN20
| UNKNOWN21
| UNKNOWN22
| UNKNOWN23
| UNKNOWN24
| UNKNOWN25
| UNKNOWN26
| UNKNOWN27
| UNKNOWN28
| UNKNOWN29
| UNKNOWN30
| UNKNOWN31.
End CMD_SET_TYPE.

#[export] Instance CMD_SET_TYPE_enum : DecoratedEnum CMD_SET_TYPE.t := {|
  enum_members :=
    [CMD_SET_TYPE.GENERAL; CMD_SET_TYPE.SPECIAL; CMD_SET_TYPE.CAMERA;
     CMD_SET_TYPE.FLYCONTROLLER; CMD_SET_TYPE.ZENMUSE;
     CMD_SET_TYPE.CENTER_BOARD; CMD_SET_TYPE.RADIO; CMD_SET_TYPE.WIFI;
     CMD_SET_TYPE.DM368; CMD_SET_TYPE.OFDM; CMD_SET_TYPE.VO;
     CMD_SET_TYPE.SIM; CMD_SET_TYPE.ESC; CMD_SET_TYPE.BATTERY;
     CMD_SET_TYPE.DATA_RECORDER; CMD_SET_TYPE.RTK; CMD_SET_TYPE.AUTOTEST;
     CMD_SET_TYPE.UNKNOWN17; CMD_SET_TYPE.UNKNOWN18; CMD_SET_TYPE.UNKNOWN19;
     CMD_SET_TYPE.UNKNOWN20; CMD_SET_TYPE.UNKNOWN21; CMD_SET_TYPE.UNKNOWN22;
     CMD_SET_TYPE.UNKNOWN23; CMD_SET_TYPE.UNKNOWN24; CMD_SET_TYPE.UNKNOWN25;
     CMD_SET_TYPE.UNKNOWN26; CMD_SET_TYPE.UNKNOWN27; CMD_SET_TYPE.UNKNOWN28;
     CMD_SET_TYPE.UNKNOWN29; CMD_SET_TYPE.UNKNOWN30; CMD_SET_TYPE.UNKNOWN31];
  enum_name := fun itm =>
      match itm with
      | CMD_SET_TYPE.GENERAL => "GENERAL"
      | CMD_SET_TYPE.SPECIAL => "SPECIAL"
      | CMD_SET_TYPE.CAMERA => "CAMERA"
      | CMD_SET_TYPE.FLYCONTROLLER => "FLYCONTROLLER"
      | CMD_SET_TYPE.ZENMUSE => "ZENMUSE"
      | CMD_SET_TYPE.CENTER_BOARD => "CENTER_BOARD"
      | CMD_SET_TYPE.RADIO => "RADIO"
      | CMD_SET_TYPE.WIFI => "WIFI"
      | CMD_SET_TYPE.DM368 => "DM368"
      | CMD_SET_TYPE.OFDM => "OFDM"
      | CMD_SET_TYPE.VO => "VO"
      | CMD_SET_TYPE.SIM => "SIM"
      | CMD_SET_TYPE.ESC => "ESC"
      | CMD_SET_TYPE.BATTERY => "BATTERY"
      | CMD_SET_TYPE.DATA_RECORDER => "DATA_RECORDER"
      | CMD_SET_TYPE.RTK => "RTK"
      | CMD_SET_TYPE.AUTOTEST => "AUTOTEST"
      | CMD_SET_TYPE.UNKNOWN17 => "UNKNOWN17"
      | CMD_SET_TYPE.UNKNOWN18 => "UNKNOWN18"
      | CMD_SET_TYPE.UNKNOWN19 => "UNKNOWN19"
      | CMD_SET_TYPE.UNKNOWN20 => "UNKNOWN20"
      | CMD_SET_TYPE.UNKNOWN21 => "UNKNOWN21"
      | CMD_SET_TYPE.UNKNOWN22 => "UNKNOWN22"
      | CMD_SET_TYPE.UNKNOWN23 => "UNKNOWN23"
      | CMD_SET_TYPE.UNKNOWN24 => "UNKNOWN24"
      | CMD_SET_TYPE.UNKNOWN25 => "UNKNOWN25"
      | CMD_SET_TYPE.UNKNOWN26 => "UNKNOWN26"
      | CMD_SET_TYPE.UNKNOWN27 => "UNKNOWN27"
      | CMD_SET_TYPE.UNKNOWN28 => "UNKNOWN28"
      | CMD_SET_TYPE.UNKNOWN29 => "UNKNOWN29"
      | CMD_SET_TYPE.UNKNOWN30 => "UNKNOWN30"
      | CMD_SET_TYPE.UNKNOWN31 => "UNKNOWN31"
      end%string;
  enum_value := fun itm =>
      match itm with
      | CMD_SET_TYPE.GENERAL => 0
      | CMD_SET_TYPE.SPECIAL => 1
      | CMD_SET_TYPE.CAMERA => 2
      | CMD_SET_TYPE.FLYCONTROLLER => 3
      | CMD_SET_TYPE.ZENMUSE => 4
      | CMD_SET_TYPE.CENTER_BOARD => 5
      | CMD_SET_TYPE.RADIO => 6
      | CMD_SET_TYPE.WIFI => 7
      | CMD_SET_TYPE.DM368 => 8
      | CMD_SET_TYPE.OFDM => 9
      | CMD_SET_TYPE.VO => 10
      | CMD_SET_TYPE.SIM => 11
      | CMD_SET_TYPE.ESC => 12
      | CMD_SET_TYPE.BATTERY => 13
      | CMD_SET_TYPE.DATA_RECORDER => 14
      | CMD_SET_TYPE.RTK => 15
      | CMD_SET_TYPE.AUTOTEST => 16
      | CMD_SET_TYPE.UNKNOWN17 => 17
      | CMD_SET_TYPE.UNKNOWN18 => 18
      | CMD_SET_TYPE.UNKNOWN19 => 19
      | CMD_SET_TYPE.UNKNOWN20 => 20
      | CMD_SET_TYPE.UNKNOWN21 => 21
      | CMD_SET_TYPE.UNKNOWN22 => 22
      | CMD_SET_TYPE.UNKNOWN23 => 23
      | CMD_SET_TYPE.UNKNOWN24 => 24
      | CMD_SET_TYPE.UNKNOWN25 => 25
      | CMD_SET_TYPE.UNKNOWN26 => 26
      | CMD_SET_TYPE.UNKNOWN27 => 27
      | CMD_SET_TYPE.UNKNOWN28 => 28
      | CMD_SET_TYPE.UNKNOWN29 => 29
      | CMD_SET_TYPE.UNKNOWN30 => 30
      | CMD_SET_TYPE.UNKNOWN31 => 31
      end
|}.

(** ** Command-line argument parsers *)

(** What a type callback of argparse gives: the parsed value, or
    [argparse.ArgumentTypeError] with its message. *)
Inductive cli_result (A : Type) : Type :=
| Parsed (a : A)
| ArgumentTypeError (msg : string).
Arguments Parsed {A} a.
Arguments ArgumentTypeError {A} msg.

(** The character class [[0-9]]. *)
Definition is_digit (c : ascii) : bool :=
  (48 <=? nat_of_ascii c)%nat && (nat_of_ascii c <=? 57)%nat.

Definition digit_value (c : ascii) : Z := Z.of_nat (nat_of_ascii c) - 48.

Fixpoint all_digits (s : string) : bool :=
  match s with
  | EmptyString => true
  | String c rest => is_digit c && all_digits rest
  end.

(** [$] matches at the end of the subject and also just before a newline
    that ends it: the subject without such a final newline. *)
Fixpoint before_final_newline (s : string) : string :=
  match s with
  | EmptyString => EmptyString
  | String c rest =>
      match rest with
      | EmptyString =>
          if Ascii.eqb c "010"%char then EmptyString else s
      | String _ _ => String c (before_final_newline rest)
      end
  end.

(** [re.search] of the pattern [^[0-9]{lo,hi}$]. *)
Definition re_search_digits (lo hi : nat) (s : string) : bool :=
  let body := before_final_newline s in
  all_digits body
  && (lo <=? String.length body)%nat && (String.length body <=? hi)%nat.

Fixpoint digits_value (acc : Z) (s : string) : Z :=
  match s with
  | EmptyString => acc
  | String c rest => digits_value (10 * acc + digit_value c) rest
  end.

(** [int(s, 10)] for a subject the digit pattern accepts: the value of its
    digits, the final newline being white space to [int]. *)
Definition int10 (s : string) : Z := digits_value 0 (before_final_newline s).

Section Parsers.

(** [str.upper], a built-in of the language. *)
Variable upper : string -> string.

(** Pattern [^[0-9]{1,2}$]. *)
Definition parse_module_type (s : string) : cli_result COMM_DEV_TYPE.t :=
  match (if re_search_digits 1 2 s
         then Some (by_value (E := COMM_DEV_TYPE.t) (int10 s)) else None) with
  | Some (Return itm) => Parsed itm
  | Some (Raise _) => ArgumentTypeError "Numeric value out of range"
  | None =>
      match from_name (upper s) with
      | Return itm => Parsed itm
      | Raise _ => ArgumentTypeError "Unrecognized name of enum item"
      end
  end.

(** Pattern [^[0-9]{1}$]. *)
Definition parse_ack_type (s : string) : cli_result ACK_TYPE.t :=
  match (if re_search_digits 1 1 s
         then Some (by_value (E := ACK_TYPE.t) (int10 s)) else None) with
  | Some (Return itm) => Parsed itm
  | Some (Raise _) => ArgumentTypeError "Numeric value out of range"
  | None =>
      match from_name (upper s) with
      | Return itm => Parsed itm
      | Raise _ => ArgumentTypeError "Unrecognized name of enum item"
      end
  end.

(** Pattern [^[0-9]{1}$]. *)
Definition parse_encrypt_type (s : string) : cli_result ENCRYPT_TYPE.t :=
  match (if re_search_digits 1 1 s
         then Some (by_value (E := ENCRYPT_TYPE.t) (int10 s)) else None) with
  | Some (Return itm) => Parsed itm
  | Some (Raise _) => ArgumentTypeError "Numeric value out of range"
  | None =>
      match from_name (upper s) with
      | Return itm => Parsed itm
      | Raise _ => ArgumentTypeError "Unrecognized name of enum item"
      end
  end.

(** Pattern [^[0-9]{1}$]. *)
Definition parse_packet_type (s : string) : cli_result PACKET_TYPE.t :=
  match (if re_search_digits 1 1 s
         then Some (by_value (E := PACKET_TYPE.t) (int10 s)) else None) with
  | Some (Return itm) => Parsed itm
  | Some (Raise _) => ArgumentTypeError "Numeric value out of range"
  | None =>
      match from_name (upper s) with
      | Return itm => Parsed itm
      | Raise _ => ArgumentTypeError "Unrecognized name of enum item"
      end
  end.

(** Pattern [^[0-9]{1}$]. *)
Definition parse_cmd_set (s : string) : cli_result CMD_SET_TYPE.t :=
  match (if re_search_digits 1 1 s
         then Some (by_value (E := CMD_SET_TYPE.t) (int10 s)) else None) with
  | Some (Return itm) => Parsed itm
  | Some (Raise _) => ArgumentTypeError "Numeric value out of range"
  | None =>
      match from_name (upper s) with
      | Return itm => Parsed itm
      | Raise _ => ArgumentTypeError "Unrecognized name of enum item"
      end
  end.

End Parsers.

(** [parse_module_ident], pattern [^m?([0-9]{1,2})([0-9]{2})$]: the two
    groups of the match.  The greedy first group takes two digits when four
    are there and one when three are. *)
Definition parse_module_ident (s : string) : cli_result (string * string) :=
  let digits :=
    before_final_newline
      match s with
      | String "m"%char rest => rest
      | _ => s
      end in
  if all_digits digits then
    match String.length digits with
    | 3%nat => Parsed (substring 0 1 digits, substring 1 2 digits)
    | 4%nat => Parsed (substring 0 2 digits, substring 2 2 digits)
    | _ => ArgumentTypeError "No 4-byte module ident"
    end
  else ArgumentTypeError "No 4-byte module ident".

(** ** encode_command_packet_en *)

Section BuilderEn.

Variable calc_pkt55_hdr_checksum : Z -> list Z -> Z -> Z.
Variable calc_pkt55_checksum : list Z -> Z -> Z.

Definition encode_command_packet_en
    (sender_type : COMM_DEV_TYPE.t) (sender_index : Z)
    (receiver_type : COMM_DEV_TYPE.t) (receiver_index seq_num : Z)
    (pack_type : PACKET_TYPE.t) (ack_type : ACK_TYPE.t)
    (encrypt_type : ENCRYPT_TYPE.t) (cmd_set : CMD_SET_TYPE.t) (cmd_id : Z)
    (payload : list Z) : option (list Z) :=
  encode_command_packet calc_pkt55_hdr_checksum calc_pkt55_checksum
    (enum_value sender_type) sender_index (enum_value receiver_type)
    receiver_index seq_num (enum_value pack_type) (enum_value ack_type)
    (enum_value encrypt_type) (enum_value cmd_set) cmd_id payload.

End BuilderEn.

(** ** do_build_packet *)

(** ['{:02x}'.format(x)]: lower-case hexadecimal, padded with a zero to two
    characters. *)
Definition format_02x (x : Z) : string :=
  match x with
  | 0 => "00"
  | Zpos p =>
      let digits := HexString.Raw.of_pos p "" in
      if (String.length digits <? 2)%nat then String "0" digits else digits
  | Zneg p => String "-" (HexString.Raw.of_pos p "")
  end%string.

(** The attributes of the parsed options that [do_build_packet] reads. *)
Module Options.
Record t : Type := mk {
  sender_type : COMM_DEV_TYPE.t;
  sender_index : Z;
  receiver_type : COMM_DEV_TYPE.t;
  receiver_index : Z;
  seq_num : Z;
  pack_type : PACKET_TYPE.t;
  ack_type : ACK_TYPE.t;
  encrypt_type : ENCRYPT_TYPE.t;
  cmd_set : CMD_SET_TYPE.t;
  cmd_id : Z;
  payload : list Z
}.
End Options.

Section BuildPacket.

Variable calc_pkt55_hdr_checksum : Z -> list Z -> Z -> Z.
Variable calc_pkt55_checksum : list Z -> Z -> Z.

(** The line [do_build_packet] prints, when the packet is built. *)
Definition do_build_packet (options : Options.t) : option string :=
  match encode_command_packet_en calc_pkt55_hdr_checksum calc_pkt55_checksum
          (Options.sender_type options) (Options.sender_index options)
          (Options.receiver_type options) (Options.receiver_index options)
          (Options.seq_num options) (Options.pack_type options)
          (Options.ack_type options) (Options.encrypt_type options)
          (Options.cmd_set options) (Options.cmd_id options)
          (Options.payload options) with
  | Some pkt => Some (String.concat " " (map format_02x pkt))
  | None => None
  end.

End BuildPacket.

(** A stand-in for [str.upper] on ASCII text, used to run the parsers on
    concrete inputs. *)
Definition ascii_upper_char (c : ascii) : ascii :=
  if (97 <=? nat_of_ascii c)%nat && (nat_of_ascii c <=? 122)%nat
  then ascii_of_nat (nat_of_ascii c - 32) else c.

Fixpoint ascii_upper (s : string) : string :=
  match s with
  | EmptyString => EmptyString
  | String c rest => String (ascii_upper_char c) (ascii_upper rest)
  end.

(** * Properties *)

(** ** Bit-level facts about the masks of the header accessors *)

Lemma testbit_field (off w n : Z) :
  0 <= off -> 0 <= w ->
  Z.testbit (Z.shiftl (Z.ones w) off) n = (off <=? n) && (n <? off + w).
Proof.
  intros Hoff Hw.
  destruct (Z.ltb_spec n 0) as [Hn | Hn].
  - rewrite Z.testbit_neg_r by lia.
    destruct (Z.leb_spec off n); [lia | reflexivity].
  - rewrite Z.shiftl_spec by lia.
    rewrite Z.testbit_ones by lia.
    destruct (Z.leb_spec off n), (Z.leb_spec 0 (n - off)),
             (Z.ltb_spec (n - off) w), (Z.ltb_spec n (off + w));
      simpl; try reflexivity; lia.
Qed.

Lemma testbit_1 n : Z.testbit 1 n = (0 <=? n) && (n <? 0 + 1).
Proof. exact (testbit_field 0 1 n ltac:(lia) ltac:(lia)). Qed.
Lemma testbit_3 n : Z.testbit 3 n = (0 <=? n) && (n <? 0 + 2).
Proof. exact (testbit_field 0 2 n ltac:(lia) ltac:(lia)). Qed.
Lemma testbit_7 n : Z.testbit 7 n = (0 <=? n) && (n <? 0 + 3).
Proof. exact (testbit_field 0 3 n ltac:(lia) ltac:(lia)). Qed.
Lemma testbit_31 n : Z.testbit 31 n = (0 <=? n) && (n <? 0 + 5).
Proof. exact (testbit_field 0 5 n ltac:(lia) ltac:(lia)). Qed.
Lemma testbit_63 n : Z.testbit 63 n = (0 <=? n) && (n <? 0 + 6).
Proof. exact (testbit_field 0 6 n ltac:(lia) ltac:(lia)). Qed.
Lemma testbit_127 n : Z.testbit 127 n = (0 <=? n) && (n <? 0 + 7).
Proof. exact (testbit_field 0 7 n ltac:(lia) ltac:(lia)). Qed.
Lemma testbit_1023 n : Z.testbit 1023 n = (0 <=? n) && (n <? 0 + 10).
Proof. exact (testbit_field 0 10 n ltac:(lia) ltac:(lia)). Qed.
Lemma testbit_224 n : Z.testbit 224 n = (5 <=? n) && (n <? 5 + 3).
Proof. exact (testbit_field 5 3 n ltac:(lia) ltac:(lia)). Qed.
Lemma testbit_248 n : Z.testbit 248 n = (3 <=? n) && (n <? 3 + 5).
Proof. exact (testbit_field 3 5 n ltac:(lia) ltac:(lia)). Qed.
Lemma testbit_1024 n : Z.testbit 1024 n = (10 <=? n) && (n <? 10 + 1).
Proof. exact (testbit_field 10 1 n ltac:(lia) ltac:(lia)). Qed.
Lemma testbit_64512 n : Z.testbit 64512 n = (10 <=? n) && (n <? 10 + 6).
Proof. exact (testbit_field 10 6 n ltac:(lia) ltac:(lia)). Qed.
Lemma testbit_159 n :
  Z.testbit 159 n = (0 <=? n) && (n <? 0 + 5) || (7 <=? n) && (n <? 7 + 1).
Proof.
  change 159 with (Z.lor (Z.shiftl (Z.ones 5) 0) (Z.shiftl (Z.ones 1) 7)).
  rewrite Z.lor_spec, !testbit_field by lia. reflexivity.
Qed.

(** Push [Z.testbit] through the bit operations and the masks above. *)
Ltac bits_norm :=
  repeat first
    [ rewrite Z.land_spec | rewrite Z.lor_spec
    | rewrite Z.testbit_mod_pow2 by lia | rewrite Z.testbit_0_l
    | rewrite testbit_1 | rewrite testbit_3 | rewrite testbit_7
    | rewrite testbit_31 | rewrite testbit_63 | rewrite testbit_127
    | rewrite testbit_159 | rewrite testbit_224 | rewrite testbit_248
    | rewrite testbit_1023 | rewrite testbit_1024 | rewrite testbit_64512
    | match goal with
      | |- context [Z.testbit (Z.shiftl ?a ?k) ?i] =>
          rewrite (Z.shiftl_spec a k i) by lia
      | |- context [Z.testbit (Z.shiftr ?a ?k) ?i] =>
          rewrite (Z.shiftr_spec a k i) by lia
      | |- context [Z.testbit ?a ?i] =>
          rewrite (Z.testbit_neg_r a i) by lia
      end ].

(** Split on the index comparisons, dropping the impossible cases. *)
Ltac bit_atoms :=
  repeat match goal with
  | |- context [?a <? ?b] =>
      destruct (Z.ltb_spec a b); try (exfalso; lia); cbn [andb orb]
  | |- context [?a <=? ?b] =>
      destruct (Z.leb_spec a b); try (exfalso; lia); cbn [andb orb]
  end.

(** Equality of two bit expressions, bit by bit. *)
Ltac bits :=
  let n := fresh "n" in
  apply Z.bits_inj'; intros n ?;
  repeat (progress (bits_norm; bit_atoms));
  rewrite ?andb_true_r, ?andb_false_r, ?orb_false_r, ?orb_true_r;
  simpl;
  try reflexivity; try lia; try (f_equal; lia).

Lemma c_ubyte_range v : 0 <= c_ubyte v < 2 ^ 8.
Proof. unfold c_ubyte. apply Z.mod_pos_bound. lia. Qed.

Lemma c_ushort_range v : 0 <= c_ushort v < 2 ^ 16.
Proof. unfold c_ushort. apply Z.mod_pos_bound. lia. Qed.

Lemma le16_join w :
  0 <= w < 2 ^ 16 ->
  Z.lor (w mod 256) (Z.shiftl ((w / 256) mod 256) 8) = w.
Proof.
  intros Hw.
  rewrite <- (Z.mod_small w (2 ^ 16)) at 3 by lia.
  change 256 with (2 ^ 8).
  rewrite <- Z.shiftr_div_pow2 by lia.
  bits.
Qed.

(** ** Accessor laws of [DJICmdV1Header] *)

Module HdrLaws.

(** Expose the stored words behind the accessors, lazily, so that nested
    stores do not duplicate the header. *)
Ltac open_accessors :=
  lazy beta iota zeta delta
    [get_fields set_fields truncate_fields
     Hdr.whole_length Hdr.set_whole_length Hdr.version Hdr.set_version
     Hdr.sender_type Hdr.set_sender_type Hdr.sender_index Hdr.set_sender_index
     Hdr.receiver_type Hdr.set_receiver_type Hdr.receiver_index
     Hdr.set_receiver_index Hdr.packet_type Hdr.set_packet_type Hdr.ack_type
     Hdr.set_ack_type Hdr.encrypt_type Hdr.set_encrypt_type
     Hdr.set_ver_length_tag Hdr.set_sender_info Hdr.set_receiver_info
     Hdr.set_cmd_type_data Hdr.set_seq_num Hdr.set_cmd_set Hdr.set_cmd_id
     Hdr.set_sof Hdr.set_header_crc8 c_ubyte c_ushort
     sof ver_length_tag header_crc8 sender_info receiver_info seq_num
     cmd_type_data cmd_set cmd_id
     hf_version hf_whole_length hf_sender_type hf_sender_index
     hf_receiver_type hf_receiver_index hf_seq_num hf_packet_type hf_ack_type
     hf_encrypt_type hf_cmd_set hf_cmd_id].

Lemma whole_length_set h v :
  Hdr.whole_length (Hdr.set_whole_length h v) = v mod 2 ^ 10.
Proof. open_accessors. bits. Qed.

Lemma version_set h v : Hdr.version (Hdr.set_version h v) = v mod 2 ^ 6.
Proof. open_accessors. bits. Qed.

Lemma version_set_whole_length h v :
  Hdr.version (Hdr.set_whole_length h v) = Hdr.version h.
Proof. open_accessors. bits. Qed.

Lemma whole_length_set_version h v :
  Hdr.whole_length (Hdr.set_version h v) = Hdr.whole_length h.
Proof. open_accessors. bits. Qed.

Lemma sender_type_set h v :
  Hdr.sender_type (Hdr.set_sender_type h v) = v mod 2 ^ 5.
Proof. open_accessors. bits. Qed.

Lemma sender_index_set h v :
  Hdr.sender_index (Hdr.set_sender_index h v) = v mod 2 ^ 3.
Proof. open_accessors. bits. Qed.

Lemma sender_type_set_index h v :
  Hdr.sender_type (Hdr.set_sender_index h v) = Hdr.sender_type h.
Proof. open_accessors. bits. Qed.

Lemma sender_index_set_type h v :
  Hdr.sender_index (Hdr.set_sender_type h v) = Hdr.sender_index h.
Proof. open_accessors. bits. Qed.

Lemma receiver_type_set h v :
  Hdr.receiver_type (Hdr.set_receiver_type h v) = v mod 2 ^ 5.
Proof. open_accessors. bits. Qed.

Lemma receiver_index_set h v :
  Hdr.receiver_index (Hdr.set_receiver_index h v) = v mod 2 ^ 3.
Proof. open_accessors. bits. Qed.

Lemma receiver_type_set_index h v :
  Hdr.receiver_type (Hdr.set_receiver_index h v) = Hdr.receiver_type h.
Proof. open_accessors. bits. Qed.

Lemma receiver_index_set_type h v :
  Hdr.receiver_index (Hdr.set_receiver_type h v) = Hdr.receiver_index h.
Proof. open_accessors. bits. Qed.

Lemma packet_type_set h v :
  Hdr.packet_type (Hdr.set_packet_type h v) = v mod 2 ^ 1.
Proof. open_accessors. bits. Qed.

Lemma ack_type_set h v : Hdr.ack_type (Hdr.set_ack_type h v) = v mod 2 ^ 2.
Proof. open_accessors. bits. Qed.

Lemma encrypt_type_set h v :
  Hdr.encrypt_type (Hdr.set_encrypt_type h v) = v mod 2 ^ 3.
Proof. open_accessors. bits. Qed.

End HdrLaws.

(** ** Header image and field round trip *)

Lemma to_bytes_length h : length (Hdr.to_bytes h) = sizeof_DJICmdV1Header.
Proof. reflexivity. Qed.

Lemma from_buffer_copy_image h rest :
  0 <= ver_length_tag h < 2 ^ 16 ->
  0 <= seq_num h < 2 ^ 16 ->
  Hdr.from_buffer_copy (Hdr.to_bytes h ++ rest) = Return h.
Proof.
  intros Hv Hs. destruct h as [s v c si ri sq ct cs ci].
  cbn [ver_length_tag seq_num] in Hv, Hs.
  unfold Hdr.from_buffer_copy, Hdr.to_bytes, u16_at, u8_at, le16_bytes.
  cbn [length app Nat.ltb Nat.leb sizeof_DJICmdV1Header nth Nat.add
       sof ver_length_tag header_crc8 sender_info receiver_info seq_num
       cmd_type_data cmd_set cmd_id].
  rewrite (le16_join v Hv), (le16_join sq Hs). reflexivity.
Qed.

Lemma from_buffer_copy_to_bytes h :
  0 <= ver_length_tag h < 2 ^ 16 ->
  0 <= seq_num h < 2 ^ 16 ->
  Hdr.from_buffer_copy (Hdr.to_bytes h) = Return h.
Proof.
  intros Hv Hs. rewrite <- (app_nil_r (Hdr.to_bytes h)).
  now apply from_buffer_copy_image.
Qed.

Lemma from_buffer_copy_short b :
  (length b < sizeof_DJICmdV1Header)%nat ->
  Hdr.from_buffer_copy b = Raise ValueError.
Proof.
  intros Hb. unfold Hdr.from_buffer_copy.
  destruct (Nat.ltb_spec (length b) sizeof_DJICmdV1Header); [reflexivity | lia].
Qed.

Lemma get_fields_set_fields f h :
  get_fields (set_fields f h) = truncate_fields f.
Proof.
  destruct f. HdrLaws.open_accessors.
  f_equal; try reflexivity; bits.
Qed.

Lemma set_fields_words_in_range f h :
  0 <= ver_length_tag (set_fields f h) < 2 ^ 16 /\
  0 <= seq_num (set_fields f h) < 2 ^ 16.
Proof.
  unfold set_fields. split.
  - apply c_ushort_range.
  - apply c_ushort_range.
Qed.

Lemma truncate_fields_in_range f :
  fields_in_range f -> truncate_fields f = f.
Proof.
  unfold fields_in_range, truncate_fields. intros H.
  destruct f; cbn in *.
  repeat match goal with
         | H : _ /\ _ |- _ => destruct H
         end.
  f_equal; apply Z.mod_small; lia.
Qed.

Lemma decode_encode_header f :
  decode_header (encode_header f) = Return (truncate_fields f).
Proof.
  unfold decode_header, encode_header.
  destruct (set_fields_words_in_range f Hdr.init) as [Hv Hs].
  rewrite (from_buffer_copy_to_bytes _ Hv Hs). cbn [bind].
  now rewrite get_fields_set_fields.
Qed.

(** ** The buffer assembled by [encode_command_packet] *)

Lemma memmove_app (a b c src : list Z) :
  length src = length b ->
  memmove (a ++ b ++ c) (length a) src = Some (a ++ src ++ c).
Proof.
  intros Hlen. unfold memmove. rewrite !length_app.
  destruct (Nat.leb_spec (length a + length src)
                         (length a + (length b + length c))) as [_ | Hbad];
    [| lia].
  rewrite firstn_app, firstn_all, Nat.sub_diag, firstn_O, app_nil_r.
  rewrite skipn_app, skipn_all2 by lia.
  replace (length a + length src - length a)%nat with (length b) by lia.
  rewrite skipn_app, skipn_all, Nat.sub_diag. reflexivity.
Qed.

Lemma memmove_head (b c src : list Z) :
  length src = length b -> memmove (b ++ c) 0 src = Some (src ++ c).
Proof. exact (memmove_app [] b c src). Qed.

Lemma memmove_out_of_bounds (dst src : list Z) (off : nat) :
  (length dst < off + length src)%nat -> memmove dst off src = None.
Proof.
  intros Hlen. unfold memmove.
  destruct (Nat.leb_spec (off + length src) (length dst)); [lia | reflexivity].
Qed.

Lemma u16_at_le16 (pre rest : list Z) (w : Z) :
  0 <= w < 2 ^ 16 ->
  u16_at (pre ++ le16_bytes w ++ rest) (length pre) = w.
Proof.
  intros Hw. induction pre as [| x pre IH].
  - apply le16_join, Hw.
  - exact IH.
Qed.

Lemma lor_version_length (x : Z) :
  0 <= x < 2 ^ 10 -> Z.lor 1024 x = 1 * 2 ^ 10 + x.
Proof.
  intros Hx.
  assert (Hdisj : Z.land 1024 x = 0).
  { rewrite <- (Z.mod_small x (2 ^ 10)) by lia. bits. }
  rewrite <- Z.lxor_lor, <- Z.add_nocarry_lxor by exact Hdisj.
  reflexivity.
Qed.

Section BuilderProps.

(** [calc8] stands for [calc_pkt55_hdr_checksum], [calc16] for
    [calc_pkt55_checksum]. *)
Variable calc8 : Z -> list Z -> Z -> Z.
Variable calc16 : list Z -> Z -> Z.


(** The length handed to [whole_length]. *)
Local Abbreviation total_length p :=
  (Z.of_nat sizeof_DJICmdV1Header + Z.of_nat (length p) + 2).

Lemma build_header_ver_length_tag st si rt ri sq pt at_ et cs ci p :
  ver_length_tag (build_header calc8 st si rt ri sq pt at_ et cs ci p)
  = ver_length_tag (Hdr.set_whole_length Hdr.init (total_length p)).
Proof. reflexivity. Qed.

Lemma build_header_sof st si rt ri sq pt at_ et cs ci p :
  sof (build_header calc8 st si rt ri sq pt at_ et cs ci p) = 0x55.
Proof. reflexivity. Qed.

Lemma build_header_crc8 st si rt ri sq pt at_ et cs ci p :
  header_crc8 (build_header calc8 st si rt ri sq pt at_ et cs ci p)
  = c_ubyte (calc8 0x77
               (firstn 3 (Hdr.to_bytes
                  (build_header calc8 st si rt ri sq pt at_ et cs ci p))) 3).
Proof. reflexivity. Qed.

Lemma build_header_whole_length st si rt ri sq pt at_ et cs ci p :
  Hdr.whole_length (build_header calc8 st si rt ri sq pt at_ et cs ci p)
  = total_length p mod 2 ^ 10.
Proof.
  unfold Hdr.whole_length at 1. rewrite build_header_ver_length_tag.
  apply HdrLaws.whole_length_set.
Qed.

Lemma build_header_version st si rt ri sq pt at_ et cs ci p :
  Hdr.version (build_header calc8 st si rt ri sq pt at_ et cs ci p) = 1.
Proof.
  unfold Hdr.version at 1. rewrite build_header_ver_length_tag.
  change (Hdr.version (Hdr.set_whole_length Hdr.init (total_length p)) = 1).
  rewrite HdrLaws.version_set_whole_length. reflexivity.
Qed.

Lemma build_header_words_in_range st si rt ri sq pt at_ et cs ci p :
  0 <= ver_length_tag (build_header calc8 st si rt ri sq pt at_ et cs ci p) < 2 ^ 16
  /\ 0 <= seq_num (build_header calc8 st si rt ri sq pt at_ et cs ci p) < 2 ^ 16.
Proof. split; apply c_ushort_range. Qed.

Lemma build_header_ver_length_word st si rt ri sq pt at_ et cs ci p :
  (length p <= 1010)%nat ->
  ver_length_tag (build_header calc8 st si rt ri sq pt at_ et cs ci p)
  = 1 * 2 ^ 10 + total_length p.
Proof.
  intros Hp. rewrite build_header_ver_length_tag.
  unfold Hdr.set_whole_length, Hdr.set_ver_length_tag.
  cbn [ver_length_tag].
  change (ver_length_tag Hdr.init) with 1037.
  change (Z.land 1037 64512) with 1024.
  change 1023 with (Z.ones 10). rewrite Z.land_ones by lia.
  assert (HL : 0 <= total_length p < 2 ^ 10)
    by (unfold sizeof_DJICmdV1Header; lia).
  rewrite (Z.mod_small _ _ HL), (lor_version_length _ HL).
  unfold c_ushort. apply Z.mod_small. lia.
Qed.

(** The footer stored by the builder for a given header and payload. *)
Local Abbreviation built_footer h p :=
  (Ftr.set_crc16 Ftr.zeroed
     (calc16 (Hdr.to_bytes h ++ p ++ repeat 0 2)
                          (Z.of_nat (length (Hdr.to_bytes h ++ p ++ repeat 0 2)) - 2))).

Lemma encode_command_packet_fits st si rt ri sq pt at_ et cs ci p :
  (length p <= 1010)%nat ->
  encode_command_packet calc8 calc16 st si rt ri sq pt at_ et cs ci p
  = Some (Hdr.to_bytes (build_header calc8 st si rt ri sq pt at_ et cs ci p) ++ p ++
          Ftr.to_bytes
            (built_footer (build_header calc8 st si rt ri sq pt at_ et cs ci p) p)).
Proof.
  intros Hp. unfold encode_command_packet.
  set (h := build_header calc8 st si rt ri sq pt at_ et cs ci p).
  assert (Hlen : Z.to_nat (Hdr.whole_length h)
                 = (length (Hdr.to_bytes h) + (length p + 2))%nat).
  { subst h. rewrite build_header_whole_length, Z.mod_small
      by (unfold sizeof_DJICmdV1Header; lia).
    rewrite to_bytes_length. unfold sizeof_DJICmdV1Header. lia. }
  rewrite Hlen, !repeat_app.
  rewrite (memmove_head (repeat 0 (length (Hdr.to_bytes h))) _ (Hdr.to_bytes h))
    by (now rewrite repeat_length).
  cbn [obind].
  change sizeof_DJICmdV1Header with (length (Hdr.to_bytes h)).
  rewrite (memmove_app (Hdr.to_bytes h) (repeat 0 (length p)) _ p)
    by (now rewrite repeat_length).
  cbn [obind].
  rewrite <- (length_app (Hdr.to_bytes h) p).
  rewrite (app_assoc (Hdr.to_bytes h) p (repeat 0 2)).
  rewrite <- (app_nil_r (repeat 0 2)) at 2.
  rewrite (memmove_app (Hdr.to_bytes h ++ p) (repeat 0 2) [] _) by reflexivity.
  rewrite app_nil_r, <- app_assoc. reflexivity.
Qed.

Lemma encode_command_packet_oversized st si rt ri sq pt at_ et cs ci p :
  (1010 < length p)%nat ->
  encode_command_packet calc8 calc16 st si rt ri sq pt at_ et cs ci p = None.
Proof.
  intros Hp. unfold encode_command_packet.
  set (h := build_header calc8 st si rt ri sq pt at_ et cs ci p).
  assert (Hwl : 0 <= Hdr.whole_length h <= total_length p - 2 ^ 10).
  { subst h. rewrite build_header_whole_length.
    unfold sizeof_DJICmdV1Header. change (2 ^ 10) with 1024.
    Z.div_mod_to_equations. lia. }
  set (enc_data := repeat 0 (Z.to_nat (Hdr.whole_length h))).
  assert (Hsz : (length enc_data + 1024 <= 13 + length p)%nat).
  { subst enc_data. rewrite repeat_length.
    unfold sizeof_DJICmdV1Header in Hwl. lia. }
  unfold memmove at 1.
  destruct (Nat.leb_spec (0 + length (Hdr.to_bytes h)) (length enc_data));
    [| reflexivity].
  cbn [obind]. rewrite memmove_out_of_bounds; [reflexivity |].
  rewrite !length_app, length_firstn, length_skipn, to_bytes_length in *.
  unfold sizeof_DJICmdV1Header in *. lia.
Qed.

Lemma encode_command_packet_some st si rt ri sq pt at_ et cs ci p enc_data :
  encode_command_packet calc8 calc16 st si rt ri sq pt at_ et cs ci p
  = Some enc_data ->
  (length p <= 1010)%nat /\
  enc_data
  = Hdr.to_bytes (build_header calc8 st si rt ri sq pt at_ et cs ci p) ++ p ++
    Ftr.to_bytes
      (built_footer (build_header calc8 st si rt ri sq pt at_ et cs ci p) p).
Proof.
  intros Henc. destruct (Nat.le_gt_cases (length p) 1010) as [Hp | Hp].
  - rewrite (encode_command_packet_fits _ _ _ _ _ _ _ _ _ _ _ Hp) in Henc.
    injection Henc as <-. split; [exact Hp | reflexivity].
  - rewrite (encode_command_packet_oversized _ _ _ _ _ _ _ _ _ _ _ Hp) in Henc.
    discriminate Henc.
Qed.

Lemma encode_command_packet_defined st si rt ri sq pt at_ et cs ci p :
  (length p <= 1010)%nat ->
  exists enc_data,
    encode_command_packet calc8 calc16 st si rt ri sq pt at_ et cs ci p
    = Some enc_data.
Proof.
  intros Hp. rewrite (encode_command_packet_fits _ _ _ _ _ _ _ _ _ _ _ Hp).
  eexists. reflexivity.
Qed.

Lemma built_packet_header_decodes st si rt ri sq pt at_ et cs ci p enc_data :
  encode_command_packet calc8 calc16 st si rt ri sq pt at_ et cs ci p
  = Some enc_data ->
  Hdr.from_buffer_copy enc_data
  = Return (build_header calc8 st si rt ri sq pt at_ et cs ci p).
Proof.
  intros Henc. apply encode_command_packet_some in Henc as [_ ->].
  destruct (build_header_words_in_range st si rt ri sq pt at_ et cs ci p)
    as [Hv Hs].
  now apply from_buffer_copy_image.
Qed.

Lemma build_header_crc8_routing_free st si rt ri sq pt at_ et cs ci p :
  header_crc8 (build_header calc8 st si rt ri sq pt at_ et cs ci p)
  = c_ubyte (calc8 0x77
               (firstn 3 (Hdr.to_bytes
                  (Hdr.set_whole_length Hdr.init (total_length p)))) 3).
Proof. reflexivity. Qed.

Lemma set_sender_index_mask h k :
  Hdr.set_sender_index h (k + 8) = Hdr.set_sender_index h k.
Proof.
  unfold Hdr.set_sender_index. do 3 f_equal.
  change 7 with (Z.ones 3). rewrite !Z.land_ones by lia.
  change (2 ^ 3) with 8.
  rewrite <- (Z.mul_1_l 8) at 1. apply Z.mod_add. lia.
Qed.

(** C2: a packet is built for every payload of at most 1010 bytes, and in
    every packet built the header checksum byte is the 8-bit checksum, seed
    0x77, of the first three bytes of the buffer (start marker and the packed
    version/length word); two builds of the same payload that differ in
    sender, receiver, sequence number, command type, command set or command
    id carry the same header checksum byte. *)
Theorem header_checksum_covers_first_three_bytes
    st si rt ri sq pt at_ et cs ci p :
  checksum8_contract calc8 ->
  ((length p <= 1010)%nat ->
   exists enc_data,
     encode_command_packet calc8 calc16 st si rt ri sq pt at_ et cs ci p
     = Some enc_data) /\
  forall enc_data,
    encode_command_packet calc8 calc16 st si rt ri sq pt at_ et cs ci p
    = Some enc_data ->
    u8_at enc_data 3 = calc8 0x77 (firstn 3 enc_data) 3 /\
    forall st' si' rt' ri' sq' pt' at' et' cs' ci' enc_data',
      encode_command_packet calc8 calc16
        st' si' rt' ri' sq' pt' at' et' cs' ci' p = Some enc_data' ->
      u8_at enc_data' 3 = u8_at enc_data 3.
Proof.
  intros Hc8. split; [apply encode_command_packet_defined |].
  intros enc_data Henc.
  apply encode_command_packet_some in Henc as [_ ->]. split.
  - change (header_crc8 (build_header calc8 st si rt ri sq pt at_ et cs ci p)
            = calc8 0x77
                (firstn 3 (Hdr.to_bytes
                   (build_header calc8 st si rt ri sq pt at_ et cs ci p))) 3).
    rewrite build_header_crc8. unfold c_ubyte. apply Z.mod_small, Hc8.
  - intros st' si' rt' ri' sq' pt' at' et' cs' ci' enc_data' Henc'.
    apply encode_command_packet_some in Henc' as [_ ->].
    change (header_crc8
              (build_header calc8 st' si' rt' ri' sq' pt' at' et' cs' ci' p)
            = header_crc8
                (build_header calc8 st si rt ri sq pt at_ et cs ci p)).
    now rewrite !build_header_crc8_routing_free.
Qed.

(** C4 (amended): for a payload of at most 1010 bytes the built packet
    stores, in the low 10 bits of the packed version/length word, the value
    11 (header size) + len(payload) + 2 (footer size), and the returned
    buffer has exactly that many bytes. *)
Theorem total_length_is_header_payload_footer
    st si rt ri sq pt at_ et cs ci p :
  (length p <= 1010)%nat ->
  exists enc_data,
    encode_command_packet calc8 calc16 st si rt ri sq pt at_ et cs ci p = Some enc_data /\
    Z.land (u16_at enc_data 1) 1023 = 11 + Z.of_nat (length p) + 2 /\
    Z.of_nat (length enc_data) = 11 + Z.of_nat (length p) + 2.
Proof.
  intros Hp.
  rewrite (encode_command_packet_fits _ _ _ _ _ _ _ _ _ _ _ Hp).
  eexists. split; [reflexivity |].
  set (h := build_header calc8 st si rt ri sq pt at_ et cs ci p).
  destruct (build_header_words_in_range st si rt ri sq pt at_ et cs ci p)
    as [Hv _]. fold h in Hv.
  split.
  - change (Hdr.to_bytes h ++ ?r)
      with ([sof h] ++ le16_bytes (ver_length_tag h) ++
            ([header_crc8 h; sender_info h; receiver_info h] ++
             le16_bytes (seq_num h) ++ [cmd_type_data h; cmd_set h; cmd_id h])
            ++ r).
    rewrite (u16_at_le16 [sof h] _ _ Hv).
    change (Hdr.whole_length h = 11 + Z.of_nat (length p) + 2).
    subst h. rewrite build_header_whole_length.
    apply Z.mod_small. unfold sizeof_DJICmdV1Header. lia.
  - rewrite !length_app, to_bytes_length.
    unfold sizeof_DJICmdV1Header. cbn [Ftr.to_bytes le16_bytes length]. lia.
Qed.

(** C7: a packet is built for every payload of at most 1010 bytes, and in
    every packet built the last two bytes are, least significant byte first,
    the 16-bit checksum of all the bytes before them, which are the header
    image followed by the payload. *)
Theorem footer_is_checksum_of_preceding_bytes
    st si rt ri sq pt at_ et cs ci p :
  checksum16_contract calc16 ->
  ((length p <= 1010)%nat ->
   exists enc_data,
     encode_command_packet calc8 calc16 st si rt ri sq pt at_ et cs ci p
     = Some enc_data) /\
  forall enc_data,
    encode_command_packet calc8 calc16 st si rt ri sq pt at_ et cs ci p
    = Some enc_data ->
    let n := (length enc_data - 2)%nat in
    firstn n enc_data
    = Hdr.to_bytes (build_header calc8 st si rt ri sq pt at_ et cs ci p) ++ p /\
    skipn n enc_data = le16_bytes (calc16 (firstn n enc_data) (Z.of_nat n)).
Proof.
  intros [Hrange Hprefix]. split; [apply encode_command_packet_defined |].
  intros enc_data Henc.
  apply encode_command_packet_some in Henc as [_ ->].
  set (h := build_header calc8 st si rt ri sq pt at_ et cs ci p).
  set (body := Hdr.to_bytes h ++ p).
  rewrite !(app_assoc (Hdr.to_bytes h) p). fold body.
  set (foot := Ftr.to_bytes _).
  assert (Hn : (length (body ++ foot) - 2)%nat = length body).
  { rewrite length_app. subst foot. cbn [Ftr.to_bytes le16_bytes length]. lia. }
  cbv zeta. rewrite Hn.
  assert (Hfirst : firstn (length body) (body ++ foot) = body).
  { rewrite firstn_app, firstn_all, Nat.sub_diag, firstn_O. apply app_nil_r. }
  rewrite Hfirst. split; [reflexivity |].
  rewrite skipn_app, skipn_all, Nat.sub_diag. cbn [skipn app].
  subst foot. unfold Ftr.to_bytes, Ftr.set_crc16. cbn [crc16].
  unfold c_ushort. rewrite (Z.mod_small _ _ (Hrange _ _)).
  rewrite Hprefix.
  replace (Z.to_nat (Z.of_nat (length (body ++ repeat 0 2)) - 2))
    with (length body)
    by (rewrite length_app; cbn [repeat length]; lia).
  replace (Z.of_nat (length (body ++ repeat 0 2)) - 2)
    with (Z.of_nat (length body))
    by (rewrite length_app; cbn [repeat length]; lia).
  rewrite firstn_app, firstn_all, Nat.sub_diag, firstn_O, app_nil_r.
  reflexivity.
Qed.

(** C8: for every k in [0,7], building with sender index k and with sender
    index k + 8, all other inputs equal, gives the same result. *)
Theorem sender_index_truncation st rt ri sq pt at_ et cs ci p k :
  0 <= k <= 7 ->
  encode_command_packet calc8 calc16 st k rt ri sq pt at_ et cs ci p
  = encode_command_packet calc8 calc16 st (k + 8) rt ri sq pt at_ et cs ci p.
Proof.
  intros _.
  assert (Hh : build_header calc8 st (k + 8) rt ri sq pt at_ et cs ci p
               = build_header calc8 st k rt ri sq pt at_ et cs ci p).
  { unfold build_header. cbv zeta.
    now rewrite set_sender_index_mask. }
  unfold encode_command_packet. now rewrite Hh.
Qed.

(** C9: the header keeps the version 1 set by its constructor whatever the
    inputs; a packet is built for every payload of at most 1010 bytes; and in
    every packet built bytes 1 and 2 hold the word with 1 in its high 6 bits
    and the total length in its low 10 bits. *)
Theorem built_packet_has_version_1 st si rt ri sq pt at_ et cs ci p :
  Hdr.version (build_header calc8 st si rt ri sq pt at_ et cs ci p) = 1 /\
  ((length p <= 1010)%nat ->
   exists enc_data,
     encode_command_packet calc8 calc16 st si rt ri sq pt at_ et cs ci p
     = Some enc_data) /\
  forall enc_data,
    encode_command_packet calc8 calc16 st si rt ri sq pt at_ et cs ci p
    = Some enc_data ->
    u16_at enc_data 1 = 1 * 2 ^ 10 + (11 + Z.of_nat (length p) + 2) /\
    Z.shiftr (u16_at enc_data 1) 10 = 1.
Proof.
  split; [apply build_header_version |].
  split; [apply encode_command_packet_defined |].
  intros enc_data Henc.
  apply encode_command_packet_some in Henc as [Hp ->].
  set (h := build_header calc8 st si rt ri sq pt at_ et cs ci p).
  destruct (build_header_words_in_range st si rt ri sq pt at_ et cs ci p)
    as [Hv _]. fold h in Hv.
  change (Hdr.to_bytes h ++ ?r)
    with ([sof h] ++ le16_bytes (ver_length_tag h) ++
          ([header_crc8 h; sender_info h; receiver_info h] ++
           le16_bytes (seq_num h) ++ [cmd_type_data h; cmd_set h; cmd_id h])
          ++ r).
  rewrite (u16_at_le16 [sof h] _ _ Hv).
  subst h. rewrite (build_header_ver_length_word _ _ _ _ _ _ _ _ _ _ _ Hp).
  split; [reflexivity |].
  rewrite Z.shiftr_div_pow2 by lia.
  unfold sizeof_DJICmdV1Header.
  rewrite Z.div_add_l by lia. rewrite Z.div_small by lia. reflexivity.
Qed.

End BuilderProps.

(** ** Reading fields from a cut or padded buffer *)

Lemma u8_at_firstn b n i : (i < n)%nat -> u8_at (firstn n b) i = u8_at b i.
Proof.
  intros Hi. unfold u8_at. rewrite nth_firstn.
  destruct (Nat.ltb_spec i n); [reflexivity | lia].
Qed.

Lemma u16_at_firstn b n i :
  (i + 1 < n)%nat -> u16_at (firstn n b) i = u16_at b i.
Proof. intros Hi. unfold u16_at. now rewrite !u8_at_firstn by lia. Qed.

Lemma u32_at_firstn b n i :
  (i + 3 < n)%nat -> u32_at (firstn n b) i = u32_at b i.
Proof. intros Hi. unfold u32_at. now rewrite !u16_at_firstn by lia. Qed.

Lemma chars_at_firstn b n off k :
  (off + k <= n)%nat -> chars_at (firstn n b) off k = chars_at b off k.
Proof.
  intros Hk. unfold chars_at.
  rewrite skipn_firstn_comm, firstn_firstn. f_equal. lia.
Qed.

Lemma u8_at_app b pad i : (i < length b)%nat -> u8_at (b ++ pad) i = u8_at b i.
Proof. intros Hi. unfold u8_at. now apply app_nth1. Qed.

Lemma u16_at_app b pad i :
  (i + 1 < length b)%nat -> u16_at (b ++ pad) i = u16_at b i.
Proof. intros Hi. unfold u16_at. now rewrite !u8_at_app by lia. Qed.

Lemma ljust_length b w : (w <= length (ljust b w))%nat.
Proof. unfold ljust. rewrite length_app, repeat_length. lia. Qed.

Lemma ljust_long b w : (w <= length b)%nat -> ljust b w = b.
Proof.
  intros Hw. unfold ljust.
  replace (w - length b)%nat with 0%nat by lia. apply app_nil_r.
Qed.

Ltac from_buffer_copy_ok :=
  let H := fresh in
  intros H;
  match goal with
  | |- ?f ?b = _ => unfold f
  end;
  match goal with
  | |- context [(length ?b <? ?n)%nat] =>
      destruct (Nat.ltb_spec (length b) n); [lia | reflexivity]
  end.

Lemma VersionInquiryRe_ok b :
  (VersionInquiryRe.sizeof <= length b)%nat ->
  VersionInquiryRe.from_buffer_copy b = Return (VersionInquiryRe.overlay b).
Proof. from_buffer_copy_ok. Qed.

Lemma ChipRebootRe_ok b :
  (ChipRebootRe.sizeof <= length b)%nat ->
  ChipRebootRe.from_buffer_copy b = Return (ChipRebootRe.overlay b).
Proof. from_buffer_copy_ok. Qed.

Lemma ParamDefRq_ok b :
  (ParamDefRq.sizeof <= length b)%nat ->
  ParamDefRq.from_buffer_copy b = Return (ParamDefRq.overlay b).
Proof. from_buffer_copy_ok. Qed.

Lemma ParamDefEOL_ok b :
  (ParamDefEOL.sizeof <= length b)%nat ->
  ParamDefEOL.from_buffer_copy b = Return (ParamDefEOL.overlay b).
Proof. from_buffer_copy_ok. Qed.

Lemma ParamDefU_ok b :
  (ParamDefU.sizeof <= length b)%nat ->
  ParamDefU.from_buffer_copy b = Return (ParamDefU.overlay b).
Proof. from_buffer_copy_ok. Qed.

Lemma ParamDefI_ok b :
  (ParamDefI.sizeof <= length b)%nat ->
  ParamDefI.from_buffer_copy b = Return (ParamDefI.overlay b).
Proof. from_buffer_copy_ok. Qed.

Lemma ParamDefF_ok b :
  (ParamDefF.sizeof <= length b)%nat ->
  ParamDefF.from_buffer_copy b = Return (ParamDefF.overlay b).
Proof. from_buffer_copy_ok. Qed.

Ltac sizes :=
  unfold VersionInquiryRe.sizeof, ChipRebootRe.sizeof, ParamDefRq.sizeof,
    ParamDefEOL.sizeof, ParamDefU.sizeof, ParamDefI.sizeof, ParamDefF.sizeof,
    DJIPayload_FlyController_ParamMaxLen in *.

(** Each structure reads no byte at or beyond its size. *)
Ltac overlay_firstn :=
  let H := fresh in
  intros H;
  match goal with
  | |- ?f (firstn _ _) = _ => unfold f
  end;
  sizes; unfold f32_at, i32_at;
  rewrite ?u8_at_firstn, ?u16_at_firstn, ?u32_at_firstn, ?chars_at_firstn
    by lia;
  reflexivity.

Lemma VersionInquiryRe_overlay_firstn b n :
  (VersionInquiryRe.sizeof <= n)%nat ->
  VersionInquiryRe.overlay (firstn n b) = VersionInquiryRe.overlay b.
Proof. overlay_firstn. Qed.

Lemma ChipRebootRe_overlay_firstn b n :
  (ChipRebootRe.sizeof <= n)%nat ->
  ChipRebootRe.overlay (firstn n b) = ChipRebootRe.overlay b.
Proof. overlay_firstn. Qed.

Lemma ParamDefRq_overlay_firstn b n :
  (ParamDefRq.sizeof <= n)%nat ->
  ParamDefRq.overlay (firstn n b) = ParamDefRq.overlay b.
Proof. overlay_firstn. Qed.

Lemma ParamDefEOL_overlay_firstn b n :
  (ParamDefEOL.sizeof <= n)%nat ->
  ParamDefEOL.overlay (firstn n b) = ParamDefEOL.overlay b.
Proof. overlay_firstn. Qed.

Lemma ParamDefU_overlay_firstn b n :
  (ParamDefU.sizeof <= n)%nat ->
  ParamDefU.overlay (firstn n b) = ParamDefU.overlay b.
Proof. overlay_firstn. Qed.

Lemma ParamDefI_overlay_firstn b n :
  (ParamDefI.sizeof <= n)%nat ->
  ParamDefI.overlay (firstn n b) = ParamDefI.overlay b.
Proof. overlay_firstn. Qed.

Lemma ParamDefF_overlay_firstn b n :
  (ParamDefF.sizeof <= n)%nat ->
  ParamDefF.overlay (firstn n b) = ParamDefF.overlay b.
Proof. overlay_firstn. Qed.

(** ** get_known_payload *)

(** Decide the routing tests of the resolver once the three key fields of
    the header are known. *)
Ltac route Hset Hdir Hid :=
  unfold get_known_payload; cbv zeta;
  rewrite ?Hset, ?Hdir, ?Hid;
  cbv [CMD_SET_TYPE_GENERAL CMD_SET_TYPE_CAMERA CMD_SET_TYPE_FLYCONTROLLER
       PACKET_TYPE_REQUEST PACKET_TYPE_RESPONSE];
  repeat match goal with
         | |- context [Z.eqb (Zpos ?a) (Zpos ?b)] =>
             let v := eval vm_compute in (Z.eqb (Zpos a) (Zpos b)) in
             change (Z.eqb (Zpos a) (Zpos b)) with v
         | |- context [Z.eqb 0 (Zpos ?b)] =>
             change (Z.eqb 0 (Zpos b)) with false
         | |- context [Z.eqb (Zpos ?a) 0] =>
             change (Z.eqb (Zpos a) 0) with false
         | |- context [Z.eqb 0 0] => change (Z.eqb 0 0) with true
         end;
  cbn [andb orb].

(** C1: for the key (FLYCONTROLLER, response, 0xF0) and a payload of at
    least 20 bytes, the resolver pads the payload with zero bytes to the
    179-byte record size and returns the signed record when the type tag
    (bytes 1 and 2 of the payload) is in [4,7], the floating-point record
    when it is 8 or 9 and the unsigned record otherwise, each read from the
    same padded bytes. *)
Theorem flyc_param_definition_variant h p :
  cmd_set h = CMD_SET_TYPE_FLYCONTROLLER ->
  Hdr.packet_type h = PACKET_TYPE_RESPONSE ->
  cmd_id h = 0xf0 ->
  (20 <= length p)%nat ->
  let padded := p ++ repeat 0 (179 - length p) in
  let type_tag := u16_at p 1 in
  length padded = Nat.max 179 (length p) /\
  get_known_payload h p
  = Return (Some
      (if (4 <=? type_tag) && (type_tag <=? 7)
       then FlyController_GetParamDefinitionI2015Re (ParamDefI.overlay padded)
       else if (type_tag =? 8) || (type_tag =? 9)
       then FlyController_GetParamDefinitionF2015Re (ParamDefF.overlay padded)
       else FlyController_GetParamDefinitionU2015Re (ParamDefU.overlay padded))).
Proof.
  intros Hset Hdir Hid Hlen padded type_tag.
  assert (Hpad : (179 <= length padded)%nat) by apply (ljust_length p 179).
  split; [subst padded; rewrite length_app, repeat_length; lia |].
  route Hset Hdir Hid.
  destruct (Nat.leb_spec
              (ParamDefU.sizeof - DJIPayload_FlyController_ParamMaxLen + 1)
              (length p)) as [_ | Hshort]; [| sizes; lia].
  change (ljust p ParamDefU.sizeof) with padded.
  change (ljust p ParamDefI.sizeof) with padded.
  change (ljust p ParamDefF.sizeof) with padded.
  rewrite (ParamDefU_ok padded Hpad). cbn [bind].
  change (ParamDefU.type_id (ParamDefU.overlay padded)) with (u16_at padded 1).
  replace (u16_at padded 1) with type_tag
    by (symmetry; apply u16_at_app; lia).
  destruct ((4 <=? type_tag) && (type_tag <=? 7)).
  - now rewrite (ParamDefI_ok padded Hpad).
  - destruct ((type_tag =? 8) || (type_tag =? 9)).
    + now rewrite (ParamDefF_ok padded Hpad).
    + reflexivity.
Qed.

(** C6: for the key (FLYCONTROLLER, response, 0xF0), a payload of 1 to 19
    bytes gives the end-of-list record whose status is payload byte 0, and
    an empty payload gives the no-match sentinel. *)
Theorem flyc_param_definition_short h p :
  cmd_set h = CMD_SET_TYPE_FLYCONTROLLER ->
  Hdr.packet_type h = PACKET_TYPE_RESPONSE ->
  cmd_id h = 0xf0 ->
  ((1 <= length p <= 19)%nat ->
   get_known_payload h p
   = Return (Some (FlyController_GetParamDefinitionEOL2015Re
                     (ParamDefEOL.mk (nth 0 p 0))))) /\
  (length p = 0%nat -> get_known_payload h p = Return None).
Proof.
  intros Hset Hdir Hid. split; intros Hlen; route Hset Hdir Hid.
  - destruct (Nat.leb_spec
                (ParamDefU.sizeof - DJIPayload_FlyController_ParamMaxLen + 1)
                (length p)); [sizes; lia |].
    destruct (Nat.leb_spec ParamDefEOL.sizeof (length p)); [| sizes; lia].
    now rewrite ParamDefEOL_ok.
  - destruct (Nat.leb_spec
                (ParamDefU.sizeof - DJIPayload_FlyController_ParamMaxLen + 1)
                (length p)); [sizes; lia |].
    destruct (Nat.leb_spec ParamDefEOL.sizeof (length p)); [sizes; lia |].
    reflexivity.
Qed.

Lemma get_known_payload_none_iff h p :
  get_known_payload h p = Return None <->
  match routing_min_length h with
  | None => True
  | Some m => (length p < m)%nat
  end.
Proof.
  unfold routing_min_length, catalog_min_length, get_known_payload.
  cbv zeta.
  destruct (cmd_set h =? CMD_SET_TYPE_GENERAL) eqn:Hg;
    destruct (cmd_set h =? CMD_SET_TYPE_FLYCONTROLLER) eqn:Hf;
    destruct (Hdr.packet_type h =? 1) eqn:Hr;
    destruct (Hdr.packet_type h =? 0) eqn:Hq;
    destruct (cmd_id h =? 1) eqn:H1;
    destruct (cmd_id h =? 11) eqn:Hb;
    destruct (cmd_id h =? 240) eqn:Hf0;
    cbn [andb orb];
    try (split; [intros _; exact I | reflexivity]);
    try (exfalso; lia).
  all: repeat match goal with
         | |- context [Nat.leb ?a ?b] => destruct (Nat.leb_spec a b)
         end.
  all: rewrite ?VersionInquiryRe_ok, ?ChipRebootRe_ok, ?ParamDefRq_ok,
         ?ParamDefEOL_ok, ?ParamDefU_ok by (try apply ljust_length; assumption).
  all: cbn [bind].
  all: repeat match goal with
         | |- context [if ?c then _ else _] => destruct c
         end.
  all: rewrite ?ParamDefI_ok, ?ParamDefF_ok by apply ljust_length.
  all: cbn [bind].
  all: sizes; split; intros; try discriminate; try reflexivity; try lia.
Qed.

Lemma length_firstn_le (b : list Z) n :
  (n <= length b)%nat -> length (firstn n b) = n.
Proof. intros Hn. rewrite length_firstn. lia. Qed.

Lemma get_known_payload_returns h p :
  exists r, get_known_payload h p = Return r.
Proof.
  unfold get_known_payload. cbv zeta.
  repeat match goal with
         | |- context [Z.eqb ?a ?b] => destruct (Z.eqb a b)
         end;
    cbn [andb orb];
    repeat match goal with
           | |- context [Nat.leb ?a ?b] => destruct (Nat.leb_spec a b)
           end;
    rewrite ?VersionInquiryRe_ok, ?ChipRebootRe_ok, ?ParamDefRq_ok,
      ?ParamDefEOL_ok, ?ParamDefU_ok by (try apply ljust_length; assumption);
    cbn [bind];
    repeat match goal with
           | |- context [if ?c then _ else _] => destruct c
           end;
    rewrite ?ParamDefI_ok, ?ParamDefF_ok by apply ljust_length;
    cbn [bind]; eexists; reflexivity.
Qed.

Lemma get_known_payload_cut h p v :
  get_known_payload h p = Return (Some v) ->
  (sizeof_known_payload v <= length p)%nat ->
  get_known_payload h (firstn (sizeof_known_payload v) p) = Return (Some v).
Proof.
  intros Hr Hsz. unfold get_known_payload in *. cbv zeta in *.
  unfold CMD_SET_TYPE_GENERAL, CMD_SET_TYPE_FLYCONTROLLER in *.
  destruct (cmd_set h =? 0) eqn:Hg;
    destruct (cmd_set h =? 3) eqn:Hf;
    destruct (Hdr.packet_type h =? 1) eqn:Hrs;
    destruct (Hdr.packet_type h =? 0) eqn:Hrq;
    destruct (cmd_id h =? 1) eqn:H1;
    destruct (cmd_id h =? 11) eqn:Hb;
    destruct (cmd_id h =? 240) eqn:Hf0;
    cbn [andb orb] in *; try discriminate Hr; try (exfalso; lia).
  all: repeat match type of Hr with
         | context [Nat.leb ?a ?b] => destruct (Nat.leb_spec a b)
         end; try discriminate Hr.
  all: rewrite ?VersionInquiryRe_ok, ?ChipRebootRe_ok, ?ParamDefRq_ok,
         ?ParamDefEOL_ok, ?ParamDefU_ok in Hr
         by (try apply ljust_length; assumption).
  all: cbn [bind] in Hr.
  all: repeat match type of Hr with
         | context [if ?c then _ else _] => destruct c eqn:?
         end.
  all: rewrite ?ParamDefI_ok, ?ParamDefF_ok in Hr by apply ljust_length.
  all: cbn [bind] in Hr.
  all: injection Hr as <-.
  all: cbn [sizeof_known_payload] in *.
  all: rewrite ?length_firstn_le by assumption.
  all: repeat match goal with
         | |- context [Nat.leb ?a ?b] =>
             destruct (Nat.leb_spec a b); try (exfalso; sizes; lia)
         end.
  all: change ParamDefI.sizeof with ParamDefU.sizeof in *;
    change ParamDefF.sizeof with ParamDefU.sizeof in *.
  all: try rewrite (ljust_long p) in * by assumption.
  all: try rewrite (ljust_long (firstn ParamDefU.sizeof p))
         by (rewrite length_firstn_le; [lia | assumption]).
  all: rewrite ?VersionInquiryRe_ok, ?ChipRebootRe_ok, ?ParamDefRq_ok,
         ?ParamDefEOL_ok, ?ParamDefU_ok
         by (rewrite length_firstn_le; [lia | assumption]).
  all: cbn [bind].
  all: rewrite ?VersionInquiryRe_overlay_firstn, ?ChipRebootRe_overlay_firstn,
         ?ParamDefRq_overlay_firstn, ?ParamDefEOL_overlay_firstn,
         ?ParamDefU_overlay_firstn by lia.
  all: try reflexivity.
  all: repeat match goal with
         | H : ?c = _ |- context [if ?c then _ else _] => rewrite H
         end.
  all: rewrite ?ParamDefI_ok, ?ParamDefF_ok
         by (rewrite length_firstn_le; [sizes; lia | assumption]).
  all: cbn [bind].
  all: rewrite ?ParamDefI_overlay_firstn, ?ParamDefF_overlay_firstn
         by (sizes; lia).
  all: reflexivity.
Qed.

(** C10: the resolver never raises: for every header and every payload it
    returns a structure or the None sentinel; and when the payload is at
    least as long as the structure returned, the bytes beyond the
    structure's size play no part in the result. *)
Theorem get_known_payload_total h p :
  exists r,
    get_known_payload h p = Return r /\
    forall v,
      r = Some v ->
      (sizeof_known_payload v <= length p)%nat ->
      get_known_payload h (firstn (sizeof_known_payload v) p)
      = Return (Some v).
Proof.
  destruct (get_known_payload_returns h p) as [r Hr].
  exists r. split; [exact Hr |].
  intros v -> Hsz. now apply get_known_payload_cut.
Qed.

(** C3 (amended): the resolver has one no-match result: it returns the same
    None sentinel for a routing key it has no entry for and for a key it
    knows with a payload shorter than every structure of that key. *)
Theorem no_match_is_a_single_sentinel h1 p1 h2 p2 m :
  routing_min_length h1 = None ->
  routing_min_length h2 = Some m ->
  (length p2 < m)%nat ->
  get_known_payload h1 p1 = Return None /\
  get_known_payload h2 p2 = Return None /\
  get_known_payload h1 p1 = get_known_payload h2 p2.
Proof.
  intros H1 H2 Hlen.
  assert (E1 : get_known_payload h1 p1 = Return None)
    by (apply get_known_payload_none_iff; now rewrite H1).
  assert (E2 : get_known_payload h2 p2 = Return None)
    by (apply get_known_payload_none_iff; now rewrite H2).
  repeat split; congruence.
Qed.

(** ** Header codec *)

(** C5 (amended): the encoded header is 11 bytes long; decoding the 11 bytes
    produced by encoding gives every field reduced modulo two to its declared
    width, hence gives back the original fields when each is within its
    width. *)
Theorem header_fields_round_trip f :
  length (encode_header f) = 11%nat /\
  decode_header (encode_header f) = Return (truncate_fields f) /\
  (fields_in_range f -> decode_header (encode_header f) = Return f).
Proof.
  split; [reflexivity |]. split.
  - apply decode_encode_header.
  - intros Hf. rewrite decode_encode_header.
    now rewrite (truncate_fields_in_range f Hf).
Qed.

(** C5, as stated, fails: the header image of in-range fields has 11 bytes,
    not 9, and its first 9 bytes alone do not decode. *)
Lemma header_image_is_not_nine_bytes :
  fields_in_range (mkFields 1 13 10 1 3 0 0x1234 1 2 7 3 0xf0) /\
  length (encode_header (mkFields 1 13 10 1 3 0 0x1234 1 2 7 3 0xf0)) <> 9%nat /\
  decode_header
    (firstn 9 (encode_header (mkFields 1 13 10 1 3 0 0x1234 1 2 7 3 0xf0)))
  = Raise ValueError.
Proof.
  split; [unfold fields_in_range; cbn; lia |].
  split; [vm_compute; discriminate | vm_compute; reflexivity].
Qed.

Lemma header_fields_round_trip_witness :
  fields_in_range (mkFields 1 13 10 1 3 0 0x1234 1 2 7 3 0xf0) /\
  decode_header (encode_header (mkFields 1 13 10 1 3 0 0x1234 1 2 7 3 0xf0))
  = Return (mkFields 1 13 10 1 3 0 0x1234 1 2 7 3 0xf0).
Proof.
  assert (Hf : fields_in_range (mkFields 1 13 10 1 3 0 0x1234 1 2 7 3 0xf0))
    by (unfold fields_in_range; cbn; lia).
  split; [exact Hf |].
  exact (proj2 (proj2 (header_fields_round_trip _)) Hf).
Defined.

(** ** The stand-in checksum routines meet the contract *)

Lemma fold_left_range {A : Type} (f : Z -> A -> Z) (lo hi : Z) :
  (forall a b, lo <= f a b < hi) ->
  forall l a, lo <= a < hi -> lo <= fold_left f l a < hi.
Proof.
  intros Hf l. induction l as [| x l IH]; intros a Ha.
  - exact Ha.
  - cbn [fold_left]. apply IH, Hf.
Qed.

Lemma toy_hdr_checksum_contract : checksum8_contract toy_hdr_checksum.
Proof.
  intros seed packet plength. unfold toy_hdr_checksum.
  apply fold_left_range.
  - intros a b. apply Z.mod_pos_bound. lia.
  - apply Z.mod_pos_bound. lia.
Qed.

Lemma toy_checksum_contract : checksum16_contract toy_checksum.
Proof.
  split; intros packet plength; unfold toy_checksum.
  - apply fold_left_range.
    + intros a b. apply Z.mod_pos_bound. lia.
    + lia.
  - now rewrite firstn_firstn, Nat.min_id.
Qed.

(** ** Worked cases *)

(** C4, as stated, fails: an empty payload gives a 13-byte packet whose
    stored length is 13, not 9 + 0 + 2; and for a payload of 1011 bytes the
    header stores length 0, and no buffer is built. *)
Lemma total_length_counts_eleven_header_bytes :
  (exists enc_data,
     encode_command_packet toy_hdr_checksum toy_checksum
       0 0 0 0 0 0 0 0 0 0 [] = Some enc_data /\
     Z.land (u16_at enc_data 1) 1023 = 13 /\
     length enc_data = 13%nat /\
     13 <> 9 + Z.of_nat (length (@nil Z)) + 2) /\
  Hdr.whole_length
    (build_header toy_hdr_checksum 0 0 0 0 0 0 0 0 0 0 (repeat 0 1011)) = 0 /\
  encode_command_packet toy_hdr_checksum toy_checksum
    0 0 0 0 0 0 0 0 0 0 (repeat 0 1011) = None.
Proof.
  split.
  - eexists. split; [vm_compute; reflexivity |].
    split; [vm_compute; reflexivity |].
    split; [reflexivity | cbn; lia].
  - split; vm_compute; reflexivity.
Qed.

Lemma total_length_is_header_payload_footer_witness :
  (length [1; 2] <= 1010)%nat /\
  exists enc_data,
    encode_command_packet toy_hdr_checksum toy_checksum
      10 0 3 0 1 0 0 0 3 0xf0 [1; 2] = Some enc_data /\
    Z.land (u16_at enc_data 1) 1023 = 11 + Z.of_nat (length [1; 2]) + 2 /\
    Z.of_nat (length enc_data) = 11 + Z.of_nat (length [1; 2]) + 2.
Proof.
  assert (Hp : (length [1; 2] <= 1010)%nat) by (simpl; lia).
  split; [exact Hp |].
  exact (total_length_is_header_payload_footer toy_hdr_checksum toy_checksum
           10 0 3 0 1 0 0 0 3 0xf0 [1; 2] Hp).
Defined.

Lemma header_checksum_covers_first_three_bytes_witness :
  checksum8_contract toy_hdr_checksum /\
  encode_command_packet toy_hdr_checksum toy_checksum
    10 0 3 0 1 0 0 0 3 0xf0 [1; 2]
  = Some [0x55; 15; 4; 4; 10; 3; 1; 0; 0; 3; 0xf0; 1; 2; 2; 236] /\
  u8_at [0x55; 15; 4; 4; 10; 3; 1; 0; 0; 3; 0xf0; 1; 2; 2; 236] 3
  = toy_hdr_checksum 0x77
      (firstn 3 [0x55; 15; 4; 4; 10; 3; 1; 0; 0; 3; 0xf0; 1; 2; 2; 236]) 3.
Proof.
  assert (Henc : encode_command_packet toy_hdr_checksum toy_checksum
                   10 0 3 0 1 0 0 0 3 0xf0 [1; 2]
                 = Some [0x55; 15; 4; 4; 10; 3; 1; 0; 0; 3; 0xf0; 1; 2; 2; 236])
    by (vm_compute; reflexivity).
  split; [exact toy_hdr_checksum_contract |].
  split; [exact Henc |].
  exact (proj1 (proj2 (header_checksum_covers_first_three_bytes
                         toy_hdr_checksum toy_checksum
                         10 0 3 0 1 0 0 0 3 0xf0 [1; 2]
                         toy_hdr_checksum_contract) _ Henc)).
Defined.

Lemma footer_is_checksum_of_preceding_bytes_witness :
  checksum16_contract toy_checksum /\
  encode_command_packet toy_hdr_checksum toy_checksum
    10 0 3 0 1 0 0 0 3 0xf0 [1; 2]
  = Some [0x55; 15; 4; 4; 10; 3; 1; 0; 0; 3; 0xf0; 1; 2; 2; 236] /\
  skipn 13 [0x55; 15; 4; 4; 10; 3; 1; 0; 0; 3; 0xf0; 1; 2; 2; 236]
  = le16_bytes
      (toy_checksum
         (firstn 13 [0x55; 15; 4; 4; 10; 3; 1; 0; 0; 3; 0xf0; 1; 2; 2; 236])
         13).
Proof.
  assert (Henc : encode_command_packet toy_hdr_checksum toy_checksum
                   10 0 3 0 1 0 0 0 3 0xf0 [1; 2]
                 = Some [0x55; 15; 4; 4; 10; 3; 1; 0; 0; 3; 0xf0; 1; 2; 2; 236])
    by (vm_compute; reflexivity).
  split; [exact toy_checksum_contract |].
  split; [exact Henc |].
  exact (proj2 (proj2 (footer_is_checksum_of_preceding_bytes
                         toy_hdr_checksum toy_checksum
                         10 0 3 0 1 0 0 0 3 0xf0 [1; 2]
                         toy_checksum_contract) _ Henc)).
Defined.

Lemma sender_index_truncation_witness :
  0 <= 1 <= 7 /\
  encode_command_packet toy_hdr_checksum toy_checksum
    10 1 3 0 1 0 0 0 3 0xf0 [1; 2]
  = encode_command_packet toy_hdr_checksum toy_checksum
      10 (1 + 8) 3 0 1 0 0 0 3 0xf0 [1; 2].
Proof.
  assert (Hk : 0 <= 1 <= 7) by lia.
  split; [exact Hk |].
  exact (sender_index_truncation toy_hdr_checksum toy_checksum
           10 3 0 1 0 0 0 3 0xf0 [1; 2] 1 Hk).
Defined.

Lemma built_packet_has_version_1_witness :
  encode_command_packet toy_hdr_checksum toy_checksum
    10 0 3 0 1 0 0 0 3 0xf0 [1; 2]
  = Some [0x55; 15; 4; 4; 10; 3; 1; 0; 0; 3; 0xf0; 1; 2; 2; 236] /\
  u16_at [0x55; 15; 4; 4; 10; 3; 1; 0; 0; 3; 0xf0; 1; 2; 2; 236] 1
  = 1 * 2 ^ 10 + (11 + Z.of_nat (length [1; 2]) + 2) /\
  Z.shiftr (u16_at [0x55; 15; 4; 4; 10; 3; 1; 0; 0; 3; 0xf0; 1; 2; 2; 236] 1) 10
  = 1.
Proof.
  assert (Henc : encode_command_packet toy_hdr_checksum toy_checksum
                   10 0 3 0 1 0 0 0 3 0xf0 [1; 2]
                 = Some [0x55; 15; 4; 4; 10; 3; 1; 0; 0; 3; 0xf0; 1; 2; 2; 236])
    by (vm_compute; reflexivity).
  split; [exact Henc |].
  exact (proj2 (proj2 (built_packet_has_version_1
                         toy_hdr_checksum toy_checksum
                         10 0 3 0 1 0 0 0 3 0xf0 [1; 2])) _ Henc).
Defined.

(** The packet built for the sample inputs, byte by byte. *)
Example encode_command_packet_sample :
  encode_command_packet toy_hdr_checksum toy_checksum
    10 0 3 0 1 0 0 0 3 0xf0 [1; 2]
  = Some [0x55; 15; 4; 4; 10; 3; 1; 0; 0; 3; 0xf0; 1; 2; 2; 236].
Proof. vm_compute. reflexivity. Qed.

(** A payload too long for the 10-bit length field does not yield a
    buffer. *)
Example encode_command_packet_1011_bytes :
  encode_command_packet toy_hdr_checksum toy_checksum
    10 0 3 0 1 0 0 0 3 0xf0 (repeat 0 1011) = None.
Proof. vm_compute. reflexivity. Qed.

Lemma flyc_param_definition_variant_witness :
  cmd_set (header_for 3 1 0xf0) = CMD_SET_TYPE_FLYCONTROLLER /\
  Hdr.packet_type (header_for 3 1 0xf0) = PACKET_TYPE_RESPONSE /\
  cmd_id (header_for 3 1 0xf0) = 0xf0 /\
  (20 <= length [0; 4; 0; 4; 0; 0; 0; 246; 255; 255; 255; 10; 0; 0; 0;
                 0; 0; 0; 0; 97])%nat /\
  get_known_payload (header_for 3 1 0xf0)
    [0; 4; 0; 4; 0; 0; 0; 246; 255; 255; 255; 10; 0; 0; 0; 0; 0; 0; 0; 97]
  = Return (Some (FlyController_GetParamDefinitionI2015Re
                    (ParamDefI.mk 0 4 4 0 (-10) 10 0 (97 :: repeat 0 159)))).
Proof.
  assert (Hlen : (20 <= length [0; 4; 0; 4; 0; 0; 0; 246; 255; 255; 255;
                               10; 0; 0; 0; 0; 0; 0; 0; 97])%nat)
    by (simpl; lia).
  split; [reflexivity |]. split; [reflexivity |]. split; [reflexivity |].
  split; [exact Hlen |].
  exact (proj2 (flyc_param_definition_variant (header_for 3 1 0xf0)
                  [0; 4; 0; 4; 0; 0; 0; 246; 255; 255; 255; 10; 0; 0; 0;
                   0; 0; 0; 0; 97]
                  eq_refl eq_refl eq_refl Hlen)).
Defined.

(** Type tag 8 with the binary32 images of 0.5, 1.5 and 1.0. *)
Example flyc_param_definition_float :
  get_known_payload (header_for 3 1 0xf0)
    [0; 8; 0; 4; 0; 0; 0; 0; 0; 0; 63; 0; 0; 192; 63; 0; 0; 128; 63; 97]
  = Return (Some (FlyController_GetParamDefinitionF2015Re
                    (ParamDefF.mk 0 8 4 0
                       (S754_finite false 8388608 (-24))
                       (S754_finite false 12582912 (-23))
                       (S754_finite false 8388608 (-23))
                       (97 :: repeat 0 159)))).
Proof. vm_compute. reflexivity. Qed.

(** Type tag 2 keeps the unsigned reading: the bytes of -10 read as
    4294967286. *)
Example flyc_param_definition_unsigned :
  get_known_payload (header_for 3 1 0xf0)
    [0; 2; 0; 4; 0; 0; 0; 246; 255; 255; 255; 10; 0; 0; 0; 0; 0; 0; 0; 97]
  = Return (Some (FlyController_GetParamDefinitionU2015Re
                    (ParamDefU.mk 0 2 4 0 4294967286 10 0
                       (97 :: repeat 0 159)))).
Proof. vm_compute. reflexivity. Qed.

Lemma flyc_param_definition_short_witness :
  cmd_set (header_for 3 1 0xf0) = CMD_SET_TYPE_FLYCONTROLLER /\
  Hdr.packet_type (header_for 3 1 0xf0) = PACKET_TYPE_RESPONSE /\
  cmd_id (header_for 3 1 0xf0) = 0xf0 /\
  (1 <= length [5; 6; 7] <= 19)%nat /\
  get_known_payload (header_for 3 1 0xf0) [5; 6; 7]
  = Return (Some (FlyController_GetParamDefinitionEOL2015Re (ParamDefEOL.mk 5)))
  /\ get_known_payload (header_for 3 1 0xf0) [] = Return None.
Proof.
  assert (Hlen : (1 <= length [5; 6; 7] <= 19)%nat) by (simpl; lia).
  split; [reflexivity |]. split; [reflexivity |]. split; [reflexivity |].
  split; [exact Hlen |]. split.
  - exact (proj1 (flyc_param_definition_short (header_for 3 1 0xf0) [5; 6; 7]
                    eq_refl eq_refl eq_refl) Hlen).
  - exact (proj2 (flyc_param_definition_short (header_for 3 1 0xf0) []
                    eq_refl eq_refl eq_refl) eq_refl).
Defined.

(** C3, as stated, fails: the key (CAMERA, response, 0x99) has no entry, the
    key (FLYCONTROLLER, response, 0xF0) has one, and the results for the
    former and for the latter with an empty payload are equal, so no caller
    can tell them apart. *)
Lemma unrecognized_results_coincide :
  routing_min_length (header_for CMD_SET_TYPE_CAMERA 1 0x99) = None /\
  routing_min_length (header_for CMD_SET_TYPE_FLYCONTROLLER 1 0xf0)
  = Some 1%nat /\
  ~ (get_known_payload (header_for CMD_SET_TYPE_CAMERA 1 0x99) []
     <> get_known_payload (header_for CMD_SET_TYPE_FLYCONTROLLER 1 0xf0) []).
Proof.
  split; [reflexivity |]. split; [reflexivity |].
  intros Hneq. apply Hneq. vm_compute. reflexivity.
Qed.

Lemma no_match_is_a_single_sentinel_witness :
  routing_min_length (header_for CMD_SET_TYPE_CAMERA 1 0x99) = None /\
  routing_min_length (header_for CMD_SET_TYPE_FLYCONTROLLER 1 0xf0)
  = Some 1%nat /\
  (length (@nil Z) < 1)%nat /\
  get_known_payload (header_for CMD_SET_TYPE_CAMERA 1 0x99) [1; 2; 3]
  = Return None /\
  get_known_payload (header_for CMD_SET_TYPE_FLYCONTROLLER 1 0xf0) []
  = Return None /\
  get_known_payload (header_for CMD_SET_TYPE_CAMERA 1 0x99) [1; 2; 3]
  = get_known_payload (header_for CMD_SET_TYPE_FLYCONTROLLER 1 0xf0) [].
Proof.
  assert (Hlen : (length (@nil Z) < 1)%nat) by (simpl; lia).
  split; [reflexivity |]. split; [reflexivity |]. split; [exact Hlen |].
  exact (no_match_is_a_single_sentinel
           (header_for CMD_SET_TYPE_CAMERA 1 0x99) [1; 2; 3]
           (header_for CMD_SET_TYPE_FLYCONTROLLER 1 0xf0) [] 1%nat
           eq_refl eq_refl Hlen).
Defined.

Lemma get_known_payload_total_witness :
  exists r,
    get_known_payload (header_for CMD_SET_TYPE_GENERAL 1 0x0b) [7; 9]
    = Return r /\
    forall v,
      r = Some v ->
      (sizeof_known_payload v <= length [7; 9])%nat ->
      get_known_payload (header_for CMD_SET_TYPE_GENERAL 1 0x0b)
        (firstn (sizeof_known_payload v) [7; 9])
      = Return (Some v).
Proof.
  exact (get_known_payload_total
           (header_for CMD_SET_TYPE_GENERAL 1 0x0b) [7; 9]).
Defined.

(** A name attribute is read up to its first NUL. *)
Example name_reads_up_to_nul :
  c_char_array_value (97 :: 98 :: repeat 0 158) = [97; 98].
Proof. reflexivity. Qed.

(** The chip-reboot response keeps its status byte and drops the rest. *)
Example chip_reboot_trailing_bytes :
  get_known_payload (header_for CMD_SET_TYPE_GENERAL 1 0x0b) [7; 9]
  = Return (Some (General_ChipRebootRe (ChipRebootRe.mk 7))).
Proof. vm_compute. reflexivity. Qed.

(** * Further properties of the header structure *)

(** X1: the two fields packed into the version/length word, and the type
    and index packed into each module byte, do not disturb each other:
    storing one leaves the other as it was, for every header. *)
Theorem packed_neighbours_are_kept h v :
  Hdr.version (Hdr.set_whole_length h v) = Hdr.version h /\
  Hdr.whole_length (Hdr.set_version h v) = Hdr.whole_length h /\
  Hdr.sender_type (Hdr.set_sender_index h v) = Hdr.sender_type h /\
  Hdr.sender_index (Hdr.set_sender_type h v) = Hdr.sender_index h /\
  Hdr.receiver_type (Hdr.set_receiver_index h v) = Hdr.receiver_type h /\
  Hdr.receiver_index (Hdr.set_receiver_type h v) = Hdr.receiver_index h.
Proof.
  repeat split.
  - apply HdrLaws.version_set_whole_length.
  - apply HdrLaws.whole_length_set_version.
  - apply HdrLaws.sender_type_set_index.
  - apply HdrLaws.sender_index_set_type.
  - apply HdrLaws.receiver_type_set_index.
  - apply HdrLaws.receiver_index_set_type.
Qed.

Lemma cmd_type_data_frames c v :
  0 <= c < 2 ^ 8 ->
  Z.shiftr ((Z.lor (Z.land c 159) (Z.shiftl (Z.land v 3) 5)) mod 2 ^ 8) 7
  = Z.shiftr c 7 /\
  Z.shiftr ((Z.lor (Z.land c 248) (Z.land v 7)) mod 2 ^ 8) 7 = Z.shiftr c 7.
Proof.
  intros Hc. rewrite <- (Z.mod_small c (2 ^ 8) Hc) at 2 4.
  split; bits.
Qed.

(** X2: in the command type byte, storing the packet type, the ack type or
    the encrypt type leaves the other two as they were, for a header whose
    command type byte is a byte. *)
Theorem cmd_type_fields_are_kept h v :
  is_byte (cmd_type_data h) ->
  Hdr.packet_type (Hdr.set_ack_type h v) = Hdr.packet_type h /\
  Hdr.packet_type (Hdr.set_encrypt_type h v) = Hdr.packet_type h /\
  Hdr.ack_type (Hdr.set_packet_type h v) = Hdr.ack_type h /\
  Hdr.ack_type (Hdr.set_encrypt_type h v) = Hdr.ack_type h /\
  Hdr.encrypt_type (Hdr.set_packet_type h v) = Hdr.encrypt_type h /\
  Hdr.encrypt_type (Hdr.set_ack_type h v) = Hdr.encrypt_type h.
Proof.
  intros Hc.
  destruct (cmd_type_data_frames (cmd_type_data h) v Hc) as [Ha He].
  split; [exact Ha |]. split; [exact He |].
  repeat split; HdrLaws.open_accessors; bits.
Qed.

Ltac same_header :=
  HdrLaws.open_accessors; f_equal; bits.

(** X3: a second store into a packed field replaces the first: the header
    after storing [a] and then [b] is the header after storing [b]. *)
Theorem last_store_wins h a b :
  Hdr.set_version (Hdr.set_version h a) b = Hdr.set_version h b /\
  Hdr.set_whole_length (Hdr.set_whole_length h a) b
  = Hdr.set_whole_length h b /\
  Hdr.set_sender_type (Hdr.set_sender_type h a) b = Hdr.set_sender_type h b /\
  Hdr.set_sender_index (Hdr.set_sender_index h a) b
  = Hdr.set_sender_index h b /\
  Hdr.set_receiver_type (Hdr.set_receiver_type h a) b
  = Hdr.set_receiver_type h b /\
  Hdr.set_receiver_index (Hdr.set_receiver_index h a) b
  = Hdr.set_receiver_index h b /\
  Hdr.set_packet_type (Hdr.set_packet_type h a) b = Hdr.set_packet_type h b /\
  Hdr.set_ack_type (Hdr.set_ack_type h a) b = Hdr.set_ack_type h b /\
  Hdr.set_encrypt_type (Hdr.set_encrypt_type h a) b
  = Hdr.set_encrypt_type h b.
Proof. repeat split; same_header. Qed.

(** ** Fields stay within their C types *)

Lemma is_byte_c_ubyte v : is_byte (c_ubyte v).
Proof. apply c_ubyte_range. Qed.

Lemma wf_header_init : wf_header Hdr.init.
Proof. unfold wf_header, is_byte. vm_compute. intuition discriminate. Qed.

Ltac wf_store :=
  let H := fresh in
  intros H; unfold wf_header, is_byte in *; HdrLaws.open_accessors;
  repeat match goal with
         | H : _ /\ _ |- _ => destruct H
         end;
  repeat split; try assumption;
  try (apply Z.mod_pos_bound; lia); lia.

Lemma wf_set_whole_length h v :
  wf_header h -> wf_header (Hdr.set_whole_length h v).
Proof. wf_store. Qed.
Lemma wf_set_version h v : wf_header h -> wf_header (Hdr.set_version h v).
Proof. wf_store. Qed.
Lemma wf_set_header_crc8 h v :
  wf_header h -> wf_header (Hdr.set_header_crc8 h v).
Proof. wf_store. Qed.
Lemma wf_set_sender_type h v :
  wf_header h -> wf_header (Hdr.set_sender_type h v).
Proof. wf_store. Qed.
Lemma wf_set_sender_index h v :
  wf_header h -> wf_header (Hdr.set_sender_index h v).
Proof. wf_store. Qed.
Lemma wf_set_receiver_type h v :
  wf_header h -> wf_header (Hdr.set_receiver_type h v).
Proof. wf_store. Qed.
Lemma wf_set_receiver_index h v :
  wf_header h -> wf_header (Hdr.set_receiver_index h v).
Proof. wf_store. Qed.
Lemma wf_set_seq_num h v : wf_header h -> wf_header (Hdr.set_seq_num h v).
Proof. wf_store. Qed.
Lemma wf_set_packet_type h v :
  wf_header h -> wf_header (Hdr.set_packet_type h v).
Proof. wf_store. Qed.
Lemma wf_set_ack_type h v : wf_header h -> wf_header (Hdr.set_ack_type h v).
Proof. wf_store. Qed.
Lemma wf_set_encrypt_type h v :
  wf_header h -> wf_header (Hdr.set_encrypt_type h v).
Proof. wf_store. Qed.
Lemma wf_set_cmd_set h v : wf_header h -> wf_header (Hdr.set_cmd_set h v).
Proof. wf_store. Qed.
Lemma wf_set_cmd_id h v : wf_header h -> wf_header (Hdr.set_cmd_id h v).
Proof. wf_store. Qed.

Create HintDb wf_header.
#[local] Hint Resolve wf_header_init wf_set_whole_length wf_set_version
  wf_set_header_crc8 wf_set_sender_type wf_set_sender_index
  wf_set_receiver_type wf_set_receiver_index wf_set_seq_num
  wf_set_packet_type wf_set_ack_type wf_set_encrypt_type wf_set_cmd_set
  wf_set_cmd_id : wf_header.

Lemma le16_bytes_are_bytes w : Forall is_byte (le16_bytes w).
Proof.
  unfold le16_bytes, is_byte.
  repeat (apply Forall_cons; [apply Z.mod_pos_bound; lia |]).
  apply Forall_nil.
Qed.

Lemma to_bytes_are_bytes h : wf_header h -> Forall is_byte (Hdr.to_bytes h).
Proof.
  intros (Hs & _ & Hc & Hsi & Hri & _ & Hct & Hcs & Hci).
  unfold Hdr.to_bytes, le16_bytes. cbn [app].
  repeat (apply Forall_cons;
          [first [assumption | unfold is_byte; apply Z.mod_pos_bound; lia] |]).
  apply Forall_nil.
Qed.

(** X4: a header made by the constructor and changed only through its
    setters keeps every field within its C type, and its memory image is
    11 bytes, each in 0..255. *)
Theorem stores_keep_fields_in_range f :
  wf_header (set_fields f Hdr.init) /\
  length (Hdr.to_bytes (set_fields f Hdr.init)) = 11%nat /\
  Forall is_byte (Hdr.to_bytes (set_fields f Hdr.init)).
Proof.
  assert (Hwf : wf_header (set_fields f Hdr.init))
    by (unfold set_fields; cbv zeta; auto 20 with wf_header).
  split; [exact Hwf |]. split; [reflexivity |].
  now apply to_bytes_are_bytes.
Qed.

(** ** Reduction of the inputs of a store *)

Lemma set_version_mod h v :
  Hdr.set_version h (v mod 2 ^ 6) = Hdr.set_version h v.
Proof. same_header. Qed.
Lemma set_whole_length_mod h v :
  Hdr.set_whole_length h (v mod 2 ^ 10) = Hdr.set_whole_length h v.
Proof. same_header. Qed.
Lemma set_sender_type_mod h v :
  Hdr.set_sender_type h (v mod 2 ^ 5) = Hdr.set_sender_type h v.
Proof. same_header. Qed.
Lemma set_sender_index_mod h v :
  Hdr.set_sender_index h (v mod 2 ^ 3) = Hdr.set_sender_index h v.
Proof. same_header. Qed.
Lemma set_receiver_type_mod h v :
  Hdr.set_receiver_type h (v mod 2 ^ 5) = Hdr.set_receiver_type h v.
Proof. same_header. Qed.
Lemma set_receiver_index_mod h v :
  Hdr.set_receiver_index h (v mod 2 ^ 3) = Hdr.set_receiver_index h v.
Proof. same_header. Qed.
Lemma set_packet_type_mod h v :
  Hdr.set_packet_type h (v mod 2 ^ 1) = Hdr.set_packet_type h v.
Proof. same_header. Qed.
Lemma set_ack_type_mod h v :
  Hdr.set_ack_type h (v mod 2 ^ 2) = Hdr.set_ack_type h v.
Proof. same_header. Qed.
Lemma set_encrypt_type_mod h v :
  Hdr.set_encrypt_type h (v mod 2 ^ 3) = Hdr.set_encrypt_type h v.
Proof. same_header. Qed.
Lemma set_seq_num_mod h v :
  Hdr.set_seq_num h (v mod 2 ^ 16) = Hdr.set_seq_num h v.
Proof. same_header. Qed.
Lemma set_cmd_set_mod h v :
  Hdr.set_cmd_set h (v mod 2 ^ 8) = Hdr.set_cmd_set h v.
Proof. same_header. Qed.
Lemma set_cmd_id_mod h v :
  Hdr.set_cmd_id h (v mod 2 ^ 8) = Hdr.set_cmd_id h v.
Proof. same_header. Qed.

(** * Further properties of the packet builder *)

Lemma Return_inj {A : Type} (a b : A) : Return a = Return b -> a = b.
Proof. intros H. now injection H. Qed.

Section BuilderExtras.

(** [calc8] stands for [calc_pkt55_hdr_checksum], [calc16] for
    [calc_pkt55_checksum]. *)
Variable calc8 : Z -> list Z -> Z -> Z.
Variable calc16 : list Z -> Z -> Z.

Lemma wf_build_header st si rt ri sq pt at_ et cs ci p :
  wf_header (build_header calc8 st si rt ri sq pt at_ et cs ci p).
Proof. unfold build_header. cbv zeta. auto 20 with wf_header. Qed.

Lemma build_header_fields st si rt ri sq pt at_ et cs ci p :
  get_fields (build_header calc8 st si rt ri sq pt at_ et cs ci p)
  = mkFields 1
      ((Z.of_nat sizeof_DJICmdV1Header + Z.of_nat (length p) + 2) mod 2 ^ 10)
      (st mod 2 ^ 5) (si mod 2 ^ 3) (rt mod 2 ^ 5) (ri mod 2 ^ 3)
      (sq mod 2 ^ 16) (pt mod 2 ^ 1) (at_ mod 2 ^ 2) (et mod 2 ^ 3)
      (cs mod 2 ^ 8) (ci mod 2 ^ 8).
Proof.
  unfold get_fields. f_equal.
  1: apply build_header_version.
  1: apply build_header_whole_length.
  all: unfold build_header, Hdr.init, Hdr.zeroed; cbv zeta;
    HdrLaws.open_accessors; try reflexivity; bits.
Qed.

Lemma build_header_reserved_bits st si rt ri sq pt at_ et cs ci p :
  Z.land (cmd_type_data (build_header calc8 st si rt ri sq pt at_ et cs ci p))
         24 = 0.
Proof.
  unfold build_header, Hdr.init, Hdr.zeroed; cbv zeta.
  HdrLaws.open_accessors.
  change 24 with (Z.shiftl (Z.ones 2) 3).
  apply Z.bits_inj'; intros n Hn.
  rewrite Z.land_spec, testbit_field by lia.
  repeat (progress (bits_norm; bit_atoms));
    rewrite ?andb_true_r, ?andb_false_r, ?orb_false_r, ?orb_true_r;
    cbn [andb orb]; try reflexivity; lia.
Qed.

Lemma build_header_reduce st si rt ri sq pt at_ et cs ci p :
  build_header calc8 (st mod 2 ^ 5) (si mod 2 ^ 3) (rt mod 2 ^ 5)
    (ri mod 2 ^ 3) (sq mod 2 ^ 16) (pt mod 2 ^ 1) (at_ mod 2 ^ 2)
    (et mod 2 ^ 3) (cs mod 2 ^ 8) (ci mod 2 ^ 8) p
  = build_header calc8 st si rt ri sq pt at_ et cs ci p.
Proof.
  unfold build_header. cbv zeta.
  now rewrite set_sender_type_mod, set_sender_index_mod,
    set_receiver_type_mod, set_receiver_index_mod, set_seq_num_mod,
    set_packet_type_mod, set_ack_type_mod, set_encrypt_type_mod,
    set_cmd_set_mod, set_cmd_id_mod.
Qed.

Lemma encode_command_packet_reduce st si rt ri sq pt at_ et cs ci p :
  encode_command_packet calc8 calc16 (st mod 2 ^ 5) (si mod 2 ^ 3)
    (rt mod 2 ^ 5) (ri mod 2 ^ 3) (sq mod 2 ^ 16) (pt mod 2 ^ 1)
    (at_ mod 2 ^ 2) (et mod 2 ^ 3) (cs mod 2 ^ 8) (ci mod 2 ^ 8) p
  = encode_command_packet calc8 calc16 st si rt ri sq pt at_ et cs ci p.
Proof. unfold encode_command_packet. now rewrite build_header_reduce. Qed.

Lemma built_packet_payload st si rt ri sq pt at_ et cs ci p enc_data :
  encode_command_packet calc8 calc16 st si rt ri sq pt at_ et cs ci p
  = Some enc_data ->
  length enc_data = (11 + length p + 2)%nat /\
  firstn (length p) (skipn 11 enc_data) = p.
Proof.
  intros Henc. apply encode_command_packet_some in Henc as [_ ->].
  split.
  - rewrite !length_app, to_bytes_length. reflexivity.
  - change 11%nat with (length (Hdr.to_bytes
        (build_header calc8 st si rt ri sq pt at_ et cs ci p))).
    rewrite skipn_app, skipn_all, Nat.sub_diag. cbn [skipn app].
    rewrite firstn_app, firstn_all, Nat.sub_diag, firstn_O.
    apply app_nil_r.
Qed.

Lemma built_packet_bytes st si rt ri sq pt at_ et cs ci p enc_data :
  Forall is_byte p ->
  encode_command_packet calc8 calc16 st si rt ri sq pt at_ et cs ci p
  = Some enc_data ->
  Forall is_byte enc_data.
Proof.
  intros Hp Henc. apply encode_command_packet_some in Henc as [_ ->].
  apply Forall_app. split; [apply to_bytes_are_bytes, wf_build_header |].
  apply Forall_app. split; [exact Hp | apply le16_bytes_are_bytes].
Qed.

(** X5: when every payload element is a byte, every element of a built
    packet is a byte. *)
Theorem built_packet_is_a_byte_string
    st si rt ri sq pt at_ et cs ci p enc_data :
  Forall is_byte p ->
  encode_command_packet calc8 calc16 st si rt ri sq pt at_ et cs ci p
  = Some enc_data ->
  Forall is_byte enc_data.
Proof. apply built_packet_bytes. Qed.

(** X6: in every built packet the two reserved bits of the command type
    byte (bits 3 and 4 of byte 8) are zero, whatever the inputs. *)
Theorem built_packet_reserved_bits_are_zero
    st si rt ri sq pt at_ et cs ci p enc_data :
  encode_command_packet calc8 calc16 st si rt ri sq pt at_ et cs ci p
  = Some enc_data ->
  Z.land (u8_at enc_data 8) 24 = 0.
Proof.
  intros Henc. apply encode_command_packet_some in Henc as [_ ->].
  change (Z.land (cmd_type_data
                    (build_header calc8 st si rt ri sq pt at_ et cs ci p))
                 24 = 0).
  apply build_header_reserved_bits.
Qed.

(** X7: decoding the first 11 bytes of a built packet gives the start
    marker 0x55, version 1, the total length 11 + len(payload) + 2 and every
    input reduced modulo two to the width of its field. *)
Theorem built_packet_decodes_to_its_inputs
    st si rt ri sq pt at_ et cs ci p enc_data :
  encode_command_packet calc8 calc16 st si rt ri sq pt at_ et cs ci p
  = Some enc_data ->
  exists h,
    Hdr.from_buffer_copy enc_data = Return h /\
    sof h = 0x55 /\
    get_fields h
    = mkFields 1 (11 + Z.of_nat (length p) + 2)
        (st mod 2 ^ 5) (si mod 2 ^ 3) (rt mod 2 ^ 5) (ri mod 2 ^ 3)
        (sq mod 2 ^ 16) (pt mod 2 ^ 1) (at_ mod 2 ^ 2) (et mod 2 ^ 3)
        (cs mod 2 ^ 8) (ci mod 2 ^ 8).
Proof.
  intros Henc.
  exists (build_header calc8 st si rt ri sq pt at_ et cs ci p).
  split; [now apply (built_packet_header_decodes calc8 calc16) |].
  split; [reflexivity |].
  rewrite build_header_fields.
  apply encode_command_packet_some in Henc as [Hp _].
  rewrite Z.mod_small by (unfold sizeof_DJICmdV1Header; lia).
  reflexivity.
Qed.

(** X8: the payload can be cut back out of a built packet: the packet has
    as many bytes as its decoded total length says, and the bytes from
    offset 11 up to the last two are the payload. *)
Theorem built_packet_carries_its_payload
    st si rt ri sq pt at_ et cs ci p enc_data :
  encode_command_packet calc8 calc16 st si rt ri sq pt at_ et cs ci p
  = Some enc_data ->
  exists h,
    Hdr.from_buffer_copy enc_data = Return h /\
    Z.of_nat (length enc_data) = Hdr.whole_length h /\
    firstn (Z.to_nat (Hdr.whole_length h) - 11 - 2) (skipn 11 enc_data) = p.
Proof.
  intros Henc.
  exists (build_header calc8 st si rt ri sq pt at_ et cs ci p).
  split; [now apply (built_packet_header_decodes calc8 calc16) |].
  destruct (built_packet_payload _ _ _ _ _ _ _ _ _ _ _ _ Henc) as [Hlen Hcut].
  apply encode_command_packet_some in Henc as [Hp _].
  rewrite build_header_whole_length.
  rewrite Z.mod_small by (unfold sizeof_DJICmdV1Header; lia).
  unfold sizeof_DJICmdV1Header. split; [lia |].
  replace (Z.to_nat (Z.of_nat 11 + Z.of_nat (length p) + 2) - 11 - 2)%nat
    with (length p) by lia.
  exact Hcut.
Qed.

(** X9: the length the header stores is 11 + len(payload) + 2 reduced
    modulo 1024, for every payload; from 1011 payload bytes on it is smaller
    than the header, payload and footer together. *)
Theorem stored_length_wraps st si rt ri sq pt at_ et cs ci p :
  Hdr.whole_length (build_header calc8 st si rt ri sq pt at_ et cs ci p)
  = (11 + Z.of_nat (length p) + 2) mod 2 ^ 10 /\
  ((1010 < length p)%nat ->
   Hdr.whole_length (build_header calc8 st si rt ri sq pt at_ et cs ci p)
   < 11 + Z.of_nat (length p) + 2).
Proof.
  rewrite build_header_whole_length. unfold sizeof_DJICmdV1Header.
  split; [reflexivity |]. intros Hp.
  change (2 ^ 10) with 1024. Z.div_mod_to_equations. lia.
Qed.

(** X10: the builder sees each input only through its field: reducing the
    module types modulo 32, the indices modulo 8, the sequence number
    modulo 65536, the packet type modulo 2, the ack type modulo 4, the
    encrypt type modulo 8 and the command set and id modulo 256 does not
    change the result. *)
Theorem inputs_count_modulo_their_width st si rt ri sq pt at_ et cs ci p :
  encode_command_packet calc8 calc16 (st mod 2 ^ 5) (si mod 2 ^ 3)
    (rt mod 2 ^ 5) (ri mod 2 ^ 3) (sq mod 2 ^ 16) (pt mod 2 ^ 1)
    (at_ mod 2 ^ 2) (et mod 2 ^ 3) (cs mod 2 ^ 8) (ci mod 2 ^ 8) p
  = encode_command_packet calc8 calc16 st si rt ri sq pt at_ et cs ci p.
Proof. apply encode_command_packet_reduce. Qed.

(** X11: two builds give the same packet exactly when the payloads are
    equal and each pair of inputs agrees modulo the width of its field
    (payloads of at most 1010 bytes). *)
Theorem same_packet_iff_same_fields_and_payload
    st si rt ri sq pt at_ et cs ci p
    st' si' rt' ri' sq' pt' at' et' cs' ci' p' :
  (length p <= 1010)%nat ->
  (length p' <= 1010)%nat ->
  encode_command_packet calc8 calc16 st si rt ri sq pt at_ et cs ci p
  = encode_command_packet calc8 calc16 st' si' rt' ri' sq' pt' at' et' cs' ci' p'
  <->
  p = p' /\
  st mod 2 ^ 5 = st' mod 2 ^ 5 /\ si mod 2 ^ 3 = si' mod 2 ^ 3 /\
  rt mod 2 ^ 5 = rt' mod 2 ^ 5 /\ ri mod 2 ^ 3 = ri' mod 2 ^ 3 /\
  sq mod 2 ^ 16 = sq' mod 2 ^ 16 /\ pt mod 2 ^ 1 = pt' mod 2 ^ 1 /\
  at_ mod 2 ^ 2 = at' mod 2 ^ 2 /\ et mod 2 ^ 3 = et' mod 2 ^ 3 /\
  cs mod 2 ^ 8 = cs' mod 2 ^ 8 /\ ci mod 2 ^ 8 = ci' mod 2 ^ 8.
Proof.
  intros Hp Hp'. split.
  - intros Heq.
    destruct (encode_command_packet_defined calc8 calc16
                st si rt ri sq pt at_ et cs ci p Hp) as [enc Henc].
    assert (Henc' : encode_command_packet calc8 calc16
                      st' si' rt' ri' sq' pt' at' et' cs' ci' p' = Some enc)
      by (rewrite <- Heq; exact Henc).
    pose proof (built_packet_header_decodes calc8 calc16
                  _ _ _ _ _ _ _ _ _ _ _ _ Henc) as Hd.
    pose proof (built_packet_header_decodes calc8 calc16
                  _ _ _ _ _ _ _ _ _ _ _ _ Henc') as Hd'.
    assert (Hh : Return (build_header calc8 st si rt ri sq pt at_ et cs ci p)
                 = Return (build_header calc8
                             st' si' rt' ri' sq' pt' at' et' cs' ci' p'))
      by (rewrite <- Hd; exact Hd').
    apply Return_inj in Hh. apply (f_equal get_fields) in Hh.
    rewrite !build_header_fields in Hh.
    destruct (built_packet_payload _ _ _ _ _ _ _ _ _ _ _ _ Henc)
      as [Hlen Hcut].
    destruct (built_packet_payload _ _ _ _ _ _ _ _ _ _ _ _ Henc')
      as [Hlen' Hcut'].
    assert (Hsame : length p = length p') by lia.
    injection Hh as _ H3 H4 H5 H6 H7 H8 H9 H10 H11 H12.
    split; [rewrite <- Hcut, <- Hcut', Hsame; reflexivity |].
    repeat split; assumption.
  - intros (-> & H3 & H4 & H5 & H6 & H7 & H8 & H9 & H10 & H11 & H12).
    rewrite <- (encode_command_packet_reduce st si rt ri sq pt at_ et cs ci).
    rewrite <- (encode_command_packet_reduce
                  st' si' rt' ri' sq' pt' at' et' cs' ci').
    now rewrite H3, H4, H5, H6, H7, H8, H9, H10, H11, H12.
Qed.

End BuilderExtras.

(** * Further properties of the payload resolver *)

(** X12: the resolver returns None exactly when the routing key has no
    entry or the payload is shorter than the shortest structure of the
    key. *)
Theorem no_match_exactly_when_unknown_or_short h p :
  get_known_payload h p = Return None <->
  match routing_min_length h with
  | None => True
  | Some m => (length p < m)%nat
  end.
Proof. apply get_known_payload_none_iff. Qed.

Lemma get_known_payload_justified h p v :
  get_known_payload h p = Return (Some v) -> justified h p v.
Proof.
  intros Hr. unfold get_known_payload in Hr. cbv zeta in Hr.
  unfold CMD_SET_TYPE_GENERAL, CMD_SET_TYPE_FLYCONTROLLER in *.
  destruct (cmd_set h =? 0) eqn:Hg;
    destruct (cmd_set h =? 3) eqn:Hf;
    destruct (Hdr.packet_type h =? 1) eqn:Hrs;
    destruct (Hdr.packet_type h =? 0) eqn:Hrq;
    destruct (cmd_id h =? 1) eqn:H1;
    destruct (cmd_id h =? 11) eqn:Hb;
    destruct (cmd_id h =? 240) eqn:Hf0;
    cbn [andb orb] in *; try discriminate Hr; try (exfalso; lia).
  all: repeat match type of Hr with
         | context [Nat.leb ?a ?b] => destruct (Nat.leb_spec a b)
         end; try discriminate Hr.
  all: rewrite ?VersionInquiryRe_ok, ?ChipRebootRe_ok, ?ParamDefRq_ok,
         ?ParamDefEOL_ok, ?ParamDefU_ok in Hr
         by (try apply ljust_length; assumption).
  all: cbn [bind] in Hr.
  all: repeat match type of Hr with
         | context [if ?c then _ else _] => destruct c eqn:?
         end.
  all: rewrite ?ParamDefI_ok, ?ParamDefF_ok in Hr by apply ljust_length.
  all: cbn [bind] in Hr.
  all: apply Return_inj in Hr; injection Hr as <-.
  all: unfold justified; sizes.
  all: change (ParamDefI.type_id (ParamDefI.overlay ?b))
         with (ParamDefU.type_id (ParamDefU.overlay b)).
  all: change (ParamDefF.type_id (ParamDefF.overlay ?b))
         with (ParamDefU.type_id (ParamDefU.overlay b)).
  all: repeat split; try reflexivity; try lia.
Qed.

(** X13: whatever structure the resolver returns is the one its tests
    select: the header carries the routing key of that structure, the
    payload is long enough for it, the structure is read from the payload
    (zero-padded to 179 bytes for the parameter definitions), and for a
    parameter definition the type tag lies in the range of the variant. *)
Theorem returned_structure_is_justified h p v :
  get_known_payload h p = Return (Some v) -> justified h p v.
Proof. apply get_known_payload_justified. Qed.

(** ** Little-endian values and ranges of the fields read *)

Lemma u8_at_is_byte b off : Forall is_byte b -> is_byte (u8_at b off).
Proof.
  intros Hb. unfold u8_at.
  destruct (Nat.lt_ge_cases off (length b)) as [Hlt | Hge].
  - rewrite Forall_forall in Hb. apply Hb, nth_In, Hlt.
  - rewrite nth_overflow by exact Hge. unfold is_byte. lia.
Qed.

Lemma lor_shiftl_add a b k :
  0 <= k -> 0 <= a < 2 ^ k -> Z.lor a (Z.shiftl b k) = a + b * 2 ^ k.
Proof.
  intros Hk Ha.
  assert (Hdisj : Z.land a (Z.shiftl b k) = 0).
  { rewrite <- (Z.mod_small a (2 ^ k)) by exact Ha. bits. }
  rewrite <- Z.lxor_lor, <- Z.add_nocarry_lxor by exact Hdisj.
  now rewrite Z.shiftl_mul_pow2.
Qed.

Lemma u16_at_value b off :
  Forall is_byte b ->
  u16_at b off = u8_at b off + u8_at b (off + 1) * 2 ^ 8 /\
  0 <= u16_at b off < 2 ^ 16.
Proof.
  intros Hb.
  pose proof (u8_at_is_byte b off Hb) as H0.
  pose proof (u8_at_is_byte b (off + 1) Hb) as H1.
  unfold is_byte in *. unfold u16_at.
  rewrite lor_shiftl_add by lia. split; [reflexivity | lia].
Qed.

Lemma u32_at_value b off :
  Forall is_byte b ->
  u32_at b off = u16_at b off + u16_at b (off + 2) * 2 ^ 16 /\
  0 <= u32_at b off < 2 ^ 32.
Proof.
  intros Hb.
  destruct (u16_at_value b off Hb) as [_ H0].
  destruct (u16_at_value b (off + 2) Hb) as [_ H1].
  unfold u32_at. rewrite lor_shiftl_add by lia. split; [reflexivity | lia].
Qed.

Lemma i32_at_range b off :
  Forall is_byte b -> - 2 ^ 31 <= i32_at b off < 2 ^ 31.
Proof.
  intros Hb. destruct (u32_at_value b off Hb) as [_ Hu].
  unfold i32_at. cbv zeta.
  destruct (Z.leb_spec (2 ^ 31) (u32_at b off)); lia.
Qed.

Lemma Forall_cut {A : Type} (P : A -> Prop) (n : nat) (l : list A) :
  Forall P l -> Forall P (firstn n l) /\ Forall P (skipn n l).
Proof.
  intros Hl. rewrite <- (firstn_skipn n l) in Hl.
  now apply Forall_app in Hl.
Qed.

Lemma chars_at_fits b off n :
  Forall is_byte b -> (off + n <= length b)%nat ->
  fits_c_char_array n (chars_at b off n).
Proof.
  intros Hb Hlen. unfold fits_c_char_array, chars_at. split.
  - rewrite length_firstn, length_skipn. lia.
  - apply Forall_cut, Forall_cut, Hb.
Qed.

Lemma ljust_are_bytes b w : Forall is_byte b -> Forall is_byte (ljust b w).
Proof.
  intros Hb. unfold ljust. apply Forall_app. split; [exact Hb |].
  apply Forall_forall. intros x Hx. apply repeat_spec in Hx. subst x.
  unfold is_byte. lia.
Qed.

Ltac field_fits Hb :=
  first
    [ apply (u8_at_is_byte _ _ Hb)
    | apply (proj2 (u16_at_value _ _ Hb))
    | apply (proj2 (u32_at_value _ _ Hb))
    | apply (i32_at_range _ _ Hb)
    | apply (chars_at_fits _ _ _ Hb); sizes; lia ].

(** X14: when the payload is a byte string, every field of the structure
    the resolver returns fits its C type: unsigned fields within 8, 16 or 32
    bits, the signed limits within [-2^31, 2^31), the hardware version 16
    bytes and the parameter name 160 bytes long. *)
Theorem returned_fields_fit_their_types h p v :
  Forall is_byte p ->
  get_known_payload h p = Return (Some v) ->
  payload_fits v.
Proof.
  intros Hp Hr. apply get_known_payload_justified in Hr.
  pose proof (ljust_are_bytes p 179 Hp) as Hpad.
  pose proof (ljust_length p 179) as Hlen.
  destruct v as [r | r | r | r | r | r | r]; cbn [justified payload_fits] in *.
  all: destruct Hr as (_ & _ & _ & Hn & Hr).
  all: try match type of Hr with
           | _ /\ _ => destruct Hr as [Hr _]
           end.
  all: subst r.
  all: unfold fits_unsigned, fits_c_int.
  all: cbn [VersionInquiryRe.overlay VersionInquiryRe.unknown0
            VersionInquiryRe.unknown1 VersionInquiryRe.hw_version
            VersionInquiryRe.ldr_version VersionInquiryRe.app_version
            VersionInquiryRe.unknown1A VersionInquiryRe.unknown1E
            ChipRebootRe.overlay ChipRebootRe.status
            ParamDefRq.overlay ParamDefRq.param_index
            ParamDefEOL.overlay ParamDefEOL.status
            ParamDefU.overlay ParamDefU.status ParamDefU.type_id
            ParamDefU.size ParamDefU.attribute ParamDefU.limit_min
            ParamDefU.limit_max ParamDefU.limit_def ParamDefU.name
            ParamDefI.overlay ParamDefI.status ParamDefI.type_id
            ParamDefI.size ParamDefI.attribute ParamDefI.limit_min
            ParamDefI.limit_max ParamDefI.limit_def ParamDefI.name
            ParamDefF.overlay ParamDefF.status ParamDefF.type_id
            ParamDefF.size ParamDefF.attribute ParamDefF.name].
  all: repeat split.
  all: first [field_fits Hp | field_fits Hpad
             | apply (proj1 (chars_at_fits _ _ _ Hp ltac:(sizes; lia)))
             | apply (proj2 (chars_at_fits _ _ _ Hp ltac:(sizes; lia)))
             | apply (proj1 (chars_at_fits _ _ _ Hpad ltac:(sizes; lia)))
             | apply (proj2 (chars_at_fits _ _ _ Hpad ltac:(sizes; lia))) ].
Qed.

Lemma u32_at_bytes b off :
  Forall is_byte b ->
  u32_at b off
  = u8_at b off + u8_at b (off + 1) * 2 ^ 8 + u8_at b (off + 2) * 2 ^ 16
    + u8_at b (off + 3) * 2 ^ 24.
Proof.
  intros Hb.
  rewrite (proj1 (u32_at_value b off Hb)).
  rewrite (proj1 (u16_at_value b off Hb)).
  rewrite (proj1 (u16_at_value b (off + 2) Hb)).
  replace (off + 2 + 1)%nat with (off + 3)%nat by lia. lia.
Qed.

(** X15: the three fixed-shape entries.  For a byte-string payload at least
    as long as the structure: the chip-reboot response carries payload byte
    0 as status; the parameter-definition request carries the index
    byte 0 + 256 * byte 1; the version-inquiry response carries bytes 2..17
    as hardware version and the little-endian 32-bit values at offsets 18
    and 22 as loader and application version. *)
Theorem fixed_shape_entries_resolve h p :
  Forall is_byte p ->
  (cmd_set h = CMD_SET_TYPE_GENERAL -> Hdr.packet_type h = 1 ->
   cmd_id h = 0x0b -> (1 <= length p)%nat ->
   get_known_payload h p
   = Return (Some (General_ChipRebootRe (ChipRebootRe.mk (nth 0 p 0))))) /\
  (cmd_set h = CMD_SET_TYPE_FLYCONTROLLER -> Hdr.packet_type h = 0 ->
   cmd_id h = 0xf0 -> (2 <= length p)%nat ->
   get_known_payload h p
   = Return (Some (FlyController_GetParamDefinition2015Rq
                     (ParamDefRq.mk (nth 0 p 0 + nth 1 p 0 * 2 ^ 8))))) /\
  (cmd_set h = CMD_SET_TYPE_GENERAL -> Hdr.packet_type h = 1 ->
   cmd_id h = 0x01 -> (31 <= length p)%nat ->
   exists r,
     get_known_payload h p = Return (Some (General_VersionInquiryRe r)) /\
     VersionInquiryRe.hw_version r = firstn 16 (skipn 2 p) /\
     VersionInquiryRe.ldr_version r
     = nth 18 p 0 + nth 19 p 0 * 2 ^ 8 + nth 20 p 0 * 2 ^ 16
       + nth 21 p 0 * 2 ^ 24 /\
     VersionInquiryRe.app_version r
     = nth 22 p 0 + nth 23 p 0 * 2 ^ 8 + nth 24 p 0 * 2 ^ 16
       + nth 25 p 0 * 2 ^ 24).
Proof.
  intros Hp. split; [| split].
  - intros Hset Hdir Hid Hlen. route Hset Hdir Hid.
    destruct (Nat.leb_spec ChipRebootRe.sizeof (length p)); [| sizes; lia].
    now rewrite ChipRebootRe_ok.
  - intros Hset Hdir Hid Hlen. route Hset Hdir Hid.
    destruct (Nat.leb_spec ParamDefRq.sizeof (length p)); [| sizes; lia].
    rewrite ParamDefRq_ok by assumption. cbn [bind].
    unfold ParamDefRq.overlay.
    now rewrite (proj1 (u16_at_value p 0 Hp)).
  - intros Hset Hdir Hid Hlen. route Hset Hdir Hid.
    destruct (Nat.leb_spec VersionInquiryRe.sizeof (length p));
      [| sizes; lia].
    rewrite VersionInquiryRe_ok by assumption. cbn [bind].
    eexists. split; [reflexivity |].
    cbn [VersionInquiryRe.overlay VersionInquiryRe.hw_version
         VersionInquiryRe.ldr_version VersionInquiryRe.app_version].
    split; [reflexivity |].
    split; [exact (u32_at_bytes p 18 Hp) | exact (u32_at_bytes p 22 Hp)].
Qed.

(** ** The parameter name *)

Lemma c_char_array_value_zeros k : c_char_array_value (repeat 0 k) = [].
Proof. destruct k; reflexivity. Qed.

Lemma c_char_array_value_padded q k :
  c_char_array_value (q ++ repeat 0 k) = c_char_array_value q.
Proof.
  induction q as [| c q IH].
  - apply c_char_array_value_zeros.
  - cbn [app c_char_array_value]. now rewrite IH.
Qed.

Lemma name_of_padded p :
  (19 <= length p)%nat ->
  c_char_array_value (chars_at (ljust p 179) 19 160)
  = c_char_array_value (firstn 160 (skipn 19 p)).
Proof.
  intros Hlen. unfold chars_at, ljust.
  rewrite skipn_app.
  replace (19 - length p)%nat with 0%nat by lia. rewrite skipn_O.
  destruct (Nat.le_gt_cases 179 (length p)) as [Hlong | Hshort].
  - replace (179 - length p)%nat with 0%nat by lia.
    cbn [repeat]. now rewrite app_nil_r.
  - assert (Hq : length (skipn 19 p) = (length p - 19)%nat)
      by apply length_skipn.
    rewrite firstn_app, Hq.
    rewrite (firstn_all2 (n := 160) (skipn 19 p)) by lia.
    rewrite firstn_all2 by (rewrite repeat_length; lia).
    apply c_char_array_value_padded.
Qed.

Lemma flyc_response_resolves h p :
  cmd_set h = CMD_SET_TYPE_FLYCONTROLLER ->
  Hdr.packet_type h = PACKET_TYPE_RESPONSE ->
  cmd_id h = 0xf0 ->
  (1 <= length p)%nat ->
  exists v, get_known_payload h p = Return (Some v) /\ justified h p v.
Proof.
  intros Hset Hdir Hid Hlen.
  destruct (get_known_payload_returns h p) as [[v |] Hr].
  - exists v. split; [exact Hr | now apply get_known_payload_justified].
  - apply get_known_payload_none_iff in Hr.
    assert (Hm : routing_min_length h = Some 1%nat)
      by (unfold routing_min_length, catalog_min_length;
          rewrite Hset, Hdir, Hid; reflexivity).
    rewrite Hm in Hr. lia.
Qed.

(** X16: for the key (FLYCONTROLLER, response, 0xF0) and a payload of at
    least 20 bytes, the name read from the returned structure is the
    payload from offset 19 on, at most 160 bytes of it, up to its first NUL:
    the zero padding adds nothing to the name. *)
Theorem parameter_name_ignores_padding h p :
  cmd_set h = CMD_SET_TYPE_FLYCONTROLLER ->
  Hdr.packet_type h = PACKET_TYPE_RESPONSE ->
  cmd_id h = 0xf0 ->
  (20 <= length p)%nat ->
  exists v,
    get_known_payload h p = Return (Some v) /\
    match v with
    | FlyController_GetParamDefinitionU2015Re r =>
        c_char_array_value (ParamDefU.name r)
        = c_char_array_value (firstn 160 (skipn 19 p))
    | FlyController_GetParamDefinitionI2015Re r =>
        c_char_array_value (ParamDefI.name r)
        = c_char_array_value (firstn 160 (skipn 19 p))
    | FlyController_GetParamDefinitionF2015Re r =>
        c_char_array_value (ParamDefF.name r)
        = c_char_array_value (firstn 160 (skipn 19 p))
    | _ => False
    end.
Proof.
  intros Hset Hdir Hid Hlen.
  destruct (flyc_response_resolves h p Hset Hdir Hid ltac:(lia))
    as (v & Hr & Hj).
  exists v. split; [exact Hr |].
  unfold CMD_SET_TYPE_FLYCONTROLLER in Hset.
  unfold PACKET_TYPE_RESPONSE in Hdir.
  destruct v as [r | r | r | r | r | r | r]; cbn [justified] in Hj;
    cbv beta iota.
  1-4: lia.
  all: destruct Hj as (_ & _ & _ & _ & -> & _).
  all: apply name_of_padded; lia.
Qed.

(** * Enumerations *)

Lemma by_value_sound {E : Type} `{DecoratedEnum E} (v : Z) (e : E) :
  by_value v = Return e -> enum_value e = v.
Proof.
  unfold by_value.
  destruct (find (fun itm => enum_value itm =? v) enum_members) as [itm |]
    eqn:Hfind; [| discriminate].
  intros Hr. apply Return_inj in Hr. subst itm.
  apply find_some in Hfind. destruct Hfind as [_ Heq]. lia.
Qed.

Lemma from_name_sound {E : Type} `{DecoratedEnum E} (s : string) (e : E) :
  from_name s = Return e -> enum_name e = s.
Proof.
  unfold from_name.
  destruct (find (fun itm => String.eqb (enum_name itm) s) enum_members)
    as [itm |] eqn:Hfind; [| discriminate].
  intros Hr. apply Return_inj in Hr. subst itm.
  apply find_some in Hfind. destruct Hfind as [_ Heq].
  now apply String.eqb_eq.
Qed.

Lemma ACK_TYPE_by_value (e : ACK_TYPE.t) : by_value (enum_value e) = Return e.
Proof. destruct e; reflexivity. Qed.
Lemma COMM_DEV_TYPE_by_value (e : COMM_DEV_TYPE.t) :
  by_value (enum_value e) = Return e.
Proof. destruct e; reflexivity. Qed.
Lemma ENCRYPT_TYPE_by_value (e : ENCRYPT_TYPE.t) :
  by_value (enum_value e) = Return e.
Proof. destruct e; reflexivity. Qed.
Lemma PACKET_TYPE_by_value (e : PACKET_TYPE.t) :
  by_value (enum_value e) = Return e.
Proof. destruct e; reflexivity. Qed.
Lemma CMD_SET_TYPE_by_value (e : CMD_SET_TYPE.t) :
  by_value (enum_value e) = Return e.
Proof. destruct e; reflexivity. Qed.

Lemma ACK_TYPE_from_name (e : ACK_TYPE.t) : from_name (enum_name e) = Return e.
Proof. destruct e; reflexivity. Qed.
Lemma COMM_DEV_TYPE_from_name (e : COMM_DEV_TYPE.t) :
  from_name (enum_name e) = Return e.
Proof. destruct e; reflexivity. Qed.
Lemma ENCRYPT_TYPE_from_name (e : ENCRYPT_TYPE.t) :
  from_name (enum_name e) = Return e.
Proof. destruct e; reflexivity. Qed.
Lemma PACKET_TYPE_from_name (e : PACKET_TYPE.t) :
  from_name (enum_name e) = Return e.
Proof. destruct e; reflexivity. Qed.
Lemma CMD_SET_TYPE_from_name (e : CMD_SET_TYPE.t) :
  from_name (enum_name e) = Return e.
Proof. destruct e; reflexivity. Qed.

(** X17: in each of the five enumerations, looking a member up by its value
    gives that member back, and a lookup by value that succeeds gives a
    member with that value: no two members share a value. *)
Theorem lookup_by_value_inverts_value :
  (forall e : ACK_TYPE.t, by_value (enum_value e) = Return e) /\
  (forall e : COMM_DEV_TYPE.t, by_value (enum_value e) = Return e) /\
  (forall e : ENCRYPT_TYPE.t, by_value (enum_value e) = Return e) /\
  (forall e : PACKET_TYPE.t, by_value (enum_value e) = Return e) /\
  (forall e : CMD_SET_TYPE.t, by_value (enum_value e) = Return e) /\
  (forall (E : Type) (enum : DecoratedEnum E) (v : Z) (e : E),
     by_value v = Return e -> enum_value e = v).
Proof.
  repeat split.
  - apply ACK_TYPE_by_value.
  - apply COMM_DEV_TYPE_by_value.
  - apply ENCRYPT_TYPE_by_value.
  - apply PACKET_TYPE_by_value.
  - apply CMD_SET_TYPE_by_value.
  - intros E enum v e. apply by_value_sound.
Qed.

(** X18: in each of the five enumerations, [from_name] on the name of a
    member gives that member back, and a [from_name] that succeeds gives a
    member with exactly that name (the comparison is case sensitive): no two
    members share a name. *)
Theorem from_name_inverts_name :
  (forall e : ACK_TYPE.t, from_name (enum_name e) = Return e) /\
  (forall e : COMM_DEV_TYPE.t, from_name (enum_name e) = Return e) /\
  (forall e : ENCRYPT_TYPE.t, from_name (enum_name e) = Return e) /\
  (forall e : PACKET_TYPE.t, from_name (enum_name e) = Return e) /\
  (forall e : CMD_SET_TYPE.t, from_name (enum_name e) = Return e) /\
  (forall (E : Type) (enum : DecoratedEnum E) (s : string) (e : E),
     from_name s = Return e -> enum_name e = s).
Proof.
  repeat split.
  - apply ACK_TYPE_from_name.
  - apply COMM_DEV_TYPE_from_name.
  - apply ENCRYPT_TYPE_from_name.
  - apply PACKET_TYPE_from_name.
  - apply CMD_SET_TYPE_from_name.
  - intros E enum s e. apply from_name_sound.
Qed.

(** Every value below a bound names a member. *)
Ltac covers_below bound :=
  let v := fresh "v" in
  let Hv := fresh "Hv" in
  let n := fresh "n" in
  intros v Hv;
  assert (exists n, (n < bound)%nat /\ v = Z.of_nat n) as (n & Hn & ->)
    by (exists (Z.to_nat v); lia);
  repeat (destruct n as [| n]; [eexists; reflexivity |]);
  lia.

Lemma COMM_DEV_TYPE_covers v :
  0 <= v < 2 ^ 5 -> exists e : COMM_DEV_TYPE.t, by_value v = Return e.
Proof. revert v. covers_below 32%nat. Qed.
Lemma CMD_SET_TYPE_covers v :
  0 <= v < 2 ^ 5 -> exists e : CMD_SET_TYPE.t, by_value v = Return e.
Proof. revert v. covers_below 32%nat. Qed.
Lemma ENCRYPT_TYPE_covers v :
  0 <= v < 2 ^ 3 -> exists e : ENCRYPT_TYPE.t, by_value v = Return e.
Proof. revert v. covers_below 8%nat. Qed.
Lemma PACKET_TYPE_covers v :
  0 <= v < 2 ^ 1 -> exists e : PACKET_TYPE.t, by_value v = Return e.
Proof. revert v. covers_below 2%nat. Qed.
Lemma ACK_TYPE_covers v :
  0 <= v < 3 -> exists e : ACK_TYPE.t, by_value v = Return e.
Proof. revert v. covers_below 3%nat. Qed.

Lemma mask_range a w : 0 <= w -> 0 <= Z.land a (Z.ones w) < 2 ^ w.
Proof. intros Hw. rewrite Z.land_ones by exact Hw. apply Z.mod_pos_bound. lia. Qed.

(** X19: the module type and encrypt type read from any header name a
    member of their enumeration, and so does the packet type of a header
    whose command type byte is a byte; the 2-bit ack field can hold 3, which
    names no member of ACK_TYPE, and the command set byte can hold 32, which
    names no member of CMD_SET_TYPE. *)
Theorem header_fields_and_enumerations h :
  (exists e : COMM_DEV_TYPE.t, by_value (Hdr.sender_type h) = Return e) /\
  (exists e : COMM_DEV_TYPE.t, by_value (Hdr.receiver_type h) = Return e) /\
  (exists e : ENCRYPT_TYPE.t, by_value (Hdr.encrypt_type h) = Return e) /\
  (is_byte (cmd_type_data h) ->
   exists e : PACKET_TYPE.t, by_value (Hdr.packet_type h) = Return e) /\
  by_value (E := ACK_TYPE.t) (Hdr.ack_type (Hdr.set_ack_type h 3))
  = Raise ValueError /\
  by_value (E := CMD_SET_TYPE.t) (cmd_set (Hdr.set_cmd_set h 32))
  = Raise ValueError.
Proof.
  split; [apply COMM_DEV_TYPE_covers, (mask_range _ 5); lia |].
  split; [apply COMM_DEV_TYPE_covers, (mask_range _ 5); lia |].
  split; [apply ENCRYPT_TYPE_covers, (mask_range _ 3); lia |].
  split.
  - intros Hb. apply PACKET_TYPE_covers. unfold Hdr.packet_type, is_byte in *.
    rewrite Z.shiftr_div_pow2 by lia. change (2 ^ 7) with 128.
    Z.div_mod_to_equations. lia.
  - split.
    + rewrite HdrLaws.ack_type_set. reflexivity.
    + reflexivity.
Qed.

(** ** encode_command_packet_en *)

Lemma enum_values_fit_their_fields :
  (forall e : COMM_DEV_TYPE.t, enum_value e mod 2 ^ 5 = enum_value e) /\
  (forall e : PACKET_TYPE.t, enum_value e mod 2 ^ 1 = enum_value e) /\
  (forall e : ACK_TYPE.t, enum_value e mod 2 ^ 2 = enum_value e) /\
  (forall e : ENCRYPT_TYPE.t, enum_value e mod 2 ^ 3 = enum_value e) /\
  (forall e : CMD_SET_TYPE.t, enum_value e mod 2 ^ 8 = enum_value e).
Proof. repeat split; intros e; destruct e; reflexivity. Qed.

Section BuilderEnProps.

Variable calc8 : Z -> list Z -> Z -> Z.
Variable calc16 : list Z -> Z -> Z.

(** X20: the enumeration members given to [encode_command_packet_en] can be
    read back from the packet: the header decoded from its first 11 bytes
    gives, through lookup by value, the same sender type, receiver type,
    packet type, ack type, encrypt type and command set; the indices come
    back modulo 8, the sequence number modulo 65536 and the command id
    modulo 256. *)
Theorem enumeration_inputs_survive_the_wire
    st si rt ri sq pt at_ et cs ci p enc_data :
  encode_command_packet_en calc8 calc16 st si rt ri sq pt at_ et cs ci p
  = Some enc_data ->
  exists h,
    Hdr.from_buffer_copy enc_data = Return h /\
    by_value (Hdr.sender_type h) = Return st /\
    by_value (Hdr.receiver_type h) = Return rt /\
    by_value (Hdr.packet_type h) = Return pt /\
    by_value (Hdr.ack_type h) = Return at_ /\
    by_value (Hdr.encrypt_type h) = Return et /\
    by_value (cmd_set h) = Return cs /\
    Hdr.sender_index h = si mod 2 ^ 3 /\
    Hdr.receiver_index h = ri mod 2 ^ 3 /\
    seq_num h = sq mod 2 ^ 16 /\
    cmd_id h = ci mod 2 ^ 8.
Proof.
  unfold encode_command_packet_en. intros Henc.
  eexists. split; [exact (built_packet_header_decodes _ _ _ _ _ _ _ _ _ _ _ _ _ _ Henc) |].
  pose proof (build_header_fields calc8 (enum_value st) si (enum_value rt) ri
                sq (enum_value pt) (enum_value at_) (enum_value et)
                (enum_value cs) ci p) as Hf.
  destruct enum_values_fit_their_fields as (Hdev & Hpk & Hack & Henc' & Hset).
  rewrite !Hdev, Hpk, Hack, Henc', Hset in Hf.
  pose proof (f_equal hf_sender_type Hf) as H1.
  pose proof (f_equal hf_receiver_type Hf) as H2.
  pose proof (f_equal hf_packet_type Hf) as H3.
  pose proof (f_equal hf_ack_type Hf) as H4.
  pose proof (f_equal hf_encrypt_type Hf) as H5.
  pose proof (f_equal hf_cmd_set Hf) as H6.
  pose proof (f_equal hf_sender_index Hf) as H7.
  pose proof (f_equal hf_receiver_index Hf) as H8.
  pose proof (f_equal hf_seq_num Hf) as H9.
  pose proof (f_equal hf_cmd_id Hf) as H10.
  cbn [get_fields hf_sender_type hf_receiver_type hf_packet_type hf_ack_type
       hf_encrypt_type hf_cmd_set hf_sender_index hf_receiver_index
       hf_seq_num hf_cmd_id] in *.
  rewrite H1, H2, H3, H4, H5, H6.
  repeat split; try assumption.
  - apply COMM_DEV_TYPE_by_value.
  - apply COMM_DEV_TYPE_by_value.
  - apply PACKET_TYPE_by_value.
  - apply ACK_TYPE_by_value.
  - apply ENCRYPT_TYPE_by_value.
  - apply CMD_SET_TYPE_by_value.
Qed.

End BuilderEnProps.

(** * Command-line argument parsers *)

Lemma is_digit_cases c :
  is_digit c = true ->
  In c ["0"; "1"; "2"; "3"; "4"; "5"; "6"; "7"; "8"; "9"]%char.
Proof.
  destruct c as [b0 b1 b2 b3 b4 b5 b6 b7].
  destruct b0, b1, b2, b3, b4, b5, b6, b7; vm_compute; intros H;
    try discriminate H; tauto.
Qed.

Ltac each_digit H :=
  apply is_digit_cases in H; cbn [In] in H;
  repeat (destruct H as [H | H]); [subst .. | contradiction].

Section ParserProps.

(** [upper] stands for [str.upper]. *)
Variable upper : string -> string.

Ltac digit_known :=
  repeat match goal with
         | |- context [digit_value ?c] =>
             let v := eval vm_compute in (digit_value c) in
             change (digit_value c) with v
         end.

(** X21: a one-digit argument is read as a number.  [parse_ack_type] takes
    0..2 and refuses 3..9, [parse_encrypt_type] takes 0..7 and refuses 8 and
    9, [parse_packet_type] takes 0 and 1 and refuses 2..9, each refusal
    with the message "Numeric value out of range"; [parse_cmd_set] takes
    every digit.  The member returned has the digit as value, and a newline
    after the digit changes nothing. *)
Theorem one_digit_arguments c :
  is_digit c = true ->
  let s := String c EmptyString in
  let s_nl := String c (String "010"%char EmptyString) in
  let n := digit_value c in
  ((n <= 2 ->
    exists e, parse_ack_type upper s = Parsed e /\ enum_value e = n) /\
   (2 < n ->
    parse_ack_type upper s
    = ArgumentTypeError "Numeric value out of range") /\
   parse_ack_type upper s_nl = parse_ack_type upper s) /\
  ((n <= 7 ->
    exists e, parse_encrypt_type upper s = Parsed e /\ enum_value e = n) /\
   (7 < n ->
    parse_encrypt_type upper s
    = ArgumentTypeError "Numeric value out of range") /\
   parse_encrypt_type upper s_nl = parse_encrypt_type upper s) /\
  ((n <= 1 ->
    exists e, parse_packet_type upper s = Parsed e /\ enum_value e = n) /\
   (1 < n ->
    parse_packet_type upper s
    = ArgumentTypeError "Numeric value out of range") /\
   parse_packet_type upper s_nl = parse_packet_type upper s) /\
  ((exists e, parse_cmd_set upper s = Parsed e /\ enum_value e = n) /\
   parse_cmd_set upper s_nl = parse_cmd_set upper s).
Proof.
  intros Hc. cbv zeta. each_digit Hc; digit_known.
  all: repeat split; intros; try lia; try reflexivity.
  all: eexists; split; reflexivity.
Qed.

Lemma name_path_module_type s :
  re_search_digits 1 2 s = false ->
  parse_module_type upper s
  = match from_name (upper s) with
    | Return itm => Parsed itm
    | Raise _ => ArgumentTypeError "Unrecognized name of enum item"
    end.
Proof. intros H. unfold parse_module_type. now rewrite H. Qed.

Lemma name_path_ack_type s :
  re_search_digits 1 1 s = false ->
  parse_ack_type upper s
  = match from_name (upper s) with
    | Return itm => Parsed itm
    | Raise _ => ArgumentTypeError "Unrecognized name of enum item"
    end.
Proof. intros H. unfold parse_ack_type. now rewrite H. Qed.

Lemma name_path_encrypt_type s :
  re_search_digits 1 1 s = false ->
  parse_encrypt_type upper s
  = match from_name (upper s) with
    | Return itm => Parsed itm
    | Raise _ => ArgumentTypeError "Unrecognized name of enum item"
    end.
Proof. intros H. unfold parse_encrypt_type. now rewrite H. Qed.

Lemma name_path_packet_type s :
  re_search_digits 1 1 s = false ->
  parse_packet_type upper s
  = match from_name (upper s) with
    | Return itm => Parsed itm
    | Raise _ => ArgumentTypeError "Unrecognized name of enum item"
    end.
Proof. intros H. unfold parse_packet_type. now rewrite H. Qed.

Lemma name_path_cmd_set s :
  re_search_digits 1 1 s = false ->
  parse_cmd_set upper s
  = match from_name (upper s) with
    | Return itm => Parsed itm
    | Raise _ => ArgumentTypeError "Unrecognized name of enum item"
    end.
Proof. intros H. unfold parse_cmd_set. now rewrite H. Qed.

(** X22: two digits.  [parse_module_type] reads them as a number, takes
    00..31 and refuses 32..99 with "Numeric value out of range".
    [parse_cmd_set] does not read two digits as a number: when upper-casing
    leaves them as they are, it refuses them with "Unrecognized name of enum
    item", so the command sets 10..31 cannot be chosen by number. *)
Theorem two_digit_arguments c1 c2 :
  is_digit c1 = true ->
  is_digit c2 = true ->
  let s := String c1 (String c2 EmptyString) in
  let n := 10 * digit_value c1 + digit_value c2 in
  (n <= 31 ->
   exists e, parse_module_type upper s = Parsed e /\ enum_value e = n) /\
  (31 < n ->
   parse_module_type upper s
   = ArgumentTypeError "Numeric value out of range") /\
  (upper s = s ->
   parse_cmd_set upper s
   = ArgumentTypeError "Unrecognized name of enum item").
Proof.
  intros H1 H2. cbv zeta. each_digit H1; each_digit H2; digit_known.
  all: split; [intros Hn; try (exfalso; lia); eexists; split; reflexivity |].
  all: split; [intros Hn; try (exfalso; lia); reflexivity |].
  all: intros Hup; rewrite name_path_cmd_set by (vm_compute; reflexivity).
  all: rewrite Hup; reflexivity.
Qed.

(** X23: an argument that is not digits is read as a name: each parser
    returns a member exactly when the upper-cased argument is the name of
    that member. *)
Theorem name_arguments s :
  (re_search_digits 1 2 s = false ->
   forall e, parse_module_type upper s = Parsed e <-> enum_name e = upper s)
  /\
  (re_search_digits 1 1 s = false ->
   (forall e, parse_ack_type upper s = Parsed e <-> enum_name e = upper s) /\
   (forall e,
      parse_encrypt_type upper s = Parsed e <-> enum_name e = upper s) /\
   (forall e,
      parse_packet_type upper s = Parsed e <-> enum_name e = upper s) /\
   (forall e, parse_cmd_set upper s = Parsed e <-> enum_name e = upper s)).
Proof.
  split; [intros Hs e | intros Hs; split; [| split; [| split]]; intros e].
  all: rewrite ?name_path_module_type, ?name_path_ack_type,
         ?name_path_encrypt_type, ?name_path_packet_type,
         ?name_path_cmd_set by exact Hs.
  all: split;
    [ intros Hp;
      destruct (from_name (upper s)) as [itm |] eqn:Hn;
      [| discriminate Hp];
      injection Hp as ->; now apply from_name_sound
    | intros <- ].
  - now rewrite COMM_DEV_TYPE_from_name.
  - now rewrite ACK_TYPE_from_name.
  - now rewrite ENCRYPT_TYPE_from_name.
  - now rewrite PACKET_TYPE_from_name.
  - now rewrite CMD_SET_TYPE_from_name.
Qed.

End ParserProps.

(** ** parse_module_ident *)

Lemma digit_is_not_newline c :
  is_digit c = true -> Ascii.eqb c "010"%char = false.
Proof. intros H. each_digit H; reflexivity. Qed.

Lemma digit_is_not_m c rest :
  is_digit c = true ->
  match String c rest with
  | String "m"%char r => r
  | _ => String c rest
  end = String c rest.
Proof. intros H. each_digit H; reflexivity. Qed.

Lemma optional_m s :
  let s1 := match s with
            | String "m"%char rest => rest
            | _ => s
            end in
  s = s1 \/ s = String "m"%char s1.
Proof.
  destruct s as [| c rest]; [left; reflexivity |].
  destruct c as [b0 b1 b2 b3 b4 b5 b6 b7].
  destruct b0, b1, b2, b3, b4, b5, b6, b7; cbv zeta;
    (left; reflexivity) || (right; reflexivity).
Qed.

Lemma before_final_newline_spec s :
  s = (before_final_newline s ++ "")%string \/
  s = (before_final_newline s ++ String "010"%char "")%string.
Proof.
  induction s as [| c rest IH].
  - left. reflexivity.
  - destruct rest as [| c' rest'].
    + cbn [before_final_newline].
      destruct (Ascii.eqb_spec c "010"%char) as [-> | _].
      * right. reflexivity.
      * left. reflexivity.
    + change (before_final_newline (String c (String c' rest')))
        with (String c (before_final_newline (String c' rest'))).
      cbn [String.append].
      destruct IH as [IH | IH]; [left | right]; now rewrite <- IH.
Qed.

(** X24: the identifier forms TTII and TII, with or without a leading m:
    four digits split two and two, three digits split one and two. *)
Theorem module_ident_forms t1 t2 i1 i2 :
  is_digit t1 = true -> is_digit t2 = true ->
  is_digit i1 = true -> is_digit i2 = true ->
  let tt := String t1 (String t2 EmptyString) in
  let t := String t2 EmptyString in
  let ii := String i1 (String i2 EmptyString) in
  parse_module_ident (tt ++ ii) = Parsed (tt, ii) /\
  parse_module_ident ("m" ++ tt ++ ii) = Parsed (tt, ii) /\
  parse_module_ident (t ++ ii) = Parsed (t, ii) /\
  parse_module_ident ("m" ++ t ++ ii) = Parsed (t, ii).
Proof.
  intros Ht1 Ht2 Hi1 Hi2. cbv zeta. cbn [String.append].
  unfold parse_module_ident.
  rewrite !digit_is_not_m by assumption.
  cbn [before_final_newline].
  rewrite (digit_is_not_newline i2 Hi2).
  cbn [all_digits]. rewrite Ht1, Ht2, Hi1, Hi2.
  repeat split.
Qed.

(** X25: whatever [parse_module_ident] accepts has the shape of its
    pattern: the argument is an optional m, the first group, the second
    group and an optional final newline; both groups are digits, the first
    one or two of them, the second exactly two.  Everything else is refused
    with "No 4-byte module ident". *)
Theorem module_ident_accepts_only_its_pattern s :
  (forall g1 g2,
     parse_module_ident s = Parsed (g1, g2) ->
     all_digits g1 = true /\ all_digits g2 = true /\
     (String.length g1 = 1%nat \/ String.length g1 = 2%nat) /\
     String.length g2 = 2%nat /\
     exists pre post,
       (pre = "" \/ pre = "m")%string /\
       (post = "" \/ post = String "010"%char "")%string /\
       s = (pre ++ g1 ++ g2 ++ post)%string) /\
  (forall msg,
     parse_module_ident s = ArgumentTypeError msg ->
     msg = "No 4-byte module ident"%string).
Proof.
  unfold parse_module_ident.
  pose proof (optional_m s) as Hm. cbv zeta in Hm.
  set (s1 := match s with
             | String "m"%char rest => rest
             | _ => s
             end) in *.
  pose proof (before_final_newline_spec s1) as Hnl.
  set (digits := before_final_newline s1) in *.
  cbv zeta. split.
  - intros g1 g2 Hp.
    destruct (all_digits digits) eqn:Hd; [| discriminate Hp].
    assert (Hshape :
      exists post, (post = "" \/ post = String "010"%char "")%string /\
                   s1 = (digits ++ post)%string)
      by (destruct Hnl as [Hnl | Hnl];
          [exists ""%string | exists (String "010"%char "")];
          split; auto).
    destruct Hshape as (post & Hpost & Hs1).
    assert (Hpre :
      exists pre, (pre = "" \/ pre = "m")%string /\ s = (pre ++ s1)%string)
      by (destruct Hm as [Hm | Hm];
          [exists ""%string | exists "m"%string]; split; auto).
    destruct Hpre as (pre & Hpre & Hs).
    destruct digits as [| a [| b [| c [| d [| e r]]]]];
      cbn [String.length] in Hp; try discriminate Hp.
    + injection Hp as <- <-. cbn [all_digits] in Hd.
      apply andb_prop in Hd as [Ha Hd]. apply andb_prop in Hd as [Hb Hd].
      apply andb_prop in Hd as [Hc _].
      cbn [substring all_digits String.length].
      rewrite Ha, Hb, Hc. repeat split; auto.
      exists pre, post. repeat split; auto.
      rewrite Hs, Hs1. reflexivity.
    + injection Hp as <- <-. cbn [all_digits] in Hd.
      apply andb_prop in Hd as [Ha Hd]. apply andb_prop in Hd as [Hb Hd].
      apply andb_prop in Hd as [Hc Hd]. apply andb_prop in Hd as [Hd' _].
      cbn [substring all_digits String.length].
      rewrite Ha, Hb, Hc, Hd'. repeat split; auto.
      exists pre, post. repeat split; auto.
      rewrite Hs, Hs1. reflexivity.
  - intros msg Hp.
    destruct (all_digits digits); [| now injection Hp].
    destruct (String.length digits) as [| [| [| [| [| n]]]]];
      try discriminate Hp; now injection Hp.
Qed.

(** * The printed packet *)

Lemma format_02x_byte x :
  is_byte x ->
  exists a b,
    format_02x x = String a (String b "") /\
    HexString.Raw.to_N (format_02x x) 0%N = Z.to_N x.
Proof.
  unfold is_byte. intros Hx.
  assert (exists n, (n < 256)%nat /\ x = Z.of_nat n) as (n & Hn & ->)
    by (exists (Z.to_nat x); lia).
  clear Hx.
  repeat (destruct n as [| n]; [do 2 eexists; split; reflexivity |]).
  lia.
Qed.

Lemma joined_line_length ls :
  Forall (fun s => String.length s = 2%nat) ls ->
  ls <> [] ->
  String.length (String.concat " " ls) = (3 * length ls - 1)%nat.
Proof.
  induction 1 as [| s ls Hs Hls IH]; [congruence |]. intros _.
  destruct s as [| a [| b [| c s]]]; try discriminate Hs.
  destruct ls as [| s' ls]; [reflexivity |].
  change (String.concat " " (String a (String b "") :: s' :: ls))
    with (String a (String b (String " " (String.concat " " (s' :: ls))))).
  cbn [String.length]. rewrite IH by discriminate.
  cbn [length]. lia.
Qed.

Lemma joined_line_columns ls k :
  Forall (fun s => String.length s = 2%nat) ls ->
  (k < length ls)%nat ->
  substring (3 * k) 2 (String.concat " " ls) = nth k ls ""%string.
Proof.
  intros Hls. revert k.
  induction Hls as [| s ls Hs Hls IH]; intros k Hk; [cbn in Hk; lia |].
  destruct s as [| a [| b [| c s]]]; try discriminate Hs.
  destruct ls as [| s' ls].
  - destruct k as [| k]; [reflexivity | cbn in Hk; lia].
  - change (String.concat " " (String a (String b "") :: s' :: ls))
      with (String a (String b (String " " (String.concat " " (s' :: ls))))).
    destruct k as [| k]; [reflexivity |].
    replace (3 * S k)%nat with (S (S (S (3 * k)))) by lia.
    cbn [substring nth]. apply IH. cbn [length] in *. lia.
Qed.

Lemma joined_line_gaps ls k :
  Forall (fun s => String.length s = 2%nat) ls ->
  (S k < length ls)%nat ->
  substring (3 * k + 2) 1 (String.concat " " ls) = " "%string.
Proof.
  intros Hls. revert k.
  induction Hls as [| s ls Hs Hls IH]; intros k Hk; [cbn in Hk; lia |].
  destruct s as [| a [| b [| c s]]]; try discriminate Hs.
  destruct ls as [| s' ls]; [cbn in Hk; lia |].
  change (String.concat " " (String a (String b "") :: s' :: ls))
    with (String a (String b (String " " (String.concat " " (s' :: ls))))).
  destruct k as [| k].
  { cbn [Nat.mul Nat.add substring].
    now destruct (String.concat " " (s' :: ls)). }
  replace (3 * S k + 2)%nat with (S (S (S (3 * k + 2)))) by lia.
  cbn [substring]. apply IH. cbn [length] in *. lia.
Qed.

Section BuildPacketProps.

Variable calc8 : Z -> list Z -> Z -> Z.
Variable calc16 : list Z -> Z -> Z.

(** X26: for a payload of at most 1010 bytes [do_build_packet] prints one
    line of [3 * (13 + len(payload)) - 1] characters: byte [k] of the built
    packet stands in columns [3k] and [3k + 1] as two hexadecimal digits
    whose value is that byte, and the columns between two bytes hold a
    space. *)
Theorem printed_line_lists_the_packet_bytes options :
  Forall is_byte (Options.payload options) ->
  (length (Options.payload options) <= 1010)%nat ->
  exists pkt line,
    encode_command_packet_en calc8 calc16
      (Options.sender_type options) (Options.sender_index options)
      (Options.receiver_type options) (Options.receiver_index options)
      (Options.seq_num options) (Options.pack_type options)
      (Options.ack_type options) (Options.encrypt_type options)
      (Options.cmd_set options) (Options.cmd_id options)
      (Options.payload options) = Some pkt /\
    do_build_packet calc8 calc16 options = Some line /\
    String.length line
    = (3 * (13 + length (Options.payload options)) - 1)%nat /\
    (forall k, (k < length pkt)%nat ->
       HexString.Raw.to_N (substring (3 * k) 2 line) 0%N
       = Z.to_N (nth k pkt 0)) /\
    (forall k, (S k < length pkt)%nat ->
       substring (3 * k + 2) 1 line = " "%string).
Proof.
  intros Hbytes Hlen. unfold do_build_packet, encode_command_packet_en.
  destruct (encode_command_packet_defined calc8 calc16
              (enum_value (Options.sender_type options))
              (Options.sender_index options)
              (enum_value (Options.receiver_type options))
              (Options.receiver_index options) (Options.seq_num options)
              (enum_value (Options.pack_type options))
              (enum_value (Options.ack_type options))
              (enum_value (Options.encrypt_type options))
              (enum_value (Options.cmd_set options))
              (Options.cmd_id options) (Options.payload options) Hlen)
    as [pkt Hpkt].
  rewrite Hpkt. exists pkt, (String.concat " " (map format_02x pkt)).
  pose proof (built_packet_bytes _ _ _ _ _ _ _ _ _ _ _ _ _ _ Hbytes Hpkt)
    as Hall.
  destruct (built_packet_payload _ _ _ _ _ _ _ _ _ _ _ _ _ _ Hpkt)
    as [Hsize _].
  assert (Htwo : Forall (fun s => String.length s = 2%nat)
                        (map format_02x pkt)).
  { apply Forall_map. eapply Forall_impl; [| exact Hall].
    intros x Hx. destruct (format_02x_byte x Hx) as (a & b & -> & _).
    reflexivity. }
  split; [reflexivity |]. split; [reflexivity |]. split; [| split].
  - rewrite joined_line_length, length_map, Hsize; [lia | exact Htwo |].
    destruct pkt; [discriminate Hsize | discriminate].
  - intros k Hk.
    rewrite joined_line_columns by (rewrite ?length_map; assumption).
    rewrite (nth_indep _ ""%string (format_02x 0))
      by (rewrite length_map; exact Hk).
    rewrite map_nth.
    assert (Hb : is_byte (nth k pkt 0))
      by (rewrite Forall_forall in Hall; apply Hall, nth_In, Hk).
    now destruct (format_02x_byte _ Hb) as (a & b & _ & Hv).
  - intros k Hk. apply joined_line_gaps; [exact Htwo |].
    rewrite length_map. exact Hk.
Qed.

End BuildPacketProps.

(** * Worked cases of the further properties *)

Lemma cmd_type_fields_are_kept_witness :
  is_byte (cmd_type_data (Hdr.set_ack_type (header_for 3 1 0xf0) 2)) /\
  Hdr.ack_type
    (Hdr.set_encrypt_type (Hdr.set_ack_type (header_for 3 1 0xf0) 2) 5)
  = Hdr.ack_type (Hdr.set_ack_type (header_for 3 1 0xf0) 2).
Proof.
  assert (Hb : is_byte
                 (cmd_type_data (Hdr.set_ack_type (header_for 3 1 0xf0) 2)))
    by (vm_compute; split; [discriminate | reflexivity]).
  split; [exact Hb |].
  exact (proj1 (proj2 (proj2 (proj2 (cmd_type_fields_are_kept _ 5 Hb))))).
Defined.

Lemma built_packet_is_a_byte_string_witness :
  Forall is_byte [1; 255] /\
  encode_command_packet toy_hdr_checksum toy_checksum
    10 1 3 0 0x1234 1 2 5 3 0xf0 [1; 255]
  = Some [85; 15; 4; 4; 42; 3; 52; 18; 197; 3; 240; 1; 255; 255; 255] /\
  Forall is_byte [85; 15; 4; 4; 42; 3; 52; 18; 197; 3; 240; 1; 255; 255; 255].
Proof.
  assert (Hp : Forall is_byte [1; 255])
    by (repeat (apply Forall_cons; [unfold is_byte; lia |]);
        apply Forall_nil).
  assert (Henc : encode_command_packet toy_hdr_checksum toy_checksum
                   10 1 3 0 0x1234 1 2 5 3 0xf0 [1; 255]
                 = Some [85; 15; 4; 4; 42; 3; 52; 18; 197; 3; 240; 1; 255;
                         255; 255])
    by (vm_compute; reflexivity).
  split; [exact Hp |]. split; [exact Henc |].
  exact (built_packet_is_a_byte_string toy_hdr_checksum toy_checksum
           10 1 3 0 0x1234 1 2 5 3 0xf0 [1; 255] _ Hp Henc).
Defined.

Lemma built_packet_reserved_bits_are_zero_witness :
  encode_command_packet toy_hdr_checksum toy_checksum
    10 1 3 0 0x1234 1 2 5 3 0xf0 [1; 255]
  = Some [85; 15; 4; 4; 42; 3; 52; 18; 197; 3; 240; 1; 255; 255; 255] /\
  Z.land
    (u8_at [85; 15; 4; 4; 42; 3; 52; 18; 197; 3; 240; 1; 255; 255; 255] 8)
    24 = 0.
Proof.
  assert (Henc : encode_command_packet toy_hdr_checksum toy_checksum
                   10 1 3 0 0x1234 1 2 5 3 0xf0 [1; 255]
                 = Some [85; 15; 4; 4; 42; 3; 52; 18; 197; 3; 240; 1; 255;
                         255; 255])
    by (vm_compute; reflexivity).
  split; [exact Henc |].
  exact (built_packet_reserved_bits_are_zero toy_hdr_checksum toy_checksum
           10 1 3 0 0x1234 1 2 5 3 0xf0 [1; 255] _ Henc).
Defined.

Lemma built_packet_decodes_to_its_inputs_witness :
  encode_command_packet toy_hdr_checksum toy_checksum
    (10 + 32) (1 + 8) 3 0 0x1234 1 2 5 3 0xf0 [1; 255]
  = Some [85; 15; 4; 4; 42; 3; 52; 18; 197; 3; 240; 1; 255; 255; 255] /\
  exists h,
    Hdr.from_buffer_copy
      [85; 15; 4; 4; 42; 3; 52; 18; 197; 3; 240; 1; 255; 255; 255]
    = Return h /\
    sof h = 0x55 /\
    get_fields h = mkFields 1 15 10 1 3 0 0x1234 1 2 5 3 0xf0.
Proof.
  assert (Henc : encode_command_packet toy_hdr_checksum toy_checksum
                   (10 + 32) (1 + 8) 3 0 0x1234 1 2 5 3 0xf0 [1; 255]
                 = Some [85; 15; 4; 4; 42; 3; 52; 18; 197; 3; 240; 1; 255;
                         255; 255])
    by (vm_compute; reflexivity).
  split; [exact Henc |].
  exact (built_packet_decodes_to_its_inputs toy_hdr_checksum toy_checksum
           (10 + 32) (1 + 8) 3 0 0x1234 1 2 5 3 0xf0 [1; 255] _ Henc).
Defined.

Lemma built_packet_carries_its_payload_witness :
  encode_command_packet toy_hdr_checksum toy_checksum
    10 1 3 0 0x1234 1 2 5 3 0xf0 [1; 255]
  = Some [85; 15; 4; 4; 42; 3; 52; 18; 197; 3; 240; 1; 255; 255; 255] /\
  exists h,
    Hdr.from_buffer_copy
      [85; 15; 4; 4; 42; 3; 52; 18; 197; 3; 240; 1; 255; 255; 255]
    = Return h /\
    Z.of_nat
      (length [85; 15; 4; 4; 42; 3; 52; 18; 197; 3; 240; 1; 255; 255; 255])
    = Hdr.whole_length h /\
    firstn (Z.to_nat (Hdr.whole_length h) - 11 - 2)
      (skipn 11 [85; 15; 4; 4; 42; 3; 52; 18; 197; 3; 240; 1; 255; 255; 255])
    = [1; 255].
Proof.
  assert (Henc : encode_command_packet toy_hdr_checksum toy_checksum
                   10 1 3 0 0x1234 1 2 5 3 0xf0 [1; 255]
                 = Some [85; 15; 4; 4; 42; 3; 52; 18; 197; 3; 240; 1; 255;
                         255; 255])
    by (vm_compute; reflexivity).
  split; [exact Henc |].
  exact (built_packet_carries_its_payload toy_hdr_checksum toy_checksum
           10 1 3 0 0x1234 1 2 5 3 0xf0 [1; 255] _ Henc).
Defined.

Lemma stored_length_wraps_witness :
  (1010 < length (repeat 0 1011))%nat /\
  Hdr.whole_length
    (build_header toy_hdr_checksum 10 1 3 0 0x1234 1 2 5 3 0xf0
       (repeat 0 1011))
  < 11 + Z.of_nat (length (repeat 0 1011)) + 2.
Proof.
  assert (Hp : (1010 < length (repeat 0 1011))%nat)
    by (rewrite repeat_length; lia).
  split; [exact Hp |].
  exact (proj2 (stored_length_wraps toy_hdr_checksum toy_checksum
                  10 1 3 0 0x1234 1 2 5 3 0xf0 (repeat 0 1011)) Hp).
Defined.

Lemma same_packet_iff_same_fields_and_payload_witness :
  (length [1; 255] <= 1010)%nat /\
  encode_command_packet toy_hdr_checksum toy_checksum
    10 1 3 0 0x1234 1 2 5 3 0xf0 [1; 255]
  = encode_command_packet toy_hdr_checksum toy_checksum
      (10 + 32) (1 + 8) 3 8 0x11234 3 6 13 (3 + 256) 0xf0 [1; 255].
Proof.
  assert (Hp : (length [1; 255] <= 1010)%nat) by (simpl; lia).
  split; [exact Hp |].
  apply (proj2 (same_packet_iff_same_fields_and_payload
                  toy_hdr_checksum toy_checksum
                  10 1 3 0 0x1234 1 2 5 3 0xf0 [1; 255]
                  (10 + 32) (1 + 8) 3 8 0x11234 3 6 13 (3 + 256) 0xf0
                  [1; 255] Hp Hp)).
  repeat split.
Defined.

Lemma returned_structure_is_justified_witness :
  get_known_payload (header_for 0 1 0x0b) [7]
  = Return (Some (General_ChipRebootRe (ChipRebootRe.mk 7))) /\
  justified (header_for 0 1 0x0b) [7]
    (General_ChipRebootRe (ChipRebootRe.mk 7)).
Proof.
  assert (Hr : get_known_payload (header_for 0 1 0x0b) [7]
               = Return (Some (General_ChipRebootRe (ChipRebootRe.mk 7))))
    by reflexivity.
  split; [exact Hr |].
  exact (returned_structure_is_justified _ _ _ Hr).
Defined.

Lemma returned_fields_fit_their_types_witness :
  Forall is_byte [0; 4; 0; 4; 0; 0; 0; 246; 255; 255; 255; 10; 0; 0; 0;
                  0; 0; 0; 0; 97] /\
  get_known_payload (header_for 3 1 0xf0)
    [0; 4; 0; 4; 0; 0; 0; 246; 255; 255; 255; 10; 0; 0; 0; 0; 0; 0; 0; 97]
  = Return (Some (FlyController_GetParamDefinitionI2015Re
                    (ParamDefI.mk 0 4 4 0 (-10) 10 0 (97 :: repeat 0 159)))) /\
  payload_fits
    (FlyController_GetParamDefinitionI2015Re
       (ParamDefI.mk 0 4 4 0 (-10) 10 0 (97 :: repeat 0 159))).
Proof.
  assert (Hp : Forall is_byte [0; 4; 0; 4; 0; 0; 0; 246; 255; 255; 255; 10;
                               0; 0; 0; 0; 0; 0; 0; 97])
    by (repeat (apply Forall_cons; [unfold is_byte; lia |]);
        apply Forall_nil).
  assert (Hr : get_known_payload (header_for 3 1 0xf0)
                 [0; 4; 0; 4; 0; 0; 0; 246; 255; 255; 255; 10; 0; 0; 0; 0; 0;
                  0; 0; 97]
               = Return (Some (FlyController_GetParamDefinitionI2015Re
                                 (ParamDefI.mk 0 4 4 0 (-10) 10 0
                                    (97 :: repeat 0 159)))))
    by (vm_compute; reflexivity).
  split; [exact Hp |]. split; [exact Hr |].
  exact (returned_fields_fit_their_types _ _ _ Hp Hr).
Defined.

Lemma fixed_shape_entries_resolve_witness :
  Forall is_byte [0x34; 0x12] /\
  get_known_payload (header_for 3 0 0xf0) [0x34; 0x12]
  = Return (Some (FlyController_GetParamDefinition2015Rq
                    (ParamDefRq.mk 0x1234))).
Proof.
  assert (Hp : Forall is_byte [0x34; 0x12])
    by (repeat (apply Forall_cons; [unfold is_byte; lia |]);
        apply Forall_nil).
  assert (Hlen : (2 <= length [0x34; 0x12])%nat) by (simpl; lia).
  split; [exact Hp |].
  exact (proj1 (proj2 (fixed_shape_entries_resolve (header_for 3 0 0xf0)
                         [0x34; 0x12] Hp))
           eq_refl eq_refl eq_refl Hlen).
Defined.

Lemma parameter_name_ignores_padding_witness :
  cmd_set (header_for 3 1 0xf0) = CMD_SET_TYPE_FLYCONTROLLER /\
  Hdr.packet_type (header_for 3 1 0xf0) = PACKET_TYPE_RESPONSE /\
  cmd_id (header_for 3 1 0xf0) = 0xf0 /\
  (20 <= length [0; 4; 0; 4; 0; 0; 0; 246; 255; 255; 255; 10; 0; 0; 0;
                 0; 0; 0; 0; 97])%nat /\
  exists v,
    get_known_payload (header_for 3 1 0xf0)
      [0; 4; 0; 4; 0; 0; 0; 246; 255; 255; 255; 10; 0; 0; 0; 0; 0; 0; 0; 97]
    = Return (Some v) /\
    match v with
    | FlyController_GetParamDefinitionU2015Re r =>
        c_char_array_value (ParamDefU.name r) = [97]
    | FlyController_GetParamDefinitionI2015Re r =>
        c_char_array_value (ParamDefI.name r) = [97]
    | FlyController_GetParamDefinitionF2015Re r =>
        c_char_array_value (ParamDefF.name r) = [97]
    | _ => False
    end.
Proof.
  assert (Hlen : (20 <= length [0; 4; 0; 4; 0; 0; 0; 246; 255; 255; 255;
                               10; 0; 0; 0; 0; 0; 0; 0; 97])%nat)
    by (simpl; lia).
  split; [reflexivity |]. split; [reflexivity |]. split; [reflexivity |].
  split; [exact Hlen |].
  exact (parameter_name_ignores_padding (header_for 3 1 0xf0)
           [0; 4; 0; 4; 0; 0; 0; 246; 255; 255; 255; 10; 0; 0; 0;
            0; 0; 0; 0; 97]
           eq_refl eq_refl eq_refl Hlen).
Defined.

Lemma header_fields_and_enumerations_witness :
  is_byte (cmd_type_data (header_for 3 1 0xf0)) /\
  exists e : PACKET_TYPE.t,
    by_value (Hdr.packet_type (header_for 3 1 0xf0)) = Return e.
Proof.
  assert (Hb : is_byte (cmd_type_data (header_for 3 1 0xf0)))
    by (vm_compute; split; [discriminate | reflexivity]).
  split; [exact Hb |].
  exact (proj1 (proj2 (proj2 (proj2
           (header_fields_and_enumerations (header_for 3 1 0xf0))))) Hb).
Defined.

Lemma enumeration_inputs_survive_the_wire_witness :
  encode_command_packet_en toy_hdr_checksum toy_checksum
    COMM_DEV_TYPE.PC 1 COMM_DEV_TYPE.CAMERA 0 0x1234 PACKET_TYPE.RESPONSE
    ACK_TYPE.ACK_AFTER_EXEC ENCRYPT_TYPE.AES_256 CMD_SET_TYPE.FLYCONTROLLER
    0xf0 [1; 255]
  = Some [85; 15; 4; 4; 42; 1; 52; 18; 199; 3; 240; 1; 255; 255; 255] /\
  exists h,
    Hdr.from_buffer_copy
      [85; 15; 4; 4; 42; 1; 52; 18; 199; 3; 240; 1; 255; 255; 255]
    = Return h /\
    by_value (Hdr.sender_type h) = Return COMM_DEV_TYPE.PC /\
    by_value (Hdr.receiver_type h) = Return COMM_DEV_TYPE.CAMERA /\
    by_value (Hdr.packet_type h) = Return PACKET_TYPE.RESPONSE /\
    by_value (Hdr.ack_type h) = Return ACK_TYPE.ACK_AFTER_EXEC /\
    by_value (Hdr.encrypt_type h) = Return ENCRYPT_TYPE.AES_256 /\
    by_value (cmd_set h) = Return CMD_SET_TYPE.FLYCONTROLLER /\
    Hdr.sender_index h = 1 /\
    Hdr.receiver_index h = 0 /\
    seq_num h = 0x1234 /\
    cmd_id h = 0xf0.
Proof.
  assert (Henc : encode_command_packet_en toy_hdr_checksum toy_checksum
                   COMM_DEV_TYPE.PC 1 COMM_DEV_TYPE.CAMERA 0 0x1234
                   PACKET_TYPE.RESPONSE ACK_TYPE.ACK_AFTER_EXEC
                   ENCRYPT_TYPE.AES_256 CMD_SET_TYPE.FLYCONTROLLER 0xf0
                   [1; 255]
                 = Some [85; 15; 4; 4; 42; 1; 52; 18; 199; 3; 240; 1; 255;
                         255; 255])
    by (vm_compute; reflexivity).
  split; [exact Henc |].
  exact (enumeration_inputs_survive_the_wire toy_hdr_checksum toy_checksum
           COMM_DEV_TYPE.PC 1 COMM_DEV_TYPE.CAMERA 0 0x1234
           PACKET_TYPE.RESPONSE ACK_TYPE.ACK_AFTER_EXEC ENCRYPT_TYPE.AES_256
           CMD_SET_TYPE.FLYCONTROLLER 0xf0 [1; 255] _ Henc).
Defined.

Lemma one_digit_arguments_witness :
  is_digit "2"%char = true /\
  digit_value "2"%char <= 2 /\
  exists e,
    parse_ack_type ascii_upper "2" = Parsed e /\ enum_value e = 2.
Proof.
  assert (Hd : is_digit "2"%char = true) by reflexivity.
  assert (Hn : digit_value "2"%char <= 2) by (vm_compute; discriminate).
  split; [exact Hd |]. split; [exact Hn |].
  exact (proj1 (proj1 (one_digit_arguments ascii_upper "2"%char Hd)) Hn).
Defined.

Lemma two_digit_arguments_witness :
  is_digit "1"%char = true /\
  is_digit "0"%char = true /\
  ascii_upper "10" = "10"%string /\
  (exists e,
     parse_module_type ascii_upper "10" = Parsed e /\ enum_value e = 10) /\
  parse_cmd_set ascii_upper "10"
  = ArgumentTypeError "Unrecognized name of enum item".
Proof.
  assert (H1 : is_digit "1"%char = true) by reflexivity.
  assert (H0 : is_digit "0"%char = true) by reflexivity.
  assert (Hup : ascii_upper "10" = "10"%string) by reflexivity.
  assert (Hn : 10 * digit_value "1"%char + digit_value "0"%char <= 31)
    by (vm_compute; discriminate).
  split; [exact H1 |]. split; [exact H0 |]. split; [exact Hup |].
  split.
  - exact (proj1 (two_digit_arguments ascii_upper "1"%char "0"%char H1 H0)
             Hn).
  - exact (proj2 (proj2 (two_digit_arguments ascii_upper "1"%char "0"%char
                           H1 H0)) Hup).
Defined.

Lemma name_arguments_witness :
  re_search_digits 1 2 "camera" = false /\
  (parse_module_type ascii_upper "camera" = Parsed COMM_DEV_TYPE.CAMERA <->
   enum_name COMM_DEV_TYPE.CAMERA = ascii_upper "camera").
Proof.
  assert (Hs : re_search_digits 1 2 "camera" = false) by reflexivity.
  split; [exact Hs |].
  exact (proj1 (name_arguments ascii_upper "camera") Hs COMM_DEV_TYPE.CAMERA).
Defined.

Lemma module_ident_forms_witness :
  is_digit "0"%char = true /\
  is_digit "8"%char = true /\
  is_digit "1"%char = true /\
  parse_module_ident "0801" = Parsed ("08", "01")%string /\
  parse_module_ident "m0801" = Parsed ("08", "01")%string /\
  parse_module_ident "801" = Parsed ("8", "01")%string /\
  parse_module_ident "m801" = Parsed ("8", "01")%string.
Proof.
  assert (H0 : is_digit "0"%char = true) by reflexivity.
  assert (H8 : is_digit "8"%char = true) by reflexivity.
  assert (H1 : is_digit "1"%char = true) by reflexivity.
  split; [exact H0 |]. split; [exact H8 |]. split; [exact H1 |].
  exact (module_ident_forms "0"%char "8"%char "0"%char "1"%char
           H0 H8 H0 H1).
Defined.

Lemma module_ident_accepts_only_its_pattern_witness :
  parse_module_ident "m0801" = Parsed ("08", "01")%string /\
  all_digits "08" = true /\ all_digits "01" = true /\
  (String.length "08" = 1%nat \/ String.length "08" = 2%nat) /\
  String.length "01" = 2%nat /\
  exists pre post,
    (pre = "" \/ pre = "m")%string /\
    (post = "" \/ post = String "010"%char "")%string /\
    "m0801"%string = (pre ++ "08" ++ "01" ++ post)%string.
Proof.
  assert (Hp : parse_module_ident "m0801" = Parsed ("08", "01")%string)
    by reflexivity.
  split; [exact Hp |].
  exact (proj1 (module_ident_accepts_only_its_pattern "m0801") _ _ Hp).
Defined.

Lemma printed_line_lists_the_packet_bytes_witness :
  Forall is_byte [1; 255] /\
  (length [1; 255] <= 1010)%nat /\
  exists pkt line,
    encode_command_packet_en toy_hdr_checksum toy_checksum
      COMM_DEV_TYPE.PC 1 COMM_DEV_TYPE.CAMERA 0 0x1234 PACKET_TYPE.RESPONSE
      ACK_TYPE.ACK_AFTER_EXEC ENCRYPT_TYPE.AES_256
      CMD_SET_TYPE.FLYCONTROLLER 0xf0 [1; 255] = Some pkt /\
    do_build_packet toy_hdr_checksum toy_checksum
      (Options.mk COMM_DEV_TYPE.PC 1 COMM_DEV_TYPE.CAMERA 0 0x1234
         PACKET_TYPE.RESPONSE ACK_TYPE.ACK_AFTER_EXEC ENCRYPT_TYPE.AES_256
         CMD_SET_TYPE.FLYCONTROLLER 0xf0 [1; 255]) = Some line /\
    String.length line = (3 * (13 + length [1; 255]) - 1)%nat /\
    (forall k, (k < length pkt)%nat ->
       HexString.Raw.to_N (substring (3 * k) 2 line) 0%N
       = Z.to_N (nth k pkt 0)) /\
    (forall k, (S k < length pkt)%nat ->
       substring (3 * k + 2) 1 line = " "%string).
Proof.
  assert (Hp : Forall is_byte [1; 255])
    by (repeat (apply Forall_cons; [unfold is_byte; lia |]);
        apply Forall_nil).
  assert (Hlen : (length [1; 255] <= 1010)%nat) by (simpl; lia).
  split; [exact Hp |]. split; [exact Hlen |].
  exact (printed_line_lists_the_packet_bytes toy_hdr_checksum toy_checksum
           (Options.mk COMM_DEV_TYPE.PC 1 COMM_DEV_TYPE.CAMERA 0 0x1234
              PACKET_TYPE.RESPONSE ACK_TYPE.ACK_AFTER_EXEC
              ENCRYPT_TYPE.AES_256 CMD_SET_TYPE.FLYCONTROLLER 0xf0 [1; 255])
           Hp Hlen).
Defined.
